(** * ECSE-552 final project: a model of [Code/models.py] and [Code/train.py]

    The repository is orchestration code around a training framework.  The
    development below embeds the repository's own functions; what the
    framework and the other libraries compute (network layers, the training
    loop, the search sampler, the clock, the file system) enters as
    parameters: Section variables for [models.py], the record [Externals]
    for [train.py].

    Numbers: tensor entries, losses and matrix cells are exact rationals
    ([Qc]): the float32 rounding of the tensor arithmetic (and its
    underflow, infinities and NaN other than 0/0) is outside the model, and
    every statement about such a number is a statement in exact arithmetic.
    The split fraction of [split_dataset] is an IEEE double, with the
    rounding of its product.  In [models.py] a computation that raises, or
    that has no rational value (0/0), is [None]; in [train.py] a run ends in
    [Ok] or in [Raise]. *)

From stdpp Require Import gmap strings list.
From Stdlib Require Import QArith Qcanon Qround.
From Stdlib Require Import Floats.SpecFloat.

Open Scope Qc_scope.

(** ** Tensors of the ranks the autoencoders use *)

Module Tensor.

Abbreviation tensor1 := (list Qc).
Abbreviation tensor2 := (list (list Qc)).
Abbreviation tensor3 := (list (list (list Qc))).
Abbreviation tensor4 := (list (list (list (list Qc)))).

(** [t.sum()] of a rank-1 tensor. *)
Definition sum1 (t : tensor1) : Qc := foldr Qcplus 0 t.

(** Reduction of the last dimension, one rank at a time:
    [t.sum(dim=1)], [t.sum(dim=2)], [t.sum(dim=3)] on ranks 2, 3, 4. *)
Definition sum_dim1 (t : tensor2) : tensor1 := map sum1 t.
Definition sum_dim2 (t : tensor3) : tensor2 := map sum_dim1 t.
Definition sum_dim3 (t : tensor4) : tensor3 := map sum_dim2 t.

(** [t.sum(dim=[1,2,3])] on a rank-4 tensor: every dimension but the batch. *)
Definition sum_dims123 (t : tensor4) : tensor1 :=
  sum_dim1 (sum_dim2 (sum_dim3 t)).

(** [t.mean(dim=[0])] on a rank-1 tensor; the mean of no element is NaN. *)
Definition mean_dim0 (t : tensor1) : option Qc :=
  match t with
  | [] => None
  | _ => Some (sum1 t / Q2Qc (inject_Z (Z.of_nat (length t))))
  end.

(** Pointwise combination of two lists of the same length. *)
Fixpoint zip_exact {A B C} (f : A → B → option C) (l : list A) (k : list B)
  : option (list C) :=
  match l, k with
  | [], [] => Some []
  | a :: l', b :: k' =>
      c ← f a b; r ← zip_exact f l' k'; Some (c :: r)
  | _, _ => None
  end.

(** Two operands as torch broadcasts them along one dimension: the sizes
    are equal, or one of them is 1 and that operand is repeated; [f] does
    the same to the entries.  (A tensor is a nested list here, so the sizes
    under an empty dimension are not represented.) *)
Definition bzip {A B C} (f : A → B → option C) (l : list A) (k : list B)
  : option (list C) :=
  if bool_decide (length l = length k) then zip_exact f l k
  else
    match l, k with
    | [a], _ => mapM (f a) k
    | _, [b] => mapM (λ a, f a b) l
    | _, _ => None
    end.

Definition bcast {A B A' B'} (f : A → B → option (A' * B')) (l : list A) (k : list B)
  : option (list A' * list B') :=
  (λ pairs, (pairs.*1, pairs.*2)) <$> bzip f l k.

(** [torch.broadcast_tensors(a, b)] on two rank-4 tensors; it raises when a
    dimension has two sizes of which none is 1. *)
Definition broadcast_tensors (a b : tensor4) : option (tensor4 * tensor4) :=
  bcast (bcast (bcast (bcast (λ p q, Some (p, q))))) a b.

Definition sq_diff (a b : Qc) : Qc := (a - b) * (a - b).

(** [x.shape] as [print] shows it, read off the first entry of each level. *)
Definition shape4 (x : tensor4) : list nat :=
  let c := default [] (head x) in
  let h := default [] (head c) in
  let w := default [] (head h) in
  [length x; length c; length h; length w].

(** Pointwise squared differences at each rank. *)
Definition sq1 (a b : tensor1) : tensor1 := zip_with sq_diff a b.
Definition sq2 (a b : tensor2) : tensor2 := zip_with sq1 a b.
Definition sq3 (a b : tensor3) : tensor3 := zip_with sq2 a b.
Definition sq4 (a b : tensor4) : tensor4 := zip_with sq3 a b.

(** [F.mse_loss(a, b, reduction="none")]: the operands are broadcast (with
    a warning when their sizes differ) and the differences of their entries
    squared. *)
Definition mse_loss_none (a b : tensor4) : option tensor4 :=
  '(expanded_input, expanded_target) ← broadcast_tensors a b;
  Some (sq4 expanded_input expanded_target).

(** The entries of a sample (rank 3), in row-major order. *)
Definition flat3 (s : tensor3) : tensor1 := concat (concat s).

(** Same nesting at every level. *)
Definition same_shape1 (a b : tensor1) : Prop := length a = length b.
Definition same_shape2 (a b : tensor2) : Prop := Forall2 same_shape1 a b.
Definition same_shape3 (a b : tensor3) : Prop := Forall2 same_shape2 a b.
Definition same_shape4 (a b : tensor4) : Prop := Forall2 same_shape3 a b.

End Tensor.
Import Tensor.

(** ** [models.py] *)

(** *** [Autoencoder_1] *)

Module Autoencoder_1.
Section Autoencoder_1.
(** [encoder_class(...)] and [decoder_class(...)] are constructor
    arguments of the class: the two networks are parameters here. *)
Context {latent : Type}.
Variable encoder : tensor4 → option latent.
Variable decoder : latent → option tensor4.

(** [forward]: what is printed, and the reconstruction. *)
Definition forward (x : tensor4) : list nat * option tensor4 :=
  let printed := shape4 x in
  let z := encoder x in
  let x_hat := z ≫= decoder in
  (printed, x_hat).

Definition _get_reconstruction_loss {L} (batch : tensor4 * L) : option Qc :=
  let '(x, _) := batch in
  x_hat ← (forward x).2;
  loss ← mse_loss_none x x_hat;
  mean_dim0 (sum_dims123 loss).

(** The steps return the loss (only [training_step] does) and the entry
    they pass to [self.log]. *)
Definition training_step {L} (batch : tensor4 * L) (batch_idx : nat)
  : option (Qc * (string * Qc)) :=
  loss ← _get_reconstruction_loss batch;
  Some (loss, ("train_loss"%string, loss)).

Definition validation_step {L} (batch : tensor4 * L) (batch_idx : nat)
  : option (unit * (string * Qc)) :=
  loss ← _get_reconstruction_loss batch;
  Some ((), ("val_loss"%string, loss)).

Definition test_step {L} (batch : tensor4 * L) (batch_idx : nat)
  : option (unit * (string * Qc)) :=
  loss ← _get_reconstruction_loss batch;
  Some ((), ("test_loss"%string, loss)).
End Autoencoder_1.
End Autoencoder_1.

(** The loss as the documentation words it: the mean over the batch of each
    sample's sum, over channel, height and width, of squared differences. *)
Definition sample_sq_error (s s_hat : tensor3) : Qc :=
  sum1 (zip_with (λ p q, (p - q) ^ 2) (flat3 s) (flat3 s_hat)).

Definition batch_mean_sq_error (x x_hat : tensor4) : Qc :=
  sum1 (zip_with sample_sq_error x x_hat) / Q2Qc (inject_Z (Z.of_nat (length x))).

(** *** [AutoEncoder]: the fixed-topology network *)

Module AutoEncoder.

(** The layers the class stacks, with the arguments it gives them.
    [Reshape] and [Trim] are the two modules the file defines itself. *)
Inductive Layer :=
| Conv2d (c_in c_out : nat) (stride kernel_size : nat * nat) (padding : nat)
| ConvTranspose2d (c_in c_out : nat) (stride kernel_size : nat * nat) (padding : nat)
| LeakyReLU (negative_slope : Qc)
| Flatten
| Linear (n_in n_out : nat)
| Reshape (shape : list Z)
| Trim
| Sigmoid.

Definition encoder : list Layer :=
  [ Conv2d 1 32 (1, 1)%nat (3, 3)%nat 1;
    LeakyReLU (Q2Qc (1 # 100));
    Conv2d 32 64 (2, 2)%nat (3, 3)%nat 1;
    LeakyReLU (Q2Qc (1 # 100));
    Conv2d 64 64 (2, 2)%nat (3, 3)%nat 1;
    LeakyReLU (Q2Qc (1 # 100));
    Conv2d 64 64 (1, 1)%nat (3, 3)%nat 1;
    Flatten;
    Linear 3136 2 ].

Definition decoder : list Layer :=
  [ Linear 2 3136;
    Reshape [(-1)%Z; 64%Z; 7%Z; 7%Z];
    ConvTranspose2d 64 64 (1, 1)%nat (3, 3)%nat 1;
    LeakyReLU (Q2Qc (1 # 100));
    ConvTranspose2d 64 64 (2, 2)%nat (3, 3)%nat 1;
    LeakyReLU (Q2Qc (1 # 100));
    ConvTranspose2d 64 32 (2, 2)%nat (3, 3)%nat 0;
    LeakyReLU (Q2Qc (1 # 100));
    ConvTranspose2d 32 1 (1, 1)%nat (3, 3)%nat 0;
    Trim;
    Sigmoid ].

Section Forward.
(** What a layer computes (with its weights) is the framework's. *)
Context {act : Type}.
Variable layer_forward : Layer → act → option act.

(** [nn.Sequential.forward]: each module is fed the previous one's output. *)
Definition Sequential (modules : list Layer) (input : act) : option act :=
  foldl (λ acc m, acc ≫= layer_forward m) (Some input) modules.

Definition forward (x : act) : option act :=
  x ← Sequential encoder x;
  x ← Sequential decoder x;
  Some x.
End Forward.
End AutoEncoder.

(** *** [compute_epoch_loss_autoencoder] *)

Section EpochLoss.
Context {features logits labels : Type}.
(** The model (in evaluation mode), the loss function with its [reduction]
    keyword, and [features.size(0)]. *)
Variable model : features → logits.
Variable loss_fn : logits → features → string → Qc.
Variable size0 : features → nat.

(** One iteration of the loop on the pair [(curr_loss, num_examples)]. *)
Definition epoch_loss_step (st : Qc * nat) (batch : features * labels) : Qc * nat :=
  let '(curr_loss, num_examples) := st in
  let '(features, _) := batch in
  let logits := model features in
  let loss := loss_fn logits features "sum" in
  let num_examples := (num_examples + size0 features)%nat in
  let curr_loss := curr_loss + loss in
  (curr_loss, num_examples).

(** Dividing by zero examples raises (or is not a number). *)
Definition compute_epoch_loss_autoencoder (data_loader : list (features * labels))
  : option Qc :=
  let '(curr_loss, num_examples) := foldl epoch_loss_step (0, 0%nat) data_loader in
  match num_examples with
  | O => None
  | _ => Some (curr_loss / Q2Qc (inject_Z (Z.of_nat num_examples)))
  end.

(** The two quantities the documentation names: the summed loss of every
    batch added up, and the number of examples in the loader. *)
Definition total_loss (data_loader : list (features * labels)) : Qc :=
  sum1 (map (λ b, loss_fn (model b.1) b.1 "sum") data_loader).

Definition total_examples (data_loader : list (features * labels)) : nat :=
  sum_list (map (λ b, size0 b.1) data_loader).
End EpochLoss.

(** ** [train.py] *)

(** *** Values, events and the state the code runs in *)

(** A cell of a float matrix: a rational, or [None] for NaN. *)
Abbreviation cell := (option Qc).

(** What the code hands to the libraries.  [VCtor cls args kwargs] is an
    object built by the call of [cls] on [args] and [kwargs]; [VObj id] is a stateful object
    of the framework created earlier; [VData ds batches] is a [DataLoader]:
    the dataset object and the sample indices of each batch. *)
#[warnings="-register-all"]
Inductive Value :=
| VNone
| VBool (b : bool)
| VInt (z : Z)
| VNum (q : cell)
| VStr (s : string)
| VObj (id : nat)
| VList (vs : list Value)
| VData (ds : nat) (batches : list (list nat))
| VCtor (cls : string) (args : list Value) (kwargs : list (string * Value)).

(** What ends up in a file.  [Empty] is a file that was just opened for
    writing; [TrainerFile] is what the trainer's callbacks and its profiler
    write during a fit (checkpoints, the profiler's report). *)
Inductive Content :=
| Empty
| JsonDump (metrics : gmap string (list Qc))
| LossAccFigure (train_loss val_loss train_acc_epoch val_acc_epoch : list Qc)
| MatrixFigure (title : string) (matrix : list (list cell)) (display_labels : list string)
| Csv (matrix : list (list cell))
| TrainerFile.

(** The interactions of the code with everything outside it, in order. *)
Inductive Event :=
| Print (pieces : list Value)
| Mkdir (path : string)
| New (id : nat) (cls : string) (args : list Value) (kwargs : list (string * Value))
| Call (obj : nat) (method : string) (args : list Value)
| Invoke (function : string) (args : list Value)
| Save (path : string) (content : Content)
| PltShow.

Inductive Exn :=
| KeyError (key : string)
| NameError (name : string)
| ValueError (message : string)
| IndexError (message : string)
| AttributeError (name : string)
| TypeError (message : string)
| OSError (message : string).

Inductive Result (A : Type) :=
| Ok (a : A)
| Raise (e : Exn).
Arguments Ok {A} a.
Arguments Raise {A} e.

(** [log] holds the events, the newest first; [logger_metrics] is the
    [metrics] dict of each logger, [callback_metrics] the dict of each
    trainer, [trial_params] the [params] of each trial. *)
Record World := mkWorld {
  log : list Event;
  next_id : nat;
  fs_dirs : gset string;
  logger_metrics : gmap nat (gmap string (list Qc));
  callback_metrics : gmap nat (gmap string Qc);
  trial_params : gmap nat (list (string * Z));
}.

Definition trace (w : World) : list Event := reverse (log w).

Definition Py (A : Type) : Type := World → Result A * World.

#[global] Instance Py_ret : MRet Py := λ A a w, (Ok a, w).
#[global] Instance Py_bind : MBind Py := λ A B f m w,
  match m w with
  | (Ok a, w') => f a w'
  | (Raise e, w') => (Raise e, w')
  end.

Definition raise {A} (e : Exn) : Py A := λ w, (Raise e, w).

Definition get_world : Py World := λ w, (Ok w, w).

Definition emit (e : Event) : Py unit := λ w,
  (Ok (), mkWorld (e :: log w) (next_id w) (fs_dirs w) (logger_metrics w)
            (callback_metrics w) (trial_params w)).

Definition fresh : Py nat := λ w,
  (Ok (next_id w), mkWorld (log w) (S (next_id w)) (fs_dirs w) (logger_metrics w)
            (callback_metrics w) (trial_params w)).

Definition add_dir (path : string) : Py unit := λ w,
  (Ok (), mkWorld (log w) (next_id w) ({[path]} ∪ fs_dirs w) (logger_metrics w)
            (callback_metrics w) (trial_params w)).

Definition set_logger_metrics (logger : nat) (m : gmap string (list Qc)) : Py unit := λ w,
  (Ok (), mkWorld (log w) (next_id w) (fs_dirs w) (<[logger := m]> (logger_metrics w))
            (callback_metrics w) (trial_params w)).

Definition set_callback_metrics (trainer : nat) (m : gmap string Qc) : Py unit := λ w,
  (Ok (), mkWorld (log w) (next_id w) (fs_dirs w) (logger_metrics w)
            (<[trainer := m]> (callback_metrics w)) (trial_params w)).

Definition add_trial_param (trial : nat) (name : string) (v : Z) : Py unit := λ w,
  (Ok (), mkWorld (log w) (next_id w) (fs_dirs w) (logger_metrics w) (callback_metrics w)
            (<[trial := default [] (trial_params w !! trial) ++ [(name, v)]]> (trial_params w))).

(** [print(...)] *)
Definition print (pieces : list Value) : Py unit := emit (Print pieces).

(** the call of [cls] on [args] and [kwargs] for a stateful object of a library. *)
Definition new (cls : string) (args : list Value) (kwargs : list (string * Value)) : Py nat :=
  id ← fresh;
  _ ← emit (New id cls args kwargs);
  mret id.

(** A [for] loop whose body may raise. *)
Fixpoint for_each {A} (l : list A) (body : A → Py unit) : Py unit :=
  match l with
  | [] => mret ()
  | a :: l' => _ ← body a; for_each l' body
  end.

(** A loop that carries an accumulator. *)
Fixpoint fold_py {A S} (body : S → A → Py S) (l : list A) (s : S) : Py S :=
  match l with
  | [] => mret s
  | a :: l' => s' ← body s a; fold_py body l' s'
  end.

(** What a call of [trainer.fit] does, as far as the code can see it: the
    directories and the files its callbacks and its profiler make, the
    metrics it leaves with the logger and in [callback_metrics], and the
    exception that ends it, if one does. *)
Record FitOutcome := mkFitOutcome {
  fit_dirs : list string;
  fit_files : list string;
  fit_logger_metrics : gmap string (list Qc);
  fit_callback_metrics : gmap string Qc;
  fit_exception : option Exn;
}.

(** What the libraries and the machine answer.  An answer may depend on
    everything that happened before: the first argument, where present, is
    the log at the time of the call.  [seeded_randperm seed n] is
    [torch.randperm(n)] drawn from a generator that was just seeded.
    [open_error] is the message of the [OSError] that opening a file for
    writing raises, if it does.  [int64_of_invalid] is what the cast of a
    double that is not a number, or whose floor is outside the 64-bit
    integers, gives on the machine.  [binds_BaselineResnetClassifier]
    tells whether that name is bound among the globals of [train.py]: the
    file binds it only under [if __name__ == "__main__"], by an import from
    [models.py], which does not define it. *)
Record Externals := mkExternals {
  environ : gset string;
  binds_BaselineResnetClassifier : bool;
  os_path_join : string → string → string;
  mkdir_error : list Event → string → option string;
  open_error : list Event → string → option string;
  today_strftime : list Event → string;
  now_strftime : list Event → string;
  default_timer : list Event → Qc;
  cuda_is_available : list Event → bool;
  round_digits : cell → nat → cell;
  int64_of_invalid : spec_float → Z;
  trainer_fit : list Event → FitOutcome;
  model_forward : list Event → nat → nat → list nat → list (list Qc);
  softmax : list (list Qc) → list (list Qc);
  argmax : list (list Qc) → list nat;
  roc_auc_score : list nat → list Qc → list string → Result Qc;
  randperm_default : list Event → nat → list nat;
  suggest_int : list Event → nat → string → Z → Z → bool → Z;
  audio_dataset_files : list Event → string → list (string * Value) → list nat * list string;
  seeded_randperm : Z → nat → list nat;
}.

(** *** Datasets and loaders *)

(** The samples of an [AudioDataset] are known by their position; the
    model keeps each sample's label and the class directories. *)
Record AudioDataset := mkAudioDataset {
  ds_id : nat;
  ds_labels : list nat;
  dirs : list string;
}.

Record Subset := mkSubset {
  dataset : AudioDataset;
  indices : list nat;
}.

Record DataLoader := mkDataLoader {
  dl_dataset : Subset;
  dl_batch_size : nat;
}.

Fixpoint chunks_upto {A} (fuel n : nat) (l : list A) : list (list A) :=
  match fuel with
  | O => []
  | S fuel' =>
      match l with
      | [] => []
      | _ => take n l :: chunks_upto fuel' n (drop n l)
      end
  end.

(** The batches of a sequential loader that keeps the last, shorter one. *)
Definition chunks {A} (n : nat) (l : list A) : list (list A) :=
  chunks_upto (length l) n l.

Definition index_batches (dl : DataLoader) : list (list nat) :=
  chunks (dl_batch_size dl) (indices (dl_dataset dl)).

Definition loader_value (dl : DataLoader) : Value :=
  VData (ds_id (dataset (dl_dataset dl))) (index_batches dl).

(** [DataLoader(dataset, batch_size=batch_size)] refuses a batch size that
    is not positive. *)
Definition new_DataLoader (ds : Subset) (batch_size : Z) : Py DataLoader :=
  if bool_decide (0 < batch_size)%Z
  then mret (mkDataLoader ds (Z.to_nat batch_size))
  else raise (ValueError "batch_size should be a positive integer value").

(** Fetching the labels of a batch; a position outside the dataset raises. *)
Definition fetch_labels (ds : AudioDataset) (idxs : list nat) : Py (list nat) :=
  match mapM (λ i, ds_labels ds !! i) idxs with
  | Some ys => mret ys
  | None => raise (IndexError "list index out of range")
  end.

(** *** Slices and [random_split] *)

Definition slice_bound (len i : Z) : Z :=
  if bool_decide (i < 0)%Z then Z.max 0 (i + len) else Z.min i len.

(** [l[start:stop]] *)
Definition py_slice {A} (l : list A) (start stop : Z) : list A :=
  let len := Z.of_nat (length l) in
  let a := slice_bound len start in
  let b := slice_bound len stop in
  take (Z.to_nat (b - a)) (drop (Z.to_nat a) l).

Inductive Generator :=
| default_generator
| manual_seed (seed : Z).

Definition sum_Z (l : list Z) : Z := foldr Z.add 0%Z l.

(** [itertools.accumulate]: the running sums. *)
Fixpoint accumulate_from (acc : Z) (l : list Z) : list Z :=
  match l with
  | [] => []
  | x :: l' => (acc + x)%Z :: accumulate_from (acc + x)%Z l'
  end.
Definition accumulate (l : list Z) : list Z := accumulate_from 0%Z l.

Section Train.
Variable e : Externals.

Definition randperm (n : Z) (g : Generator) : Py (list nat) :=
  match g with
  | default_generator =>
      _ ← emit (Invoke "torch.randperm" [VInt n]);
      w ← get_world;
      mret (randperm_default e (log w) (Z.to_nat n))
  | manual_seed seed => mret (seeded_randperm e seed (Z.to_nat n))
  end.

Definition random_split (ds : AudioDataset) (lengths : list Z) (g : Generator)
  : Py (list Subset) :=
  if bool_decide (sum_Z lengths ≠ Z.of_nat (length (ds_labels ds)))
  then raise (ValueError "Sum of input lengths does not equal the length of the input dataset!")
  else
    indices ← randperm (sum_Z lengths) g;
    mret (map (λ '(offset, length), mkSubset ds (py_slice indices (offset - length) offset))
              (zip (accumulate lengths) lengths)).

(** Unpacking [a, b = ...]. *)
Definition unpack2 {A} (l : list A) : Py (A * A) :=
  match l with
  | [a; b] => mret (a, b)
  | _ => raise (ValueError "not enough values to unpack")
  end.

(** *** The functions of [train.py] *)

Definition BASELINE_RESNET_NAME : string := "Baseline Resnet".
Definition MEL_AE_NAME : string := "Mel AE".

Definition is_colab : bool := bool_decide ("COLAB_GPU"%string ∈ environ e).

(** [try: os.mkdir(path) except OSError as error: print(error)] *)
Definition try_mkdir (path : string) : Py unit :=
  w ← get_world;
  match mkdir_error e (log w) path with
  | Some error => print [VStr error]
  | None => _ ← emit (Mkdir path); add_dir path
  end.

Definition isdir (path : string) : Py bool :=
  w ← get_world; mret (bool_decide (path ∈ fs_dirs w)).

Definition init_measurements_path : Py string :=
  _ ← print [VStr "Creating measurements path..."];
  measurements_dir ←
    (if is_colab
     then _ ← print [VStr "Running on Colab"];
          mret "/content/drive/MyDrive/ECSE-552-FP/Measurements/"%string
     else _ ← print [VStr "Not running on Colab"];
          mret "./Measurements/"%string);
  w ← get_world;
  let now := today_strftime e (log w) in
  let measurements_path := os_path_join e measurements_dir now in
  b ← isdir measurements_dir;
  _ ← (if negb b then try_mkdir measurements_dir else mret ());
  b ← isdir measurements_path;
  _ ← (if negb b then try_mkdir measurements_path else mret ());
  mret measurements_path.

(** The floor of the exact product [num_samples * train_split]. *)
Definition floor_mul (num_samples : nat) (train_split : Q) : Z :=
  Qfloor (inject_Z (Z.of_nat num_samples) * train_split)%Q.

(** [num_samples * train_split]: the integer is converted to a double and
    the two doubles are multiplied, each step rounding to the nearest
    double. *)
Definition float_of_nat (n : nat) : spec_float :=
  binary_normalize 53 1024 (Z.of_nat n) 0 false.

Definition float_mul (a b : spec_float) : spec_float := SFmul 53 1024 a b.

(** The double nearest to the fraction [a / b], which is what the literal
    denotes: [float_ratio 7 10] is [0.7]. *)
Definition float_ratio (a b : nat) : spec_float :=
  SFdiv 53 1024 (float_of_nat a) (float_of_nat b).

(** The number a finite double stands for. *)
Definition float_value (x : spec_float) : Q :=
  match x with
  | S754_finite false m e => inject_Z (Z.pos m) * Qpower 2 e
  | S754_finite true m e => inject_Z (Z.neg m) * Qpower 2 e
  | _ => 0
  end.

(** A 64-bit integer: the wrap-around of numpy's [int64]. *)
Definition wrap64 (z : Z) : Z := ((z + 2 ^ 63) `mod` 2 ^ 64 - 2 ^ 63)%Z.

(** The floor of a double that has one: an integer. *)
Definition float_floor (x : spec_float) : option Z :=
  match x with
  | S754_zero _ => Some 0%Z
  | S754_finite false m e => Some (Z.shiftl (Z.pos m) e)
  | S754_finite true m e => Some (Z.shiftl (Z.neg m) e)
  | _ => None
  end.

(** [np.floor(x).astype(int)]: the floor, as a 64-bit integer. *)
Definition floor_astype_int (x : spec_float) : Z :=
  match float_floor x with
  | Some z =>
      if bool_decide (- 2 ^ 63 ≤ z < 2 ^ 63)%Z then z else int64_of_invalid e x
  | None => int64_of_invalid e x
  end.

(** [np.floor(num_samples * train_split).astype(int)] *)
Definition num_train_of (num_samples : nat) (train_split : spec_float) : Z :=
  floor_astype_int (float_mul (float_of_nat num_samples) train_split).

(** [len(dataset)] is below 2^63, so its conversion to a double is finite.
    [num_val] and the sums and differences [random_split] takes of the two
    lengths are 64-bit integers as well.  They are unbounded here: for a
    dataset of fewer than 2^63 samples the wrap-around of these operations
    leaves the same slices ([int64_lengths] below). *)
Definition split_dataset (ds : AudioDataset) (train_split : spec_float)
  : Py (Subset * Subset) :=
  let num_samples := length (ds_labels ds) in
  let num_train := num_train_of num_samples train_split in
  let num_val := (Z.of_nat num_samples - num_train)%Z in
  l ← random_split ds [num_train; num_val] default_generator;
  '(train_dataset, val_dataset) ← unpack2 l;
  mret (train_dataset, val_dataset).

Definition make_log_filenames (comment : string) : Py (string * string * string) :=
  w ← get_world;
  let now := now_strftime e (log w) in
  let profiler_filename := comment +:+ now +:+ "profiler_output" in
  let plot_filename := comment +:+ now +:+ "Loss-Acc.png" in
  mret (profiler_filename, plot_filename, now).
(** Modelled from the spec: [DictLogger] (dict_logger.py is not among the
    sources) is the logger sink, an in-memory dict-based recorder of
    per-epoch scalar metrics; a new one has recorded nothing. *)
Definition DictLogger : Py nat :=
  logger ← new "DictLogger" [] [];
  _ ← set_logger_metrics logger ∅;
  mret logger.

Record Trainer := mkTrainer {
  trainer_id : nat;
  trainer_logger : nat;
  trainer_callbacks : list Value;
}.

Definition ModelCheckpoint (monitor mode : string) : Value :=
  VCtor "ModelCheckpoint" []
    [ ("monitor", VStr monitor);
      ("dirpath", VStr "./Checkpoints");
      ("mode", VStr mode);
      ("filename", VStr "{epoch:02d}-{val_acc_step:.2f}") ]%string.

Definition init_trainer (logger : nat) (max_epochs : Z) (profiler : nat)
    (early_stopping : bool) : Py Trainer :=
  _ ← print [VStr "Initializing trainer..."];
  let callbacks :=
    if early_stopping
    then [ VCtor "EarlyStopping" [VStr "val_loss"] []; ModelCheckpoint "val_loss" "min" ]
    else [ ModelCheckpoint "val_loss" "min" ] in
  trainer ←
    (if is_colab
     then new "Trainer" []
            [ ("gpus", VInt (-1)); ("auto_select_gpus", VBool true);
              ("callbacks", VList callbacks); ("logger", VObj logger);
              ("max_epochs", VInt max_epochs); ("profiler", VObj profiler) ]%string
     else new "Trainer" []
            [ ("callbacks", VList callbacks); ("logger", VObj logger);
              ("max_epochs", VInt max_epochs); ("profiler", VObj profiler) ]%string);
  mret (mkTrainer trainer logger callbacks).

(** The events of a fit of the outcome [o]: the call, then the directories
    and the files. *)
Definition fit_events (trainer : nat) (model : nat) (train_loader val_loader : DataLoader)
    (o : FitOutcome) : list Event :=
  Call trainer "fit" [VObj model; loader_value train_loader; loader_value val_loader]
  :: (Mkdir <$> fit_dirs o) ++ ((λ path, Save path TrainerFile) <$> fit_files o).

(** [trainer.fit(model, train_loader, val_loader)]: the framework's loop.
    Its checkpoint callback and its profiler make directories and write
    files; it leaves metrics with the trainer's logger and in the trainer's
    [callback_metrics]; and it may end in an exception. *)
Definition Trainer_fit (trainer : Trainer) (model : nat) (train_loader val_loader : DataLoader)
  : Py unit :=
  _ ← emit (Call (trainer_id trainer) "fit"
              [VObj model; loader_value train_loader; loader_value val_loader]);
  w ← get_world;
  let outcome := trainer_fit e (log w) in
  _ ← for_each (fit_dirs outcome) (λ path, _ ← emit (Mkdir path); add_dir path);
  _ ← for_each (fit_files outcome) (λ path, emit (Save path TrainerFile));
  _ ← set_logger_metrics (trainer_logger trainer) (fit_logger_metrics outcome);
  _ ← set_callback_metrics (trainer_id trainer) (fit_callback_metrics outcome);
  match fit_exception outcome with
  | Some exn => raise exn
  | None => mret ()
  end.

(** [d[key]] on a dict of the state. *)
Definition getitem {V} (d : gmap string V) (key : string) : Py V :=
  match d !! key with
  | Some v => mret v
  | None => raise (KeyError key)
  end.

(** [logger.metrics] *)
Definition metrics_of (logger : nat) : Py (gmap string (list Qc)) :=
  w ← get_world;
  match logger_metrics w !! logger with
  | Some m => mret m
  | None => raise (AttributeError "metrics")
  end.

(** [open(path, 'w')]: the file is created, or emptied, unless it cannot
    be opened. *)
Definition open_w (path : string) : Py unit :=
  w ← get_world;
  match open_error e (log w) path with
  | Some message => raise (OSError message)
  | None => emit (Save path Empty)
  end.

(** [plt.savefig(path)] and [df.to_csv(path)]: the library opens the file
    and writes it. *)
Definition write_file (path : string) (content : Content) : Py unit :=
  w ← get_world;
  match open_error e (log w) path with
  | Some message => raise (OSError message)
  | None => emit (Save path content)
  end.

Definition plot_logger_metrics (logger : nat) (measurements_path plot_filename : string)
  : Py unit :=
  let save_path := os_path_join e measurements_path (plot_filename +:+ "-metrics.json") in
  _ ← open_w save_path;
  metrics ← metrics_of logger;
  _ ← emit (Save save_path (JsonDump metrics));
  train_loss ← getitem metrics "train_loss";
  val_loss ← getitem metrics "val_loss";
  train_acc_epoch ← getitem metrics "train_acc_epoch";
  val_acc_epoch ← getitem metrics "val_acc_epoch";
  _ ← write_file (os_path_join e measurements_path plot_filename)
        (LossAccFigure train_loss val_loss train_acc_epoch val_acc_epoch);
  emit PltShow.

(** [sklearn.metrics.confusion_matrix(y_true, y_pred, labels=list(range(k)))] *)
Definition count_pairs (y_true y_pred : list nat) (i j : nat) : nat :=
  length (filter (λ p, p = (i, j)) (zip y_true y_pred)).

Definition confusion_matrix (y_true y_pred : list nat) (k : nat) : Result (list (list nat)) :=
  if bool_decide (length y_true ≠ length y_pred)
  then Raise (ValueError "Found input variables with inconsistent numbers of samples")
  else if bool_decide (k = 0%nat)
  then Raise (ValueError "'labels' should contains at least one label.")
  else if bool_decide (y_true ≠ [] ∧ Forall (λ y, k ≤ y)%nat y_true)
  then Raise (ValueError "At least one label specified must be in y_true")
  else Ok (map (λ i, map (λ j, count_pairs y_true y_pred i j) (seq 0 k)) (seq 0 k)).

Definition lift_result {A} (r : Result A) : Py A := λ w, (r, w).

Definition Q_of_nat (n : nat) : Qc := Q2Qc (inject_Z (Z.of_nat n)).

(** [torch.zeros([k, k])] and [conf_mat += counts] *)
Definition zeros (k : nat) : list (list Qc) := replicate k (replicate k 0).

Definition add_counts (conf_mat : list (list Qc)) (counts : list (list nat)) : list (list Qc) :=
  zip_with (zip_with (λ a n, a + Q_of_nat n)) conf_mat counts.

(** Float division: [None] stands for the value that is not finite. *)
Definition cell_div (a s : Qc) : cell :=
  if bool_decide (s = 0) then None else Some (a / s).

Definition diagonal_sum (m : list (list Qc)) : Qc :=
  sum1 (imap (λ i row, default 0 (row !! i)) m).

Definition total_sum (m : list (list Qc)) : Qc := sum1 (map sum1 m).

(** [conf_mat[j] = conf_mat[j]/conf_mat[j].sum()] for every row. *)
Definition normalize_rows (m : list (list Qc)) : list (list cell) :=
  map (λ row, map (λ a, cell_div a (sum1 row)) row) m.

Definition raw_cells (m : list (list Qc)) : list (list cell) := map (map Some) m.

Definition newline : string := String (Ascii.ascii_of_nat 10) "".

Definition device_name : Py string :=
  w ← get_world;
  mret (if cuda_is_available e (log w) then "cuda:0" else "cpu")%string.

(** [model(x.to(device))] on the batch of the samples [idxs] of [ds]. *)
Definition call_model (model : nat) (ds : AudioDataset) (idxs : list nat)
  : Py (list (list Qc)) :=
  _ ← emit (Call model "forward" [VData (ds_id ds) [idxs]]);
  w ← get_world;
  mret (model_forward e (log w) model (ds_id ds) idxs).

Definition plot_confusion_matrix (model : nat) (model_name : string) (ds : Subset)
    (data_name : string) (batch_size : Z) (measurements_path plot_time : string)
  : Py (list (list cell)) :=
  _ ← print [VStr "Generating Confusion Matrices"];
  let class_names := dirs (dataset ds) in
  dataloader ← new_DataLoader ds batch_size;
  let conf_mat := zeros (length class_names) in
  device ← device_name;
  _ ← emit (Call model "to" [VStr device]);
  conf_mat ← fold_py (λ conf_mat idxs,
      y ← fetch_labels (dataset ds) idxs;
      y_hat ← call_model model (dataset ds) idxs;
      let y_hat := softmax e y_hat in
      let y_hat := argmax e y_hat in
      counts ← lift_result (confusion_matrix y y_hat (length class_names));
      mret (add_counts conf_mat counts))
    (index_batches dataloader) conf_mat;
  let title := model_name +:+ newline +:+ "Confusion Matrix - " +:+ data_name in
  let png_filename := model_name +:+ plot_time +:+ "ConfMat" +:+ "-" +:+ data_name +:+ "-raw" +:+ ".png" in
  let csv_filename := model_name +:+ plot_time +:+ "ConfMat" +:+ "-" +:+ data_name +:+ "-raw" +:+ ".csv" in
  _ ← write_file (os_path_join e measurements_path png_filename)
        (MatrixFigure title (raw_cells conf_mat) class_names);
  _ ← write_file (os_path_join e measurements_path csv_filename) (Csv (raw_cells conf_mat));
  let corr := diagonal_sum conf_mat in
  let acc := cell_div corr (total_sum conf_mat) in
  _ ← print [VStr "Accuracy: ";
             VNum (round_digits e ((λ a, a * Q_of_nat 100) <$> acc) 2); VStr "%"];
  let conf_mat := normalize_rows conf_mat in
  let png_filename := model_name +:+ plot_time +:+ "ConfMat" +:+ "-" +:+ data_name +:+ "-norm" +:+ ".png" in
  let csv_filename := model_name +:+ plot_time +:+ "ConfMat" +:+ "-" +:+ data_name +:+ "-norm" +:+ ".csv" in
  _ ← write_file (os_path_join e measurements_path png_filename)
        (MatrixFigure title conf_mat class_names);
  _ ← write_file (os_path_join e measurements_path csv_filename) (Csv conf_mat);
  mret conf_mat.

(** [t.detach().numpy()] of a tensor on [device]: only a tensor in the
    host's memory can be converted. *)
Definition numpy {A} (device : string) (t : A) : Py A :=
  if bool_decide (device = "cpu"%string) then mret t
  else raise (TypeError ("can't convert " +:+ device +:+
                " device type tensor to numpy. Use Tensor.cpu() to copy the tensor to host memory first.")).

Definition get_auroc (model : nat) (ds : Subset) (batch_size : Z) : Py unit :=
  _ ← print [VStr "Calculating AUROC"];
  dataloader ← new_DataLoader ds batch_size;
  let class_names := dirs (dataset ds) in
  device ← device_name;
  _ ← emit (Call model "to" [VStr device]);
  '(y_pop_true, y_pop_hat) ← fold_py (λ '(y_pop_true, y_pop_hat) idxs,
      y ← fetch_labels (dataset ds) idxs;
      y_hat ← call_model model (dataset ds) idxs;
      let y_hat := softmax e y_hat in
      let y_pop_true := y_pop_true ++ y in
      y_hat ← numpy device y_hat;
      mret (y_pop_true, y_pop_hat ++ concat y_hat))
    (index_batches dataloader) ([], []);
  _ ← emit (Invoke "roc_auc_score"
              [VList (VInt ∘ Z.of_nat <$> y_pop_true); VList (VNum ∘ Some <$> y_pop_hat);
               VList (VStr <$> class_names); VStr "ovr"]);
  auroc ← lift_result (roc_auc_score e y_pop_true y_pop_hat class_names);
  print [VStr "AUROC = "; VNum (round_digits e (Some auroc) 4)].

Definition train_model (model : nat) (name : string) (train_dataset val_dataset : Subset)
    (max_epoch batch_size : Z) (early_stopping : bool) : Py nat :=
  train_loader ← new_DataLoader train_dataset batch_size;
  val_loader ← new_DataLoader val_dataset batch_size;
  measurements_path ← init_measurements_path;
  '(profiler_filename, plot_filename, plot_time) ← make_log_filenames name;
  logger ← DictLogger;
  profiler ← new "SimpleProfiler" []
               [("dirpath", VStr measurements_path); ("filename", VStr profiler_filename)]%string;
  trainer ← init_trainer logger max_epoch profiler early_stopping;
  _ ← Trainer_fit trainer model train_loader val_loader;
  _ ← (if bool_decide (name = BASELINE_RESNET_NAME)
       then _ ← plot_logger_metrics logger measurements_path plot_filename;
            get_auroc model val_dataset batch_size
       else if bool_decide (name = MEL_AE_NAME)
       then mret ()
       else mret ());
  mret logger.
End Train.

(** *** The hyperparameter search *)

Section Tuning.
Variable e : Externals.

(** [trial.suggest_int(name, low, high, log=log_scale)]: the sampler
    proposes a value, which the trial keeps among its [params]. *)
Definition trial_suggest_int (trial : nat) (name : string) (low high : Z) (log_scale : bool)
  : Py Z :=
  _ ← emit (Call trial "suggest_int" [VStr name; VInt low; VInt high; VBool log_scale]);
  w ← get_world;
  let v := suggest_int e (log w) trial name low high log_scale in
  _ ← add_trial_param trial name v;
  mret v.

(** Modelled from the spec: [AudioDataset] (feature_extraction.py is not
    among the sources) is the dataset adapter, which produces (input tensor,
    label) pairs from a directory of audio files. *)
Definition new_AudioDataset (data_dir : string) (kwargs : list (string * Value))
  : Py AudioDataset :=
  id ← new "AudioDataset" [VStr data_dir] kwargs;
  w ← get_world;
  let '(labels, class_dirs) := audio_dataset_files e (log w) data_dir kwargs in
  mret (mkAudioDataset id labels class_dirs).

Definition timer : Py Qc := w ← get_world; mret (default_timer e (log w)).

(** The block of [objective] under [# Prepare and split dataset.]
    [np.floor(num_samples * 0.8).astype(int)] is the floor of the exact
    product here, which is what the double product gives
    ([floor_mul_is_the_double_floor] below). *)
Definition prepare_and_split (data_dir : string) (max_t : Z) : Py (Subset * Subset) :=
  _ ← print [VStr "Preparing and splitting dataset..."];
  start_time ← timer;
  ds ← new_AudioDataset data_dir [("max_t"%string, VInt max_t)];
  end_time ← timer;
  _ ← print [VStr "Dataset creation in seconds: "; VNum (Some (end_time - start_time))];
  let num_samples := length (ds_labels ds) in
  let num_train := floor_mul num_samples (8 # 10) in
  let num_val := (Z.of_nat num_samples - num_train)%Z in
  l ← random_split e ds [num_train; num_val] (manual_seed 42);
  unpack2 l.

(** [BaselineResnetClassifier] is a global name that need not be bound. *)
Definition objective (data_dir : string) (trial : nat) : Py Qc :=
  model ← (if binds_BaselineResnetClassifier e
           then new "BaselineResnetClassifier" [] [("num_classes"%string, VInt 3)]
           else raise (NameError "BaselineResnetClassifier"));
  logger ← DictLogger;
  let checkpoint_callback := ModelCheckpoint "val_acc_step" "max" in
  w ← get_world;
  let gpus := if cuda_is_available e (log w) then VInt 1 else VNone in
  trainer ← new "Trainer" []
              [ ("logger", VObj logger); ("max_epochs", VInt 5); ("gpus", gpus);
                ("callbacks", VList [checkpoint_callback]) ]%string;
  let trainer := mkTrainer trainer logger [checkpoint_callback] in
  max_t ← trial_suggest_int trial "max_t" 1 5 false;
  batch_size ← trial_suggest_int trial "batch_size" 4 64 true;
  '(train_dataset, val_dataset) ← prepare_and_split data_dir max_t;
  train_loader ← new_DataLoader train_dataset batch_size;
  val_loader ← new_DataLoader val_dataset batch_size;
  let hyperparameters :=
    VCtor "dict" [] [("max_t", VInt max_t); ("batch_size", VInt batch_size)]%string in
  _ ← emit (Call (trainer_logger trainer) "log_hyperparams" [hyperparameters]);
  _ ← Trainer_fit e trainer model train_loader val_loader;
  w ← get_world;
  getitem (default ∅ (callback_metrics w !! trainer_id trainer)) "val_acc_step".

(** [study.optimize(objective, n_trials=n)]: the search library's loop.
    Each trial is a new object; the objective's value is recorded with it;
    an exception of the objective ends the search. *)
Fixpoint optimize (objective : nat → Py Qc) (n_trials : nat) : Py (list (nat * Qc)) :=
  match n_trials with
  | O => mret []
  | S n =>
      trial ← new "Trial" [] [];
      value ← objective trial;
      rest ← optimize objective n;
      mret ((trial, value) :: rest)
  end.

(** [study.best_trial] of a study that maximizes: the first trial of the
    greatest value. *)
Definition better (best : option (nat * Qc)) (t : nat * Qc) : option (nat * Qc) :=
  match best with
  | None => Some t
  | Some b => if bool_decide (b.2 < t.2) then Some t else Some b
  end.

Definition best_trial (trials : list (nat * Qc)) : Py (nat * Qc) :=
  match foldl better None trials with
  | Some t => mret t
  | None => raise (ValueError "No trials are completed yet.")
  end.

Definition hp_tuning_voxforge_classifier (data_dir : string) (max_epoch batch_size : Z)
    (dur_seconds : Z) (comment : string) : Py Value :=
  study ← new "Study" [] [("direction", VStr "maximize")]%string;
  trials ← optimize (objective data_dir) 25;
  _ ← print [VStr "Number of finished trials: "; VInt (Z.of_nat (length trials))];
  _ ← print [VStr "Best trial:"];
  trial ← best_trial trials;
  _ ← print [VStr "  Value: "; VNum (Some trial.2)];
  _ ← print [VStr "  Params: "];
  w ← get_world;
  _ ← for_each (default [] (trial_params w !! trial.1))
        (λ '(key, value), print [VStr "    "; VStr key; VStr ": "; VInt value]);
  raise (NameError "trainer").
End Tuning.

(** ** Observing a run *)

Definition is_Ok {A} (r : Result A) : Prop :=
  match r with Ok _ => True | Raise _ => False end.

(** The result of running [m] from [w], and the events the run adds, in
    the order they happen. *)
Definition result_of {A} (m : Py A) (w : World) : Result A := (m w).1.

Definition emitted {A} (m : Py A) (w : World) : list Event :=
  reverse (take (length (log (m w).2) - length (log w)) (log (m w).2)).

(** [w'] is [w] after the events [evs]. *)
Definition extends (w w' : World) (evs : list Event) : Prop :=
  log w' = reverse evs ++ log w.

(** A run of [m] from [w] adds events to the log, and the result, the
    events and the final state satisfy [Q]. *)
Definition run_spec {A} (m : Py A) (w : World)
    (Q : Result A → list Event → World → Prop) : Prop :=
  ∃ evs, extends w (m w).2 evs ∧ Q (m w).1 evs (m w).2.

(** Postconditions on what a run shows through a projection [proj] of its
    events.  [shows]: the run shows a prefix of [X], the whole of [X] when
    it returns, and then creates [k] objects and ends in [R].  [returns]:
    the run does return. *)
Definition shows {K A} (proj : Event → option K) (X : list K) (k : nat)
    (R : A → World → Prop) (w : World) : Result A → list Event → World → Prop :=
  λ r evs w',
    omap proj evs `prefix_of` X ∧
    match r with
    | Ok a => omap proj evs = X ∧ next_id w' = (next_id w + k)%nat ∧ R a w'
    | Raise _ => True
    end.

Definition returns {K A} (proj : Event → option K) (X : list K) (k : nat)
    (R : A → World → Prop) (w : World) : Result A → list Event → World → Prop :=
  λ r evs w',
    ∃ a, r = Ok a ∧ omap proj evs = X ∧ next_id w' = (next_id w + k)%nat ∧ R a w'.

(** Nothing but the log differs between [w] and [w']. *)
Definition same_state (w w' : World) : Prop :=
  next_id w' = next_id w ∧ fs_dirs w' = fs_dirs w ∧
  logger_metrics w' = logger_metrics w ∧ callback_metrics w' = callback_metrics w ∧
  trial_params w' = trial_params w.

(** [kwargs[key]] *)
Fixpoint kwarg (key : string) (kwargs : list (string * Value)) : option Value :=
  match kwargs with
  | [] => None
  | (k, v) :: rest => if bool_decide (k = key) then Some v else kwarg key rest
  end.

(** The files a run writes, and the directories it makes. *)
Definition saved (ev : Event) : option (string * Content) :=
  match ev with
  | Save path content => Some (path, content)
  | _ => None
  end.
Definition saves (evs : list Event) : list (string * Content) := omap saved evs.

Definition made_dir (ev : Event) : option string :=
  match ev with
  | Mkdir path => Some path
  | _ => None
  end.
Definition mkdirs (evs : list Event) : list string := omap made_dir evs.

(** A run that makes no directory and changes nothing but the log, and
    whose result and written files satisfy [P]. *)
Definition writes {A} (P : Result A → list (string * Content) → Prop) (w : World)
  : Result A → list Event → World → Prop :=
  λ r evs w', P r (saves evs) ∧ mkdirs evs = [] ∧ same_state w w'.

Definition no_file {A} : Result A → list (string * Content) → Prop := λ _ s, s = [].






(** A callback is given a patience: as the keyword [patience], or as the
    third positional argument of [EarlyStopping]. *)
Definition configures_patience (callback : Value) : Prop :=
  match callback with
  | VCtor _ args kwargs => is_Some (kwarg "patience" kwargs) ∨ (3 ≤ length args)%nat
  | _ => False
  end.

(** The keywords a callback is built with. *)
Definition keywords (callback : Value) : list string :=
  match callback with
  | VCtor _ _ kwargs => fst <$> kwargs
  | _ => []
  end.

(** The steps of a search that the documentation speaks of. *)
Inductive TrialStep :=
| TNewTrial (trial : nat)
| TNewModel (model : nat)
| TNewTrainer (trainer : nat) (max_epochs : option Value)
| TSuggest (trial : nat) (name : string) (low high : Z) (log_scale : bool)
| TFit (trainer model : nat).

Definition trial_step (ev : Event) : option TrialStep :=
  match ev with
  | New id cls _ kwargs =>
      if bool_decide (cls = "Trial"%string) then Some (TNewTrial id)
      else if bool_decide (cls = "BaselineResnetClassifier"%string) then Some (TNewModel id)
      else if bool_decide (cls = "Trainer"%string)
      then Some (TNewTrainer id (kwarg "max_epochs" kwargs))
      else None
  | Call obj method args =>
      if bool_decide (method = "suggest_int"%string)
      then match args with
           | [VStr name; VInt low; VInt high; VBool log_scale] =>
               Some (TSuggest obj name low high log_scale)
           | _ => None
           end
      else if bool_decide (method = "fit"%string)
      then match args with
           | VObj model :: _ => Some (TFit obj model)
           | _ => None
           end
      else None
  | _ => None
  end.
Definition trial_steps (evs : list Event) : list TrialStep := omap trial_step evs.

(** What one trial does when the objects it creates are numbered from
    [b]: the trial, the model, the logger, the trainer and the dataset. *)
Definition one_trial (b : nat) : list TrialStep :=
  [ TNewTrial b;
    TNewModel (b + 1);
    TNewTrainer (b + 3) (Some (VInt 5));
    TSuggest b "max_t" 1 5 false;
    TSuggest b "batch_size" 4 64 true;
    TFit (b + 3) (b + 1) ].

(** The partition a trial makes of a dataset of [n] samples. *)
Definition seeded_partition (e : Externals) (n : nat) : list nat * list nat :=
  let perm := seeded_randperm e 42 n in
  let num_train := floor_mul n (8 # 10) in
  (py_slice perm 0 num_train, py_slice perm num_train (Z.of_nat n)).

(** ** A machine to run the code on *)

Definition demo_fit : FitOutcome := {|
  fit_dirs := ["./Checkpoints"];
  fit_files := ["./Checkpoints/epoch=04-val_acc_step=1.00.ckpt"];
  fit_logger_metrics :=
    {[ "train_loss" := [1]; "val_loss" := [1];
       "train_acc_epoch" := [1]; "val_acc_epoch" := [1] ]};
  fit_callback_metrics := {[ "val_acc_step" := 1 ]};
  fit_exception := None;
|}%string.

Definition demo_externals : Externals := {|
  environ := ∅;
  binds_BaselineResnetClassifier := true;
  os_path_join := λ a b, a +:+ "/" +:+ b;
  mkdir_error := λ _ _, None;
  open_error := λ _ _, None;
  today_strftime := λ _, "Apr-01-2022";
  now_strftime := λ _, "12_00_00-";
  default_timer := λ h, Q_of_nat (length h);
  cuda_is_available := λ _, false;
  round_digits := λ c _, c;
  int64_of_invalid := λ _, (- 2 ^ 63)%Z;
  trainer_fit := λ _, demo_fit;
  model_forward := λ _ _ _ idxs, (λ _, [1; 0; 0]) <$> idxs;
  softmax := id;
  argmax := fmap (λ _, 0%nat);
  roc_auc_score := λ _ _ _, Raise (ValueError "Found input variables with inconsistent numbers of samples");
  randperm_default := λ _ n, seq 0 n;
  suggest_int := λ _ _ _ low _ _, low;
  audio_dataset_files := λ _ _ _, ([0; 1; 2; 0; 1]%nat, ["a"; "b"; "c"]);
  seeded_randperm := λ _ n, seq 0 n;
|}%string.

Definition demo_world : World := mkWorld [] 0 ∅ ∅ ∅ ∅.

Definition demo_dataset : AudioDataset :=
  mkAudioDataset 0 [0; 1]%nat ["a"; "b"]%string.

Definition demo_train : Subset := mkSubset demo_dataset [0%nat].
Definition demo_val : Subset := mkSubset demo_dataset [1%nat].

(** A completed run of the training driver for the mel autoencoder, and a
    run for the baseline classifier. *)
Definition demo_run : Py nat :=
  train_model demo_externals 7 MEL_AE_NAME demo_train demo_val 5 10 true.

(** The same machine when [train.py] has been imported: the name
    [BaselineResnetClassifier] is not bound. *)
Definition demo_imported_externals : Externals := {|
  environ := environ demo_externals;
  binds_BaselineResnetClassifier := false;
  os_path_join := os_path_join demo_externals;
  mkdir_error := mkdir_error demo_externals;
  open_error := open_error demo_externals;
  today_strftime := today_strftime demo_externals;
  now_strftime := now_strftime demo_externals;
  default_timer := default_timer demo_externals;
  cuda_is_available := cuda_is_available demo_externals;
  round_digits := round_digits demo_externals;
  int64_of_invalid := int64_of_invalid demo_externals;
  trainer_fit := trainer_fit demo_externals;
  model_forward := model_forward demo_externals;
  softmax := softmax demo_externals;
  argmax := argmax demo_externals;
  roc_auc_score := roc_auc_score demo_externals;
  randperm_default := randperm_default demo_externals;
  suggest_int := suggest_int demo_externals;
  audio_dataset_files := audio_dataset_files demo_externals;
  seeded_randperm := seeded_randperm demo_externals;
|}.

(** A dataset of [n] samples of one class. *)
Definition demo_dataset_of (n : nat) : AudioDataset :=
  mkAudioDataset 0 (replicate n 0%nat) ["a"]%string.


(** A batch of two samples of two channels of two rows of two pixels, an
    encoder that hands its input on and a decoder that mirrors every row. *)
Definition demo_channel (a b c d : nat) : tensor2 :=
  [[Q_of_nat a; Q_of_nat b]; [Q_of_nat c; Q_of_nat d]].
Definition demo_batch : tensor4 :=
  [ [demo_channel 1 2 3 4; demo_channel 0 1 1 0];
    [demo_channel 2 2 0 5; demo_channel 1 1 3 0] ].
Definition demo_encoder (x : tensor4) : option tensor4 := Some x.
Definition demo_decoder (z : tensor4) : option tensor4 :=
  Some (map (map (map reverse)) z).
Definition demo_reconstruction : tensor4 :=
  [ [demo_channel 2 1 4 3; demo_channel 1 0 0 1];
    [demo_channel 2 2 5 0; demo_channel 1 1 0 3] ].

(** A loader of two batches, of two examples and of one, for a model that
    doubles its input and a loss that adds up what it is given. *)
Definition demo_loader : list (nat * unit) := [(2%nat, ()); (1%nat, ())].
Definition demo_model (features : nat) : nat := (2 * features)%nat.
Definition demo_loss (logits features : nat) (reduction : string) : Qc :=
  Q_of_nat (logits + features).
Definition demo_size (features : nat) : nat := features.

(** ** The rest of [train.py] *)

Section Datasets.
Variable e : Externals.

(** [crop=None] or a number of rows. *)
Definition crop_value (crop : option Z) : Value :=
  match crop with
  | None => VNone
  | Some rows => VInt rows
  end.

(** Modelled from the spec: [AudioDataset] (feature_extraction.py is not
    among the sources) is the dataset adapter, which produces (input tensor,
    label) pairs from a directory of audio files.  [init_dataset] calls it
    as [AudioDataset(data_dir, dur_seconds, rgb_expand, crop)], the
    arguments given by position. *)
Definition new_AudioDataset_at (data_dir : string) (dur_seconds : Z) (rgb_expand : bool)
    (crop : option Z) : Py AudioDataset :=
  id ← new "AudioDataset"
          [VStr data_dir; VInt dur_seconds; VBool rgb_expand; crop_value crop] [];
  w ← get_world;
  let '(labels, class_dirs) := audio_dataset_files e (log w) data_dir [] in
  mret (mkAudioDataset id labels class_dirs).

Definition init_dataset (data_dir : string) (dur_seconds : Z) (crop : option Z)
    (rgb_expand : bool) : Py AudioDataset :=
  _ ← print [VStr "Creating dataset"];
  start_time ← timer e;
  ds ← new_AudioDataset_at data_dir dur_seconds rgb_expand crop;
  end_time ← timer e;
  _ ← print [VStr (newline +:+ "Dataset creation in seconds: ");
             VNum (Some (end_time - start_time))];
  mret ds.

Definition get_datasets (data_dir : string) (dur_seconds : Z) (train_split : spec_float)
    (crop : option Z) (rgb_expand : bool) : Py (Subset * Subset) :=
  ds ← init_dataset data_dir dur_seconds crop rgb_expand;
  '(train_dataset, val_dataset) ← split_dataset e ds train_split;
  mret (train_dataset, val_dataset).

(** The directory [init_measurements_path] works in. *)
Definition measurements_dir : string :=
  if is_colab e
  then "/content/drive/MyDrive/ECSE-552-FP/Measurements/"
  else "./Measurements/".

(** The guard [init_measurements_path] puts around each [os.mkdir]:
    [if not os.path.isdir(path): try: os.mkdir(path) except OSError ...]. *)
Definition ensure_dir (path : string) : Py unit :=
  b ← isdir path; if negb b then try_mkdir e path else mret ().
End Datasets.

(** The first of the four series [plot_logger_metrics] draws that the
    metrics lack. *)
Definition plotted_keys : list string :=
  ["train_loss"; "val_loss"; "train_acc_epoch"; "val_acc_epoch"].

Definition first_missing (metrics : gmap string (list Qc)) : option string :=
  head (filter (λ key, metrics !! key = None) plotted_keys).

(** The sizes of the two arguments [get_auroc] gives [roc_auc_score]: the
    labels and the scores. *)
Definition auroc_sizes (ev : Event) : option (nat * nat) :=
  match ev with
  | Invoke function (VList y_true :: VList y_score :: _) =>
      if bool_decide (function = "roc_auc_score"%string)
      then Some (length y_true, length y_score) else None
  | _ => None
  end.

(** A row of a row-normalized matrix: not a number throughout, or
    fractions that add up to one. *)
Definition normalized_row (row : list cell) : Prop :=
  Forall (λ c, c = None) row ∨
  ∃ qs, row = Some <$> qs ∧ Forall (λ q, 0 <= q) qs ∧ sum1 qs = 1.

(** The objects a run creates. *)
Definition created (ev : Event) : option (nat * string * list Value * list (string * Value)) :=
  match ev with
  | New id cls args kwargs => Some (id, cls, args, kwargs)
  | _ => None
  end.

(** A postcondition on the result of a run and on what the run shows
    through [proj]. *)
Definition sees {K A} (proj : Event → option K) (P : Result A → list K → Prop)
  : Result A → list Event → World → Prop :=
  λ r evs _, P r (omap proj evs).

(** The same with the state the run ends in. *)
Definition ends {K A} (proj : Event → option K)
    (P : Result A → list K → World → Prop)
  : Result A → list Event → World → Prop :=
  λ r evs w', P r (omap proj evs) w'.

(** A [k] by [k] matrix of non-negative entries. *)
Definition counts_matrix (k : nat) (M : list (list Qc)) : Prop :=
  length M = k ∧ Forall (λ row, length row = k ∧ Forall (λ q, 0 <= q) row) M.

(** The machine of the examples with a training loop that reports nothing,
    and a subset without a sample. *)
Definition demo_silent_externals : Externals := {|
  environ := environ demo_externals;
  binds_BaselineResnetClassifier := binds_BaselineResnetClassifier demo_externals;
  os_path_join := os_path_join demo_externals;
  mkdir_error := mkdir_error demo_externals;
  open_error := open_error demo_externals;
  today_strftime := today_strftime demo_externals;
  now_strftime := now_strftime demo_externals;
  default_timer := default_timer demo_externals;
  cuda_is_available := cuda_is_available demo_externals;
  round_digits := round_digits demo_externals;
  int64_of_invalid := int64_of_invalid demo_externals;
  trainer_fit := λ _, mkFitOutcome [] [] ∅ ∅ None;
  model_forward := model_forward demo_externals;
  softmax := softmax demo_externals;
  argmax := argmax demo_externals;
  roc_auc_score := roc_auc_score demo_externals;
  randperm_default := randperm_default demo_externals;
  suggest_int := suggest_int demo_externals;
  audio_dataset_files := audio_dataset_files demo_externals;
  seeded_randperm := seeded_randperm demo_externals;
|}.

Definition demo_empty : Subset := mkSubset demo_dataset [].

(** A run of [plot_confusion_matrix] on the validation subset of the
    examples. *)
Definition demo_matrix_run : Py (list (list cell)) :=
  plot_confusion_matrix demo_externals 7 "Baseline Resnet" demo_val "Validation" 10
    "./Measurements" "12_00_00-".

(** ** The shapes the layers of [models.py] pass on *)

(** The shape of a tensor is the list of the sizes of its dimensions. Each
    function below gives the shape a layer of the framework answers on an
    input of a given shape; [None] where the layer raises. *)
Module Shape.

(** [x.numel()] *)
Definition numel (x : list Z) : Z := foldr Z.mul 1%Z x.

(** What a convolution and a transposed convolution (dilation 1) leave of
    one spatial dimension. *)
Definition conv_size (size kernel stride padding : Z) : option Z :=
  if bool_decide (stride ≤ 0)%Z then None
  else if bool_decide (size + 2 * padding < kernel)%Z then None
  else Some ((size + 2 * padding - kernel) `div` stride + 1)%Z.

Definition conv_transpose_size (size kernel stride padding output_padding : Z) : option Z :=
  let out := ((size - 1) * stride - 2 * padding + kernel + output_padding)%Z in
  if bool_decide (stride ≤ 0)%Z then None
  else if bool_decide (Z.max stride 1 ≤ output_padding)%Z then None
  else if bool_decide (out ≤ 0)%Z then None
  else Some out.

(** [nn.Conv2d(c_in, c_out, kernel_size, stride, padding)] on a batch
    [n, c, h, w] or on one sample [c, h, w]. *)
Definition conv2d (c_in c_out : Z) (kernel_size stride : Z * Z) (padding : Z)
    (x : list Z) : option (list Z) :=
  match x with
  | [n; c; h; w] =>
      if bool_decide (c = c_in)
      then h' ← conv_size h kernel_size.1 stride.1 padding;
           w' ← conv_size w kernel_size.2 stride.2 padding;
           Some [n; c_out; h'; w']
      else None
  | [c; h; w] =>
      if bool_decide (c = c_in)
      then h' ← conv_size h kernel_size.1 stride.1 padding;
           w' ← conv_size w kernel_size.2 stride.2 padding;
           Some [c_out; h'; w']
      else None
  | _ => None
  end.

(** [nn.ConvTranspose2d(c_in, c_out, kernel_size, stride, padding,
    output_padding)] *)
Definition conv_transpose2d (c_in c_out : Z) (kernel_size stride : Z * Z)
    (padding output_padding : Z) (x : list Z) : option (list Z) :=
  match x with
  | [n; c; h; w] =>
      if bool_decide (c = c_in)
      then h' ← conv_transpose_size h kernel_size.1 stride.1 padding output_padding;
           w' ← conv_transpose_size w kernel_size.2 stride.2 padding output_padding;
           Some [n; c_out; h'; w']
      else None
  | [c; h; w] =>
      if bool_decide (c = c_in)
      then h' ← conv_transpose_size h kernel_size.1 stride.1 padding output_padding;
           w' ← conv_transpose_size w kernel_size.2 stride.2 padding output_padding;
           Some [c_out; h'; w']
      else None
  | _ => None
  end.

(** [nn.Flatten()]: every dimension but the first becomes one. *)
Definition flatten (x : list Z) : option (list Z) :=
  match x with
  | n :: d :: rest => Some [n; numel (d :: rest)]
  | _ => None
  end.

(** [nn.Linear(n_in, n_out)] works on the last dimension. *)
Fixpoint linear (n_in n_out : Z) (x : list Z) : option (list Z) :=
  match x with
  | [] => None
  | [d] => if bool_decide (d = n_in) then Some [n_out] else None
  | n :: rest => (n ::.) <$> linear n_in n_out rest
  end.

(** [x.view(shape)] and [x.reshape(shape)]: at most one size is [-1], and it
    is inferred from the number of elements. *)
Definition view (shape : list Z) (x : list Z) : option (list Z) :=
  let total := numel x in
  if bool_decide (Exists (λ d, d < -1)%Z shape) then None
  else
    match filter (λ d, d = (-1)%Z) shape with
    | [] => if bool_decide (numel shape = total) then Some shape else None
    | [_] =>
        let known := numel (filter (λ d, d ≠ (-1)%Z) shape) in
        if bool_decide (known = 0%Z) then None
        else if bool_decide (total `mod` known = 0)%Z
        then Some (map (λ d, if bool_decide (d = (-1)%Z) then (total `div` known)%Z else d)
                     shape)
        else None
    | _ => None
    end.

(** [x[:, :, :28, :28]] *)
Definition trim (x : list Z) : option (list Z) :=
  match x with
  | n :: c :: h :: w :: rest => Some (n :: c :: slice_bound h 28 :: slice_bound w 28 :: rest)
  | _ => None
  end.
End Shape.

(** [Trim.forward] on the values of a batch. *)
Definition Trim_forward {A} (x : list (list (list (list A)))) : list (list (list (list A))) :=
  map (map (λ image, map (λ row, py_slice row 0 28) (py_slice image 0 28))) x.

(** The shape each layer of [AutoEncoder] answers. *)
Definition AutoEncoder_layer_shape (layer : AutoEncoder.Layer) (x : list Z)
  : option (list Z) :=
  match layer with
  | AutoEncoder.Conv2d c_in c_out stride kernel_size padding =>
      Shape.conv2d (Z.of_nat c_in) (Z.of_nat c_out)
        (Z.of_nat kernel_size.1, Z.of_nat kernel_size.2)
        (Z.of_nat stride.1, Z.of_nat stride.2) (Z.of_nat padding) x
  | AutoEncoder.ConvTranspose2d c_in c_out stride kernel_size padding =>
      Shape.conv_transpose2d (Z.of_nat c_in) (Z.of_nat c_out)
        (Z.of_nat kernel_size.1, Z.of_nat kernel_size.2)
        (Z.of_nat stride.1, Z.of_nat stride.2) (Z.of_nat padding) 0 x
  | AutoEncoder.LeakyReLU _ => Some x
  | AutoEncoder.Flatten => Shape.flatten x
  | AutoEncoder.Linear n_in n_out => Shape.linear (Z.of_nat n_in) (Z.of_nat n_out) x
  | AutoEncoder.Reshape shape => Shape.view shape x
  | AutoEncoder.Trim => Shape.trim x
  | AutoEncoder.Sigmoid => Some x
  end.

(** *** [Encoder] and [Decoder], the default networks of [Autoencoder_1] *)

Module Coders.

(** [GELU] is [act_fn()]: the default of the parameter, which
    [Autoencoder_1] does not set. *)
Inductive Layer :=
| Conv2d (c_in c_out kernel_size padding stride : Z)
| ConvTranspose2d (c_in c_out kernel_size output_padding padding stride : Z)
| GELU
| Flatten
| Linear (n_in n_out : Z)
| Tanh.

Definition layer_shape (layer : Layer) (x : list Z) : option (list Z) :=
  match layer with
  | Conv2d c_in c_out kernel_size padding stride =>
      Shape.conv2d c_in c_out (kernel_size, kernel_size) (stride, stride) padding x
  | ConvTranspose2d c_in c_out kernel_size output_padding padding stride =>
      Shape.conv_transpose2d c_in c_out (kernel_size, kernel_size) (stride, stride)
        padding output_padding x
  | GELU => Some x
  | Flatten => Shape.flatten x
  | Linear n_in n_out => Shape.linear n_in n_out x
  | Tanh => Some x
  end.

Definition Sequential (modules : list Layer) (input : list Z) : option (list Z) :=
  foldl (λ acc m, acc ≫= layer_shape m) (Some input) modules.

Section Coders.
Variables num_input_channels base_channel_size latent_dim : Z.

Definition Encoder_net : list Layer :=
  let c_hid := base_channel_size in
  [ Conv2d num_input_channels c_hid 3 1 2;
    GELU;
    Conv2d c_hid c_hid 3 1 1;
    GELU;
    Conv2d c_hid (2 * c_hid) 3 1 2;
    GELU;
    Conv2d (2 * c_hid) (2 * c_hid) 3 1 1;
    GELU;
    Conv2d (2 * c_hid) (2 * c_hid) 3 1 2;
    GELU;
    Flatten;
    Linear (2 * 20480) latent_dim ].

Definition Encoder_forward (x : list Z) : option (list Z) := Sequential Encoder_net x.

Definition Decoder_linear : list Layer := [ Linear latent_dim (2 * 20480); GELU ].

Definition Decoder_net : list Layer :=
  let c_hid := base_channel_size in
  [ ConvTranspose2d (2 * c_hid) (2 * c_hid) 3 1 1 2;
    GELU;
    Conv2d (2 * c_hid) (2 * c_hid) 3 1 1;
    GELU;
    ConvTranspose2d (2 * c_hid) c_hid 3 1 1 2;
    GELU;
    Conv2d c_hid c_hid 3 1 1;
    GELU;
    ConvTranspose2d c_hid num_input_channels 3 1 1 2;
    Tanh ].

Definition Decoder_forward (x : list Z) : option (list Z) :=
  x ← Sequential Decoder_linear x;
  x ← match x with
      | n :: _ => Shape.view [n; (-1)%Z; 4%Z; 4%Z] x
      | [] => None
      end;
  Sequential Decoder_net x.

(** The shapes through [Autoencoder_1.forward] with the two default
    classes. *)
Definition Autoencoder_1_forward (x : list Z) : option (list Z) :=
  z ← Encoder_forward x;
  Decoder_forward z.
End Coders.

(** [torch.zeros(2, num_input_channels, width, height)] *)
Definition example_input_array (num_input_channels width height : Z) : list Z :=
  [2%Z; num_input_channels; width; height].
End Coders.

(** * Proofs *)

(** ** [models.py] *)

(** *** Sums of tensors *)

Lemma sum1_cons a l : sum1 (a :: l) = a + sum1 l.
Proof. reflexivity. Qed.

Lemma sum1_app l k : sum1 (l ++ k) = sum1 l + sum1 k.
Proof.
  induction l as [|a l IH]; cbn [app].
  - unfold sum1 at 2. cbn. ring.
  - rewrite !sum1_cons, IH. ring.
Qed.

Lemma sum1_concat (m : list (list Qc)) : sum1 (concat m) = sum1 (map sum1 m).
Proof.
  induction m as [|r m IH]; [reflexivity|].
  cbn [concat map]. rewrite sum1_app, sum1_cons, IH. reflexivity.
Qed.

Section EpochLossFacts.
Context {features logits labels : Type}.
Variable model : features → logits.
Variable loss_fn : logits → features → string → Qc.
Variable size0 : features → nat.

Lemma epoch_loss_fold (loader : list (features * labels)) c n :
  foldl (epoch_loss_step model loss_fn size0) (c, n) loader
  = (c + total_loss model loss_fn loader, (n + total_examples size0 loader)%nat).
Proof.
  revert c n. induction loader as [|[x y] loader IH]; intros c n.
  - cbn. f_equal; [unfold total_loss, sum1; cbn; ring | unfold total_examples; cbn; lia].
  - cbn [foldl]. unfold epoch_loss_step at 2. rewrite IH.
    unfold total_loss, total_examples. cbn [map sum_list fst]. rewrite sum1_cons.
    f_equal; [ring | cbn; lia].
Qed.
End EpochLossFacts.

(** C10.  For a loader that yields at least one example,
    [compute_epoch_loss_autoencoder] returns the sum over the batches of the
    loss summed over each batch ([reduction='sum'], between the model's
    output and the input features), divided by the number of examples. *)
Theorem compute_epoch_loss_is_mean {features logits labels : Type}
    (model : features → logits) (loss_fn : logits → features → string → Qc)
    (size0 : features → nat) (data_loader : list (features * labels)) :
  (0 < total_examples size0 data_loader)%nat →
  compute_epoch_loss_autoencoder model loss_fn size0 data_loader
  = Some (total_loss model loss_fn data_loader
          / Q2Qc (inject_Z (Z.of_nat (total_examples size0 data_loader)))).
Proof.
  intros Hpos. unfold compute_epoch_loss_autoencoder.
  rewrite epoch_loss_fold. cbn [Nat.add].
  destruct (total_examples size0 data_loader) as [|n] eqn:Hn; [lia|].
  f_equal. f_equal. ring.
Qed.

(** *** The reconstruction loss *)

(** [zip_exact] succeeds on lists related pointwise by success. *)
Lemma zip_exact_Some {A B C} (f : A → B → option C) (g : A → B → C) l k :
  Forall2 (λ a b, f a b = Some (g a b)) l k →
  zip_exact f l k = Some (zip_with g l k).
Proof.
  induction 1 as [|a b l k Hab _ IH]; [reflexivity|].
  cbn. rewrite Hab, IH. reflexivity.
Qed.

Lemma bzip_same_length {A B C} (f : A → B → option C) (g : A → B → C) l k :
  Forall2 (λ a b, f a b = Some (g a b)) l k →
  bzip f l k = Some (zip_with g l k).
Proof.
  intros H. unfold bzip. rewrite bool_decide_true by (by eapply Forall2_length).
  by apply zip_exact_Some.
Qed.

Lemma bcast_same_length {A B} (f : A → B → option (A * B)) l k :
  Forall2 (λ a b, f a b = Some (a, b)) l k →
  bcast f l k = Some (l, k).
Proof.
  intros H. unfold bcast. rewrite (bzip_same_length f pair) by done.
  cbn. apply Forall2_length in H.
  change (zip_with pair l k) with (zip l k).
  rewrite fst_zip, snd_zip by lia. reflexivity.
Qed.

(** Operands of the same shape are broadcast to themselves. *)
Lemma broadcast_tensors_same_shape x x_hat :
  same_shape4 x x_hat → broadcast_tensors x x_hat = Some (x, x_hat).
Proof.
  intros H. unfold broadcast_tensors. apply bcast_same_length.
  eapply Forall2_impl; [exact H|]. intros s s' H3. apply bcast_same_length.
  eapply Forall2_impl; [exact H3|]. intros c c' H2. apply bcast_same_length.
  eapply Forall2_impl; [exact H2|]. intros r r' H1. apply bcast_same_length.
  by apply Forall2_true.
Qed.

Lemma zip_exact_Forall {A B C} (f : A → B → option C) (P : C → Prop) l k r :
  (∀ a b c, f a b = Some c → P c) →
  zip_exact f l k = Some r → Forall P r.
Proof.
  intros Hf. revert k r. induction l as [|a l IH]; intros [|b k] r H; cbn in H; try done.
  - injection H as <-. constructor.
  - destruct (f a b) as [c|] eqn:Hc; [|done]. cbn in H.
    destruct (zip_exact f l k) as [r'|] eqn:Hr; [|done]. cbn in H. injection H as <-.
    constructor; [by eapply Hf | by eapply IH].
Qed.

Lemma mapM_Forall {A C} (f : A → option C) (P : C → Prop) l r :
  (∀ a c, f a = Some c → P c) → mapM f l = Some r → Forall P r.
Proof.
  intros Hf H. apply mapM_Some_1 in H.
  induction H as [|a c l r Hac _ IH]; constructor; [by eapply Hf | exact IH].
Qed.

Lemma bzip_Forall {A B C} (f : A → B → option C) (P : C → Prop) l k r :
  (∀ a b c, f a b = Some c → P c) →
  bzip f l k = Some r → Forall P r.
Proof.
  intros Hf. unfold bzip. case_bool_decide as Hlen.
  - by apply zip_exact_Forall.
  - destruct l as [|a [|a' l]], k as [|b [|b' k]]; try done;
      apply mapM_Forall; intros; by eapply Hf.
Qed.

Lemma bcast_Forall2 {A B A' B'} (f : A → B → option (A' * B')) (P : A' → B' → Prop)
    l k l' k' :
  (∀ a b a' b', f a b = Some (a', b') → P a' b') →
  bcast f l k = Some (l', k') → Forall2 P l' k'.
Proof.
  intros Hf. unfold bcast. destruct (bzip f l k) as [pairs|] eqn:Hz; [|done].
  cbn. intros [= <- <-].
  apply (bzip_Forall f (λ c, P c.1 c.2)) in Hz; [|intros a b [a' b']; apply Hf].
  induction Hz as [|[a' b'] pairs Hp _ IH]; constructor; done.
Qed.

(** What [broadcast_tensors] returns are two tensors of one shape. *)
Lemma broadcast_tensors_shape a b a' b' :
  broadcast_tensors a b = Some (a', b') → same_shape4 a' b'.
Proof.
  apply bcast_Forall2. intros s s' t t'.
  apply bcast_Forall2. intros c c' d d'.
  apply bcast_Forall2. intros r r' u u' H.
  eapply Forall2_length, (bcast_Forall2 _ (λ _ _, True)), H. done.
Qed.

Lemma sq_diff_is_square (p q : Qc) : sq_diff p q = (p - q) ^ 2.
Proof. unfold sq_diff. cbn. ring. Qed.

Lemma concat_zip_with {A B C} (g : A → B → C) (a : list (list A)) (b : list (list B)) :
  Forall2 (λ r r', length r = length r') a b →
  concat (zip_with (zip_with g) a b) = zip_with g (concat a) (concat b).
Proof.
  induction 1 as [|r r' a b Hr _ IH]; [reflexivity|].
  cbn. rewrite IH. symmetry. apply zip_with_app. exact Hr.
Qed.

Lemma Forall2_concat_lift {A B} (P : A → B → Prop) a b :
  Forall2 (Forall2 P) a b → Forall2 P (concat a) (concat b).
Proof.
  induction 1 as [|r r' a b Hr _ IH]; [constructor|].
  cbn. by apply Forall2_app.
Qed.

(** The squared differences of a sample, entry by entry. *)
Lemma sample_sq_error_entries s s_hat :
  sample_sq_error s s_hat = sum1 (zip_with sq_diff (flat3 s) (flat3 s_hat)).
Proof.
  unfold sample_sq_error. f_equal. apply zip_with_ext; [|done..].
  intros p q. symmetry. apply sq_diff_is_square.
Qed.

Lemma sample_sum s s_hat :
  same_shape3 s s_hat →
  sum1 (sum_dim1 (sum_dim2 (sq3 s s_hat))) = sample_sq_error s s_hat.
Proof.
  intros H. rewrite sample_sq_error_entries. unfold flat3, sum_dim2, sum_dim1.
  rewrite <- sum1_concat, <- List.concat_map, <- sum1_concat. f_equal.
  unfold sq3, sq2, sq1.
  rewrite concat_zip_with.
  - rewrite concat_zip_with; [done|]. by apply Forall2_concat_lift.
  - eapply Forall2_impl; [exact H|]. intros c c' Hc. by apply Forall2_length in Hc.
Qed.

Lemma sum_dims123_sq4 x x_hat :
  same_shape4 x x_hat →
  sum_dims123 (sq4 x x_hat) = zip_with sample_sq_error x x_hat.
Proof.
  unfold sum_dims123, sum_dim3, sum_dim2 at 1, sum_dim1 at 1.
  induction 1 as [|s s' x x_hat Hs _ IH]; [reflexivity|].
  cbn [sq4 zip_with map]. f_equal; [|exact IH].
  apply (sample_sum s s' Hs).
Qed.

(** The loss of a batch, whatever the batch. *)
Lemma reconstruction_loss_value {latent L} (enc : tensor4 → option latent)
    (dec : latent → option tensor4) (x : tensor4) (y : L) :
  Autoencoder_1._get_reconstruction_loss enc dec (x, y)
  = x_hat ← (Autoencoder_1.forward enc dec x).2;
    '(expanded_input, expanded_target) ← broadcast_tensors x x_hat;
    if decide (expanded_input = []) then None
    else Some (batch_mean_sq_error expanded_input expanded_target).
Proof.
  unfold Autoencoder_1._get_reconstruction_loss.
  destruct ((Autoencoder_1.forward enc dec x).2) as [x_hat|]; [|reflexivity].
  cbn [mbind option_bind]. unfold mse_loss_none.
  destruct (broadcast_tensors x x_hat) as [[a b]|] eqn:Hb; [|reflexivity].
  cbn [mbind option_bind]. apply broadcast_tensors_shape in Hb.
  rewrite sum_dims123_sq4 by done.
  unfold mean_dim0, batch_mean_sq_error.
  rewrite length_zip_with_l_eq by (by apply Forall2_length in Hb).
  destruct Hb as [|s s' a b Hs Hb]; [reflexivity|].
  rewrite decide_False by done. reflexivity.
Qed.

Lemma reconstruction_loss_same_shape {latent L} (enc : tensor4 → option latent)
    (dec : latent → option tensor4) (x : tensor4) (y : L) (x_hat : tensor4) :
  (Autoencoder_1.forward enc dec x).2 = Some x_hat → same_shape4 x x_hat → x ≠ [] →
  Autoencoder_1._get_reconstruction_loss enc dec (x, y)
  = Some (batch_mean_sq_error x x_hat).
Proof.
  intros Hf Hs Hx. rewrite reconstruction_loss_value, Hf. cbn [mbind option_bind].
  rewrite broadcast_tensors_same_shape by done. cbn [mbind option_bind].
  by rewrite decide_False.
Qed.

Lemma training_step_returns_the_loss {latent L} (enc : tensor4 → option latent)
    (dec : latent → option tensor4) (batch : tensor4 * L) (batch_idx : nat) :
  fst <$> Autoencoder_1.training_step enc dec batch batch_idx
  = Autoencoder_1._get_reconstruction_loss enc dec batch.
Proof.
  unfold Autoencoder_1.training_step.
  by destruct (Autoencoder_1._get_reconstruction_loss enc dec batch).
Qed.

(** C5.  For every batch [(x, y)] the loss [training_step] returns is the
    mean over the batch of each sample's sum, over channel, height and
    width, of the squared differences between the input and the
    reconstruction [forward(x)], the two as [F.mse_loss] broadcasts them:
    as they are when the reconstruction has the shape of [x].  There is no
    loss when [forward] fails, when the two shapes cannot be broadcast, and
    for a batch of no sample, whose mean is NaN.  The labels [y] and the
    batch index have no part in what the step returns.  The arithmetic is
    that of exact rationals: the rounding of float32 is not modelled. *)
Theorem training_step_loss {latent L} (enc : tensor4 → option latent)
    (dec : latent → option tensor4) (x : tensor4) (y : L) (batch_idx : nat) :
  fst <$> Autoencoder_1.training_step enc dec (x, y) batch_idx
  = (x_hat ← (Autoencoder_1.forward enc dec x).2;
     '(expanded_input, expanded_target) ← broadcast_tensors x x_hat;
     if decide (expanded_input = []) then None
     else Some (batch_mean_sq_error expanded_input expanded_target)) ∧
  (∀ x_hat, (Autoencoder_1.forward enc dec x).2 = Some x_hat →
     same_shape4 x x_hat → x ≠ [] →
     fst <$> Autoencoder_1.training_step enc dec (x, y) batch_idx
     = Some (batch_mean_sq_error x x_hat)) ∧
  ∀ (y' : L) (batch_idx' : nat),
    Autoencoder_1.training_step enc dec (x, y') batch_idx'
    = Autoencoder_1.training_step enc dec (x, y) batch_idx.
Proof.
  rewrite training_step_returns_the_loss.
  split; [apply reconstruction_loss_value|]. split; [|reflexivity].
  intros x_hat. apply reconstruction_loss_same_shape.
Qed.

(** *** The two [forward] functions *)

Lemma Sequential_None {act} (lf : AutoEncoder.Layer → act → option act) ms :
  foldl (λ acc m, acc ≫= lf m) None ms = None.
Proof. induction ms as [|m ms IH]; [reflexivity|]. cbn. exact IH. Qed.

Lemma Sequential_app {act} (lf : AutoEncoder.Layer → act → option act) ms1 ms2 x :
  AutoEncoder.Sequential lf (ms1 ++ ms2) x
  = AutoEncoder.Sequential lf ms1 x ≫= AutoEncoder.Sequential lf ms2.
Proof.
  unfold AutoEncoder.Sequential. rewrite foldl_app.
  destruct (foldl _ (Some x) ms1) as [y|]; [reflexivity|].
  cbn. apply Sequential_None.
Qed.

(** C6.  For both autoencoders and every input [x], [forward] is the
    decoder applied to what the encoder makes of [x]; for the fixed
    topology this is the one stack of the encoder's layers followed by the
    decoder's. *)
Theorem forward_is_decoder_after_encoder :
  (∀ (latent : Type) (encoder : tensor4 → option latent)
     (decoder : latent → option tensor4) (x : tensor4),
     (Autoencoder_1.forward encoder decoder x).2 = encoder x ≫= decoder) ∧
  (∀ (act : Type) (layer_forward : AutoEncoder.Layer → act → option act) (x : act),
     AutoEncoder.forward layer_forward x
     = AutoEncoder.Sequential layer_forward AutoEncoder.encoder x
       ≫= AutoEncoder.Sequential layer_forward AutoEncoder.decoder ∧
     AutoEncoder.forward layer_forward x
     = AutoEncoder.Sequential layer_forward
         (AutoEncoder.encoder ++ AutoEncoder.decoder) x).
Proof.
  split; [reflexivity|]. intros act lf x.
  assert (AutoEncoder.forward lf x
          = AutoEncoder.Sequential lf AutoEncoder.encoder x
            ≫= AutoEncoder.Sequential lf AutoEncoder.decoder) as H.
  { unfold AutoEncoder.forward.
    destruct (AutoEncoder.Sequential lf AutoEncoder.encoder x) as [z|]; [|reflexivity].
    cbn [mbind option_bind].
    by destruct (AutoEncoder.Sequential lf AutoEncoder.decoder z). }
  split; [exact H|]. by rewrite Sequential_app.
Qed.

(** ** [train.py] *)

(** *** The logic of runs *)

Lemma extends_nil w : extends w w [].
Proof. reflexivity. Qed.

Lemma extends_app w w1 w2 evs1 evs2 :
  extends w w1 evs1 → extends w1 w2 evs2 → extends w w2 (evs1 ++ evs2).
Proof.
  unfold extends. intros H1 H2. rewrite H2, H1, reverse_app, app_assoc. reflexivity.
Qed.

Lemma emitted_extends {A} (m : Py A) w evs :
  extends w (m w).2 evs → emitted m w = evs.
Proof.
  unfold extends, emitted. intros ->.
  rewrite length_app, Nat.add_sub, take_app_length', reverse_involutive; done.
Qed.

Lemma run_spec_emitted {A} (m : Py A) w Q :
  run_spec m w Q → Q (result_of m w) (emitted m w) (m w).2.
Proof. intros (evs & Hext & HQ). by rewrite (emitted_extends m w evs). Qed.

Lemma spec_weaken {A} (m : Py A) w (Q Q' : Result A → list Event → World → Prop) :
  run_spec m w Q → (∀ r evs w', Q r evs w' → Q' r evs w') → run_spec m w Q'.
Proof. intros (evs & Hext & HQ) H. exists evs. auto. Qed.

Lemma spec_ret {A} (a : A) w (Q : Result A → list Event → World → Prop) :
  Q (Ok a) [] w → run_spec (mret a) w Q.
Proof. intros H. exists []. split; [apply extends_nil | exact H]. Qed.

Lemma spec_raise {A} x w (Q : Result A → list Event → World → Prop) :
  Q (Raise x) [] w → run_spec (raise x) w Q.
Proof. intros H. exists []. split; [apply extends_nil | exact H]. Qed.

Lemma spec_bind {A B} (m : Py A) (f : A → Py B) w Q1
    (Q : Result B → list Event → World → Prop) :
  run_spec m w Q1 →
  (∀ r evs1 w1, Q1 r evs1 w1 →
     match r with
     | Ok a => run_spec (f a) w1 (λ r2 evs2 w2, Q r2 (evs1 ++ evs2) w2)
     | Raise x => Q (Raise x) evs1 w1
     end) →
  run_spec (m ≫= f) w Q.
Proof.
  intros (evs1 & Hext & HQ1) Hf. specialize (Hf _ _ _ HQ1).
  unfold run_spec, mbind, Py_bind. destruct (m w) as [[a|x] w1]; cbn [fst snd] in *.
  - destruct Hf as (evs2 & Hext2 & HQ). exists (evs1 ++ evs2).
    split; [by eapply extends_app | exact HQ].
  - exists evs1. split; [exact Hext | exact Hf].
Qed.

(** The same for a first step that is one of the primitives. *)
Lemma spec_emit {A} ev (f : unit → Py A) w (Q : Result A → list Event → World → Prop) :
  run_spec (f ()) (emit ev w).2 (λ r evs w', Q r (ev :: evs) w') →
  run_spec (emit ev ≫= f) w Q.
Proof.
  intros (evs & Hext & HQ). exists (ev :: evs). split; [|exact HQ].
  unfold extends in *. change ((emit ev ≫= f) w) with (f () (emit ev w).2).
  rewrite Hext, reverse_cons, <- app_assoc. reflexivity.
Qed.

Lemma spec_emit_last ev w (Q : Result unit → list Event → World → Prop) :
  Q (Ok ()) [ev] (emit ev w).2 → run_spec (emit ev) w Q.
Proof. intros H. exists [ev]. split; [reflexivity | exact H]. Qed.


Lemma bind_run {A B} (m : Py A) (f : A → Py B) w a w1 :
  m w = (Ok a, w1) → (m ≫= f) w = f a w1.
Proof. intros H. unfold mbind, Py_bind. by rewrite H. Qed.

Lemma spec_self {A} (m : Py A) w Q :
  run_spec m w Q → run_spec m w (λ r evs w', Q r evs w' ∧ r = (m w).1 ∧ w' = (m w).2).
Proof. intros (evs & Hext & HQ). exists evs. auto. Qed.

Lemma spec_ret_bind {A B} (a : A) (f : A → Py B) w Q :
  run_spec (f a) w Q → run_spec (mret a ≫= f) w Q.
Proof. exact id. Qed.

Lemma spec_get_world_bind {B} (f : World → Py B) w Q :
  run_spec (f w) w Q → run_spec (get_world ≫= f) w Q.
Proof. exact id. Qed.

(** *** Runs seen through a projection *)

Ltac prim :=
  cbv [new fresh emit get_world mbind mret Py_bind Py_ret set_logger_metrics
       set_callback_metrics add_dir add_trial_param print DictLogger same_state];
  cbn; repeat split; first [done | lia].

Section Projection.
Context {K : Type} (proj : Event → option K).

Lemma returns_shows {A} (m : Py A) w X k R :
  run_spec m w (returns proj X k R w) → run_spec m w (shows proj X k R w).
Proof.
  intros H. eapply spec_weaken; [exact H|].
  intros r evs w' (a & -> & HX & Hid & HR). split; [by rewrite HX|done].
Qed.

Lemma shows_weaken {A} (m : Py A) w X k (R R' : A → World → Prop) :
  run_spec m w (shows proj X k R w) → (∀ a w', R a w' → R' a w') →
  run_spec m w (shows proj X k R' w).
Proof.
  intros H HR. eapply spec_weaken; [exact H|].
  intros [a|x] evs w' [? H']; split; try done. destruct H' as (? & ? & ?). auto.
Qed.

Lemma shows_seq {A B} (m : Py A) (f : A → Py B) w X Y Z k1 k2 k R1
    (R2 : B → World → Prop) :
  run_spec m w (shows proj X k1 R1 w) →
  Z = X ++ Y → k = (k1 + k2)%nat →
  (∀ a w1, R1 a w1 → next_id w1 = (next_id w + k1)%nat →
     run_spec (f a) w1 (shows proj Y k2 R2 w1)) →
  run_spec (m ≫= f) w (shows proj Z k R2 w).
Proof.
  intros Hm -> -> Hf. eapply spec_bind; [exact Hm|].
  intros [a|x] evs1 w1 [Hpre H]; cbn beta iota.
  - destruct H as (HX & Hid & HR).
    eapply spec_weaken; [apply (Hf a w1 HR Hid)|].
    intros r evs2 w2 [Hpre2 H2]. unfold shows. rewrite omap_app, HX. split.
    + by apply prefix_app.
    + destruct r; [|done]. destruct H2 as (-> & -> & ?). repeat split; [lia|done].
  - split; [|done]. by apply prefix_app_r.
Qed.

Lemma returns_seq {A B} (m : Py A) (f : A → Py B) w X Y Z k1 k2 k R1
    (R2 : B → World → Prop) :
  run_spec m w (returns proj X k1 R1 w) →
  Z = X ++ Y → k = (k1 + k2)%nat →
  (∀ a w1, R1 a w1 → next_id w1 = (next_id w + k1)%nat →
     run_spec (f a) w1 (returns proj Y k2 R2 w1)) →
  run_spec (m ≫= f) w (returns proj Z k R2 w).
Proof.
  intros Hm -> -> Hf. eapply spec_bind; [exact Hm|].
  intros r evs1 w1 (a & -> & HX & Hid & HR).
  eapply spec_weaken; [apply (Hf a w1 HR Hid)|].
  intros r evs2 w2 (b & -> & HY & Hid2 & HR2). exists b.
  rewrite omap_app, HX, HY, Hid2, Hid. repeat split; [lia|done].
Qed.

Lemma returns_ret {A} (a : A) w (R : A → World → Prop) :
  R a w → run_spec (mret a) w (returns proj [] 0 R w).
Proof. intros H. apply spec_ret. exists a. prim. Qed.

Lemma shows_ret {A} (a : A) w (R : A → World → Prop) :
  R a w → run_spec (mret a) w (shows proj [] 0 R w).
Proof. intros H. by apply returns_shows, returns_ret. Qed.

Lemma shows_raise {A} x w X k (R : A → World → Prop) :
  run_spec (raise x) w (shows proj X k R w).
Proof. apply spec_raise. split; [apply prefix_nil|done]. Qed.

Lemma returns_emit ev w :
  run_spec (emit ev) w (returns proj (omap proj [ev]) 0 (λ _ _, True) w).
Proof. apply spec_emit_last. exists (). prim. Qed.

Lemma returns_get_world w :
  run_spec get_world w (returns proj [] 0 (λ w0 w', w0 = w ∧ w' = w) w).
Proof. exists []. split; [reflexivity|]. exists w. prim. Qed.

Lemma returns_new cls args kwargs w :
  run_spec (new cls args kwargs) w
    (returns proj (omap proj [New (next_id w) cls args kwargs]) 1
       (λ id w', id = next_id w ∧ same_state (fresh w).2 w') w).
Proof.
  exists [New (next_id w) cls args kwargs]. split; [reflexivity|].
  exists (next_id w). prim.
Qed.



Lemma shows_new_DataLoader ds bs w :
  run_spec (new_DataLoader ds bs) w (shows proj [] 0 (λ _ _, True) w).
Proof.
  unfold new_DataLoader. case_bool_decide; [by apply shows_ret | apply shows_raise].
Qed.

Lemma shows_getitem {V} (d : gmap string V) key w :
  run_spec (getitem d key) w (shows proj [] 0 (λ _ _, True) w).
Proof. unfold getitem. destruct (d !! key); [by apply shows_ret | apply shows_raise]. Qed.


End Projection.

Tactic Notation "seq" uconstr(H) :=
  eapply shows_seq;
  [first [eapply H | eapply returns_shows; eapply H]|reflexivity..|].
Tactic Notation "rseq" uconstr(H) :=
  eapply returns_seq; [eapply H|reflexivity..|].

Tactic Notation "last" uconstr(H) :=
  first [ eapply H
        | eapply returns_shows; eapply H
        | eapply shows_weaken; [eapply H|done]
        | eapply shows_weaken; [eapply returns_shows; eapply H|done] ].

Lemma omap_Some_id {A} (l : list A) : omap Some l = l.
Proof. induction l as [|a l IH]; [reflexivity|]. cbn. by rewrite IH. Qed.

(** *** Runs that return, and runs that cannot *)

Lemma bind_never_Ok {A B} (m : Py A) (f : A → Py B) w :
  (∀ a w', ¬ is_Ok (f a w').1) → ¬ is_Ok ((m ≫= f) w).1.
Proof.
  intros H. unfold mbind, Py_bind. destruct (m w) as [[a|x] w1]; [apply H|cbn; tauto].
Qed.

Lemma fail_never_Ok {A B} (m : Py A) (f : A → Py B) w :
  ¬ is_Ok (m w).1 → ¬ is_Ok ((m ≫= f) w).1.
Proof. unfold mbind, Py_bind. by destruct (m w) as [[a|x] w1]. Qed.

(** A run that, when it returns, returns a value in [P]. *)
Lemma ok_bind {A B} (m : Py A) (f : A → Py B) (P1 : A → Prop) (P2 : B → Prop) :
  (∀ w, match (m w).1 with Ok a => P1 a | Raise _ => True end) →
  (∀ a w, P1 a → match (f a w).1 with Ok b => P2 b | Raise _ => True end) →
  ∀ w, match ((m ≫= f) w).1 with Ok b => P2 b | Raise _ => True end.
Proof.
  intros Hm Hf w. specialize (Hm w). unfold mbind, Py_bind.
  destruct (m w) as [[a|x] w1]; cbn [fst] in *; [by apply Hf|done].
Qed.

Lemma ok_any {A} (m : Py A) w : match (m w).1 with Ok a => True | Raise _ => True end.
Proof. by destruct (m w).1. Qed.

Lemma ok_fold {A S} (body : S → A → Py S) (J : S → Prop) (l : list A) :
  (∀ s a w, J s → match (body s a w).1 with Ok s' => J s' | Raise _ => True end) →
  ∀ s w, J s → match (fold_py body l s w).1 with Ok s' => J s' | Raise _ => True end.
Proof.
  intros Hbody. induction l as [|a l IH]; intros s w HJ; [exact HJ|].
  cbn [fold_py]. revert w. eapply ok_bind; [intros w; by apply Hbody|].
  intros s' w HJ'. by apply IH.
Qed.

(** *** Batches *)

Lemma chunks_upto_concat {A} (fuel n : nat) (l : list A) :
  (0 < n)%nat → (length l ≤ fuel)%nat → concat (chunks_upto fuel n l) = l.
Proof.
  intros Hn. revert l. induction fuel as [|fuel IH]; intros l Hlen.
  - destruct l; [reflexivity|cbn in Hlen; lia].
  - cbn [chunks_upto]. destruct l as [|a l]; [reflexivity|].
    cbn [concat]. rewrite IH; [apply take_drop|].
    rewrite length_drop. cbn [length] in *. lia.
Qed.

Lemma chunks_concat {A} (n : nat) (l : list A) :
  (0 < n)%nat → concat (chunks n l) = l.
Proof. intros Hn. by apply chunks_upto_concat. Qed.

Lemma chunks_upto_sublist {A} (fuel n : nat) (l b : list A) :
  b ∈ chunks_upto fuel n l → b ⊆ l.
Proof.
  revert l. induction fuel as [|fuel IH]; intros l Hb; [by apply elem_of_nil in Hb|].
  cbn [chunks_upto] in Hb. destruct l as [|a l]; [by apply elem_of_nil in Hb|].
  apply elem_of_cons in Hb as [->|Hb].
  - apply subseteq_take.
  - etrans; [apply (IH _ Hb)|apply subseteq_drop].
Qed.


Section Sequences.
Context {K : Type} (proj : Event → option K).

Lemma returns_then_raises {A B} (m : Py A) (f : A → Py B) w X Y Z k1 R1 x :
  run_spec m w (returns proj X k1 R1 w) →
  Z = X ++ Y →
  (∀ a w1, R1 a w1 → next_id w1 = (next_id w + k1)%nat →
     run_spec (f a) w1 (λ r evs _, r = Raise x ∧ omap proj evs = Y)) →
  run_spec (m ≫= f) w (λ r evs _, r = Raise x ∧ omap proj evs = Z).
Proof.
  intros Hm -> Hf. eapply spec_bind; [exact Hm|].
  intros r evs1 w1 (a & -> & HX & Hid & HR).
  eapply spec_weaken; [apply (Hf a w1 HR Hid)|].
  intros r evs2 w2 [-> HY]. by rewrite omap_app, HX, HY.
Qed.

Lemma raises_then {A B} (m : Py A) (f : A → Py B) w X x :
  run_spec m w (λ r evs _, r = Raise x ∧ omap proj evs = X) →
  run_spec (m ≫= f) w (λ r evs _, r = Raise x ∧ omap proj evs = X).
Proof.
  intros Hm. eapply spec_bind; [exact Hm|]. by intros r evs1 w1 [-> HX].
Qed.

Lemma returns_then {A B} (m : Py A) (f : A → Py B) w X k1 R1
    (P : Result B → list K → Prop) :
  run_spec m w (returns proj X k1 R1 w) →
  (∀ a w1, R1 a w1 → next_id w1 = (next_id w + k1)%nat →
     run_spec (f a) w1 (sees proj (λ r Y, P r (X ++ Y)))) →
  run_spec (m ≫= f) w (sees proj P).
Proof.
  intros Hm Hf. eapply spec_bind; [exact Hm|].
  intros r evs1 w1 (a & -> & HX & Hid & HR).
  eapply spec_weaken; [apply (Hf a w1 HR Hid)|].
  intros r evs2 w2 HQ. unfold sees in *. by rewrite omap_app, HX.
Qed.

Lemma returns_then_world {A B} (m : Py A) (f : A → Py B) w X k1 R1
    (P : Result B → list K → World → Prop) :
  run_spec m w (returns proj X k1 R1 w) →
  (∀ a w1, R1 a w1 → next_id w1 = (next_id w + k1)%nat →
     run_spec (f a) w1 (ends proj (λ r Y w', P r (X ++ Y) w'))) →
  run_spec (m ≫= f) w (ends proj P).
Proof.
  intros Hm Hf. eapply spec_bind; [exact Hm|].
  intros r evs1 w1 (a & -> & HX & Hid & HR).
  eapply spec_weaken; [apply (Hf a w1 HR Hid)|].
  intros r evs2 w2 HQ. unfold ends in *. by rewrite omap_app, HX.
Qed.




Lemma returns_fold_inv {A S} (body : S → A → Py S) (J : list A → S → Prop) (l : list A) :
  (∀ done a s w, a ∈ l → J done s →
     run_spec (body s a) w (returns proj [] 0 (λ s' _, J (done ++ [a]) s') w)) →
  ∀ done s w, J done s →
    run_spec (fold_py body l s) w (returns proj [] 0 (λ s' _, J (done ++ l) s') w).
Proof.
  induction l as [|a l IH]; intros Hbody done s w HJ.
  - apply returns_ret. by rewrite app_nil_r.
  - cbn [fold_py]. eapply returns_seq; [apply (Hbody done a s w)|reflexivity..|].
    + apply list_elem_of_here.
    + exact HJ.
    + intros s' w1 HJ' _. eapply spec_weaken.
      * apply (IH (λ done a s w Ha, Hbody done a s w (list_elem_of_further _ _ _ Ha))
                 (done ++ [a]) s' w1 HJ').
      * intros r evs w' (s'' & -> & HX & Hid & HJ''). exists s''.
        rewrite <- app_assoc in HJ''. by repeat split.
Qed.

Lemma returns_fetch_labels ds idxs w :
  Forall (λ i, i < length (ds_labels ds))%nat idxs →
  run_spec (fetch_labels ds idxs) w
    (returns proj [] 0
       (λ ys _, length ys = length idxs ∧ Forall (λ y, y ∈ ds_labels ds) ys) w).
Proof.
  intros Hin. unfold fetch_labels.
  destruct (mapM (λ i, ds_labels ds !! i) idxs) as [ys|] eqn:Hys.
  - apply returns_ret. split; [symmetry; by eapply length_mapM|].
    apply mapM_Some_1 in Hys. clear Hin.
    induction Hys as [|i y idxs ys Hy _ IH]; constructor; [|exact IH].
    by eapply list_elem_of_lookup_2.
  - exfalso. apply eq_None_not_Some in Hys. apply Hys, mapM_is_Some.
    eapply Forall_impl; [exact Hin|]. intros i Hi. by apply lookup_lt_is_Some_2.
Qed.

Lemma returns_new_DataLoader_pos ds bs w :
  (0 < bs)%Z →
  run_spec (new_DataLoader ds bs) w
    (returns proj [] 0 (λ dl _, dl = mkDataLoader ds (Z.to_nat bs)) w).
Proof. intros H. unfold new_DataLoader. rewrite bool_decide_true by done. by apply returns_ret. Qed.

Lemma returns_device_name e w :
  run_spec (device_name e) w
    (returns proj [] 0
       (λ device _, device = if cuda_is_available e (log w) then "cuda:0" else "cpu")%string w).
Proof. exists []. split; [reflexivity|]. eexists. prim. Qed.

Lemma returns_numpy {A} (t : A) w :
  run_spec (numpy "cpu" t) w (returns proj [] 0 (λ t' _, t' = t) w).
Proof. unfold numpy. rewrite bool_decide_true by done. by apply returns_ret. Qed.
End Sequences.

Section TrainFacts.
Context {K : Type} (proj : Event → option K).
Variable e : Externals.

Lemma returns_call_model model ds idxs w :
  run_spec (call_model e model ds idxs) w
    (returns proj (omap proj [Call model "forward" [VData (ds_id ds) [idxs]]]) 0
       (λ y_hat _, ∃ h, y_hat = model_forward e h model (ds_id ds) idxs) w).
Proof.
  exists [Call model "forward" [VData (ds_id ds) [idxs]]].
  split; [reflexivity|]. unfold call_model.
  cbv [emit get_world mbind mret Py_bind Py_ret]. cbn [fst snd log next_id].
  eexists. split; [reflexivity|]. split; [reflexivity|]. split; [cbn; lia|]. by eexists.
Qed.

Lemma returns_print pieces w :
  run_spec (print pieces) w (returns proj (omap proj [Print pieces]) 0 (λ _ _, True) w).
Proof. apply returns_emit. Qed.

Lemma returns_DictLogger w :
  run_spec DictLogger w
    (returns proj (omap proj [New (next_id w) "DictLogger" [] []]) 1
       (λ id _, id = next_id w) w).
Proof.
  exists [New (next_id w) "DictLogger" [] []]. split; [reflexivity|].
  exists (next_id w). prim.
Qed.

Lemma for_each_mkdir_run (dirs : list string) w :
  ∃ w', for_each dirs (λ path, _ ← emit (Mkdir path); add_dir path) w = (Ok (), w') ∧
        extends w w' (Mkdir <$> dirs) ∧ next_id w' = next_id w ∧
        logger_metrics w' = logger_metrics w ∧ callback_metrics w' = callback_metrics w ∧
        trial_params w' = trial_params w.
Proof.
  revert w. induction dirs as [|d dirs IH]; intros w.
  - exists w. by repeat split.
  - destruct (IH (add_dir d (emit (Mkdir d) w).2).2) as (w' & Hrun & Hext & Hid & Hlm & Hcm & Htp).
    exists w'. split; [exact Hrun|]. split; [|done].
    unfold extends in *. rewrite Hext, fmap_cons, reverse_cons, <- app_assoc. reflexivity.
Qed.

Lemma for_each_save_run (files : list string) w :
  ∃ w', for_each files (λ path, emit (Save path TrainerFile)) w = (Ok (), w') ∧
        extends w w' ((λ path, Save path TrainerFile) <$> files) ∧ same_state w w'.
Proof.
  revert w. induction files as [|f files IH]; intros w.
  - exists w. by repeat split.
  - destruct (IH (emit (Save f TrainerFile) w).2) as (w' & Hrun & Hext & Hst).
    exists w'. split; [exact Hrun|]. split; [|exact Hst].
    unfold extends in *. rewrite Hext, fmap_cons, reverse_cons, <- app_assoc. reflexivity.
Qed.

(** A fit, as the outcome [o] the library answers makes it. *)
Lemma spec_Trainer_fit trainer model train_loader val_loader w :
  let o := trainer_fit e
             (Call (trainer_id trainer) "fit"
                [VObj model; loader_value train_loader; loader_value val_loader] :: log w) in
  run_spec (Trainer_fit e trainer model train_loader val_loader) w (λ r evs w',
    r = match fit_exception o with Some exn => Raise exn | None => Ok () end ∧
    evs = fit_events (trainer_id trainer) model train_loader val_loader o ∧
    next_id w' = next_id w ∧
    logger_metrics w'
    = <[trainer_logger trainer := fit_logger_metrics o]> (logger_metrics w) ∧
    callback_metrics w'
    = <[trainer_id trainer := fit_callback_metrics o]> (callback_metrics w) ∧
    trial_params w' = trial_params w).
Proof.
  intros o. unfold Trainer_fit. apply spec_emit.
  set (w0 := (emit _ w).2). apply spec_get_world_bind.
  change (trainer_fit e (log w0)) with o.
  destruct (for_each_mkdir_run (fit_dirs o) w0) as (w1 & Hrun1 & Hext1 & Hid1 & Hlm1 & Hcm1 & Htp1).
  destruct (for_each_save_run (fit_files o) w1) as (w2 & Hrun2 & Hext2 & Hid2 & _ & Hlm2 & Hcm2 & Htp2).
  exists ((Mkdir <$> fit_dirs o) ++ ((λ path, Save path TrainerFile) <$> fit_files o)).
  rewrite (bind_run _ _ _ _ _ Hrun1), (bind_run _ _ _ _ _ Hrun2).
  unfold extends in *.
  destruct (fit_exception o) as [exn|];
    cbv [set_logger_metrics set_callback_metrics mbind Py_bind raise mret Py_ret];
    cbn [fst snd log next_id logger_metrics callback_metrics trial_params];
    rewrite Hext2, Hext1, reverse_app, app_assoc, Hlm2, Hlm1, Hcm2, Hcm1, Htp2, Htp1,
      Hid2, Hid1; by repeat split.
Qed.

(** A fit that completes. *)
Lemma returns_Trainer_fit trainer model train_loader val_loader w :
  let o := trainer_fit e
             (Call (trainer_id trainer) "fit"
                [VObj model; loader_value train_loader; loader_value val_loader] :: log w) in
  fit_exception o = None →
  run_spec (Trainer_fit e trainer model train_loader val_loader) w
    (returns proj
       (omap proj (fit_events (trainer_id trainer) model train_loader val_loader o)) 0
       (λ _ w',
          logger_metrics w' !! trainer_logger trainer = Some (fit_logger_metrics o) ∧
          callback_metrics w' !! trainer_id trainer = Some (fit_callback_metrics o)) w).
Proof.
  intros o Ho. eapply spec_weaken; [apply spec_Trainer_fit|]. fold o. rewrite Ho.
  intros r evs w' (-> & -> & Hid & Hlm & Hcm & _). exists ().
  rewrite Hlm, Hcm, !lookup_insert_eq. repeat split; lia.
Qed.

Lemma shows_Trainer_fit trainer model train_loader val_loader w :
  let o := trainer_fit e
             (Call (trainer_id trainer) "fit"
                [VObj model; loader_value train_loader; loader_value val_loader] :: log w) in
  run_spec (Trainer_fit e trainer model train_loader val_loader) w
    (shows proj
       (omap proj (fit_events (trainer_id trainer) model train_loader val_loader o)) 0
       (λ _ _, True) w).
Proof.
  intros o. eapply spec_weaken; [apply spec_Trainer_fit|]. fold o.
  intros r evs w' (-> & -> & Hid & _). split; [done|].
  destruct (fit_exception o); [done|]. repeat split; lia.
Qed.

Lemma returns_emit_same ev w :
  run_spec (emit ev) w (returns proj (omap proj [ev]) 0 (λ _ w', same_state w w') w).
Proof. apply spec_emit_last. exists (). prim. Qed.


Lemma returns_write_file path content w :
  open_error e (log w) path = None →
  run_spec (write_file e path content) w
    (returns proj (omap proj [Save path content]) 0 (λ _ w', same_state w w') w).
Proof.
  intros H. unfold write_file. apply spec_get_world_bind. rewrite H. apply returns_emit_same.
Qed.




End TrainFacts.

Section TrainKinds.
Variable e : Externals.







Lemma omap_fmap_None {A K} (proj : Event → option K) (f : A → Event) (l : list A) :
  (∀ a, proj (f a) = None) → omap proj (f <$> l) = [].
Proof.
  intros H. induction l as [|a l IH]; [reflexivity|].
  cbn. by rewrite H.
Qed.







End TrainKinds.

(** *** Runs seen through the files they write *)

Lemma same_state_refl w : same_state w w.
Proof. by repeat split. Qed.

Lemma same_state_trans w1 w2 w3 : same_state w1 w2 → same_state w2 w3 → same_state w1 w3.
Proof. unfold same_state. intros (?&?&?&?&?) (?&?&?&?&?). repeat split; congruence. Qed.

Lemma saves_app evs1 evs2 : saves (evs1 ++ evs2) = saves evs1 ++ saves evs2.
Proof. apply omap_app. Qed.

Lemma mkdirs_app evs1 evs2 : mkdirs (evs1 ++ evs2) = mkdirs evs1 ++ mkdirs evs2.
Proof. apply omap_app. Qed.

Lemma writes_seq {A B} (m : Py A) (f : A → Py B) w
    (P : Result B → list (string * Content) → Prop) :
  run_spec m w (writes no_file w) →
  (∀ x, P (Raise x) []) →
  (∀ a w1, run_spec (f a) w1 (writes P w1)) →
  run_spec (m ≫= f) w (writes P w).
Proof.
  intros Hm Hx Hf. eapply spec_bind; [exact Hm|].
  intros [a|x] evs1 w1 (Hs & Hd & Hst); cbn beta iota.
  - eapply spec_weaken; [apply (Hf a w1)|].
    intros r evs2 w2 (HP & Hd2 & Hst2). unfold writes.
    rewrite saves_app, mkdirs_app, Hs, Hd, Hd2. cbn.
    split; [done|]. split; [done|]. by eapply same_state_trans.
  - unfold writes. rewrite Hs. split; [apply Hx|]. by split.
Qed.




Lemma writes_quiet_emit ev w :
  saved ev = None → made_dir ev = None →
  run_spec (emit ev) w (writes (@no_file unit) w).
Proof.
  intros Hs Hd. apply spec_emit_last. unfold writes, no_file, saves, mkdirs. cbn.
  rewrite Hs, Hd. split; [done|]. split; [done|]. by repeat split.
Qed.

Lemma writes_ret {A} (a : A) w (P : Result A → list (string * Content) → Prop) :
  P (Ok a) [] → run_spec (mret a) w (writes P w).
Proof. intros H. apply spec_ret. split; [done|]. split; [done|]. apply same_state_refl. Qed.

Lemma writes_raise {A} x w (P : Result A → list (string * Content) → Prop) :
  P (Raise x) [] → run_spec (raise x) w (writes P w).
Proof. intros H. apply spec_raise. split; [done|]. split; [done|]. apply same_state_refl. Qed.

Lemma writes_new_DataLoader ds bs w :
  run_spec (new_DataLoader ds bs) w (writes (@no_file DataLoader) w).
Proof. unfold new_DataLoader. case_bool_decide; [by apply writes_ret|by apply writes_raise]. Qed.

Lemma writes_fetch_labels ds idxs w :
  run_spec (fetch_labels ds idxs) w (writes (@no_file (list nat)) w).
Proof. unfold fetch_labels. case_match; [by apply writes_ret|by apply writes_raise]. Qed.

Lemma writes_lift_result {A} (r : Result A) w :
  run_spec (lift_result r) w (writes (@no_file A) w).
Proof. exists []. split; [reflexivity|]. split; [done|]. split; [done|]. apply same_state_refl. Qed.

Lemma writes_fold {A S} (body : S → A → Py S) l s w :
  (∀ s a w, run_spec (body s a) w (writes (@no_file S) w)) →
  run_spec (fold_py body l s) w (writes (@no_file S) w).
Proof.
  intros Hbody. revert s w. induction l as [|a l IH]; intros s w.
  - by apply writes_ret.
  - cbn [fold_py]. apply writes_seq; [apply Hbody|done|]. intros s' w1. apply IH.
Qed.

Section PlotFacts.
Variable e : Externals.

Lemma writes_device_name w : run_spec (device_name e) w (writes (@no_file string) w).
Proof. exists []. split; [reflexivity|]. split; [done|]. split; [done|]. apply same_state_refl. Qed.

Lemma writes_call_model model ds idxs w :
  run_spec (call_model e model ds idxs) w (writes (@no_file (list (list Qc))) w).
Proof.
  exists [Call model "forward" [VData (ds_id ds) [idxs]]].
  split; [reflexivity|]. split; [done|]. split; [done|]. by repeat split.
Qed.

Lemma writes_numpy {A} device (t : A) w :
  run_spec (numpy device t) w (writes (@no_file A) w).
Proof. unfold numpy. case_bool_decide; [by apply writes_ret|by apply writes_raise]. Qed.


End PlotFacts.

(** *** The search *)

Lemma better_max (l : list (nat * Qc)) (b : nat * Qc) :
  ∃ best, foldl better (Some b) l = Some best ∧ best ∈ b :: l ∧
          (b.2 <= best.2) ∧ ∀ t, t ∈ l → t.2 <= best.2.
Proof.
  revert b. induction l as [|t l IH]; intros b.
  - exists b. repeat split; [apply list_elem_of_here|apply Qcle_refl|].
    intros t Ht. by apply elem_of_nil in Ht.
  - cbn [foldl]. unfold better at 2. case_bool_decide as Hlt.
    + destruct (IH t) as (best & Hf & Hin & Hle & Hall). exists best.
      repeat split; [exact Hf|by apply list_elem_of_further| |].
      * eapply Qcle_trans; [apply Qclt_le_weak, Hlt|exact Hle].
      * intros t' Ht'. apply elem_of_cons in Ht' as [->|Ht']; [exact Hle|by apply Hall].
    + destruct (IH b) as (best & Hf & Hin & Hle & Hall). exists best.
      repeat split; [exact Hf| |exact Hle|].
      { apply elem_of_cons in Hin as [->|Hin]; [apply list_elem_of_here|].
        by do 2 apply list_elem_of_further. }
      intros t' Ht'. apply elem_of_cons in Ht' as [->|Ht']; [|by apply Hall].
      eapply Qcle_trans; [apply Qcnot_lt_le, Hlt|exact Hle].
Qed.

Lemma best_trial_max (trials : list (nat * Qc)) :
  trials ≠ [] →
  ∃ best, foldl better None trials = Some best ∧ best ∈ trials ∧
          ∀ t, t ∈ trials → t.2 <= best.2.
Proof.
  destruct trials as [|b l]; [done|]. intros _. cbn [foldl better].
  destruct (better_max l b) as (best & Hf & Hin & Hle & Hall). exists best.
  repeat split; [exact Hf|exact Hin|].
  intros t Ht. apply elem_of_cons in Ht as [->|Ht]; [exact Hle|by apply Hall].
Qed.

Lemma flat_map_seq_shift {A} (f g : nat → list A) a n :
  (∀ i, f (S i) = g i) → flat_map f (seq (S a) n) = flat_map g (seq a n).
Proof.
  intros H. revert a. induction n as [|n IH]; intros a; [reflexivity|].
  cbn [seq flat_map]. by rewrite H, IH.
Qed.

Lemma trial_steps_fit_events trainer model train_loader val_loader o :
  omap trial_step (fit_events trainer model train_loader val_loader o)
  = [TFit trainer model].
Proof.
  unfold fit_events.
  change (omap trial_step (?ev :: ?l)) with (TFit trainer model :: omap trial_step l).
  by rewrite omap_app, !omap_fmap_None.
Qed.

Section TuningFacts.
Variable e : Externals.
Hypothesis name_bound : binds_BaselineResnetClassifier e = true.
Hypothesis fit_completes : ∀ h, fit_exception (trainer_fit e h) = None.
Hypothesis fit_reports :
  ∀ h, is_Some (fit_callback_metrics (trainer_fit e h) !! "val_acc_step").
Hypothesis suggest_in_range : ∀ h trial name low high log_scale,
  (low ≤ high)%Z → (low ≤ suggest_int e h trial name low high log_scale ≤ high)%Z.

Lemma returns_trial_suggest_int trial name low high log_scale w :
  run_spec (trial_suggest_int e trial name low high log_scale) w
    (returns trial_step [TSuggest trial name low high log_scale] 0
       (λ v _, (low ≤ high)%Z → (low ≤ v ≤ high)%Z) w).
Proof.
  exists [Call trial "suggest_int" [VStr name; VInt low; VInt high; VBool log_scale]].
  split; [reflexivity|]. eexists. split; [reflexivity|]. split; [reflexivity|].
  split; [|apply suggest_in_range].
  unfold trial_suggest_int. cbv [emit get_world add_trial_param mbind mret Py_bind Py_ret].
  cbn. lia.
Qed.

Lemma returns_timer w : run_spec (timer e) w (returns trial_step [] 0 (λ _ _, True) w).
Proof. exists []. split; [reflexivity|]. eexists. prim. Qed.

Lemma returns_new_AudioDataset data_dir kwargs w :
  run_spec (new_AudioDataset e data_dir kwargs) w
    (returns trial_step [] 1 (λ _ _, True) w).
Proof.
  unfold new_AudioDataset. rseq returns_new. intros id w1 _ _.
  rseq returns_get_world. intros ? ? [-> ->] _.
  destruct (audio_dataset_files e (log w1) data_dir kwargs) as [labels class_dirs].
  by apply returns_ret.
Qed.

Lemma returns_unpack2 {A} (a b : A) w :
  run_spec (unpack2 [a; b]) w (returns trial_step [] 0 (λ _ _, True) w).
Proof. by apply returns_ret. Qed.

Lemma returns_prepare_and_split data_dir max_t w :
  run_spec (prepare_and_split e data_dir max_t) w
    (returns trial_step [] 1 (λ _ _, True) w).
Proof.
  unfold prepare_and_split.
  rseq (returns_print trial_step). intros _ w1 _ _.
  rseq returns_timer. intros start_time w2 _ _.
  rseq returns_new_AudioDataset. intros ds w3 _ _.
  rseq returns_timer. intros end_time w4 _ _.
  rseq (returns_print trial_step). intros _ w5 _ _.
  eapply returns_seq with (X := []) (k1 := 0%nat)
    (R1 := λ l _, ∃ a b, l = [a; b]); [|reflexivity..|].
  - unfold random_split. cbn [sum_Z foldr].
    rewrite bool_decide_false by (intros H; apply H; lia).
    cbn [randperm]. apply spec_ret_bind. apply returns_ret. cbn. eauto.
  - intros l w6 (a & b & ->) _. apply returns_unpack2.
Qed.

Lemma returns_new_DataLoader ds bs w :
  (0 < bs)%Z →
  run_spec (new_DataLoader ds bs) w (returns trial_step [] 0 (λ _ _, True) w).
Proof. intros H. unfold new_DataLoader. rewrite bool_decide_true by done. by apply returns_ret. Qed.

Lemma returns_objective data_dir trial w :
  run_spec (objective e data_dir trial) w
    (returns trial_step
       [ TNewModel (next_id w);
         TNewTrainer (next_id w + 2) (Some (VInt 5));
         TSuggest trial "max_t" 1 5 false;
         TSuggest trial "batch_size" 4 64 true;
         TFit (next_id w + 2) (next_id w) ] 4
       (λ v w', ∃ cm, callback_metrics w' !! (next_id w + 2)%nat = Some cm ∧
                      cm !! "val_acc_step" = Some v) w).
Proof.
  unfold objective. rewrite name_bound.
  rseq returns_new. intros model w1 [-> _] Hid1.
  rseq (returns_DictLogger trial_step). intros logger w2 Hl Hid2.
  rseq returns_get_world. intros ? ? [-> ->] _.
  eapply returns_seq;
    [apply returns_new| cbn; rewrite Hid2, Hid1, <- Nat.add_assoc; reflexivity |reflexivity|].
  intros trainer w3 [Htr _] Hid3.
  rseq returns_trial_suggest_int. intros max_t w4 _ _.
  rseq returns_trial_suggest_int. intros batch_size w5 Hbs _.
  rseq returns_prepare_and_split. intros [train_dataset val_dataset] w6 _ _.
  cbn beta in Hbs. assert (0 < batch_size)%Z as Hpos by (specialize (Hbs ltac:(lia)); lia).
  rseq (returns_new_DataLoader _ _ _ Hpos). intros train_loader w7 _ _.
  rseq (returns_new_DataLoader _ _ _ Hpos). intros val_loader w8 _ _.
  rseq (returns_emit trial_step (Call _ "log_hyperparams" _)). intros _ w9 _ _.
  eapply returns_seq;
    [apply (returns_Trainer_fit trial_step), fit_completes
    | rewrite trial_steps_fit_events; cbn [trainer_id];
      rewrite Htr, Hid2, Hid1, <- Nat.add_assoc; reflexivity |reflexivity|].
  intros _ w10 [_ Hcb] _. cbn [trainer_id] in Hcb.
  rseq returns_get_world. intros ? ? [-> ->] _.
  cbn [trainer_id]. rewrite Hcb. cbn [default from_option id]. unfold getitem.
  match type of Hcb with _ = Some (fit_callback_metrics (trainer_fit e ?h)) =>
    destruct (fit_reports h) as [v Hv]; rewrite Hv; apply returns_ret;
    exists (fit_callback_metrics (trainer_fit e h)) end.
  split; [|exact Hv].
  rewrite <- Hcb. f_equal. rewrite Htr. lia.
Qed.

Lemma returns_optimize data_dir n w :
  run_spec (optimize (objective e data_dir) n) w
    (returns trial_step
       (flat_map (λ i, one_trial (next_id w + 5 * i)) (seq 0 n)) (5 * n)
       (λ trials _, length trials = n) w).
Proof.
  revert w. induction n as [|n IH]; intros w.
  - by apply returns_ret.
  - cbn [optimize].
    eapply returns_seq with (X := [TNewTrial (next_id w)]) (k1 := 1%nat)
      (Y := [ TNewModel (next_id w + 1); TNewTrainer (next_id w + 3) (Some (VInt 5));
              TSuggest (next_id w) "max_t" 1 5 false;
              TSuggest (next_id w) "batch_size" 4 64 true;
              TFit (next_id w + 3) (next_id w + 1) ]
            ++ flat_map (λ i, one_trial (next_id w + 5 * i)) (seq 1 n))
      (k2 := (4 + 5 * n)%nat); [apply (returns_new trial_step)| | lia |].
    { cbn [seq flat_map]. rewrite Nat.mul_0_r, Nat.add_0_r. reflexivity. }
    intros trial w1 [-> _] Hid1.
    eapply returns_seq; [apply returns_objective| | reflexivity |].
    { rewrite Hid1, <- !Nat.add_assoc. reflexivity. }
    intros value w2 _ Hid2.
    eapply returns_seq with (X := flat_map (λ i, one_trial (next_id w + 5 * i)) (seq 1 n))
      (Y := []) (k1 := (5 * n)%nat) (k2 := 0%nat); [|by rewrite app_nil_r|lia|].
    + eapply spec_weaken; [apply (IH w2)|].
      intros r evs w' (trials & -> & HX & Hid & Hlen). exists trials.
      split; [done|]. split; [|split; [exact Hid|exact Hlen]].
      rewrite HX, Hid2, Hid1. symmetry. apply flat_map_seq_shift.
      intros i. f_equal. lia.
    + intros rest w3 Hlen _. apply returns_ret. cbn. by rewrite Hlen.
Qed.

Lemma spec_for_each_prints {A} (body : A → Py unit) l w :
  (∀ a w, ∃ pieces, body a w = (emit (Print pieces) w)) →
  run_spec (for_each l body) w (λ r evs _, r = Ok () ∧ trial_steps evs = []).
Proof.
  intros Hbody. revert w. induction l as [|a l IH]; intros w.
  - by apply spec_ret.
  - cbn [for_each]. eapply spec_bind with (Q1 := λ r evs _, r = Ok () ∧ trial_steps evs = []).
    + destruct (Hbody a w) as [pieces Hp]. unfold run_spec. rewrite Hp.
      exists [Print pieces]. by repeat split.
    + intros r evs1 w1 [-> H1]. eapply spec_weaken; [apply IH|].
      intros r evs2 w2 [-> H2]. split; [done|].
      unfold trial_steps in *. by rewrite omap_app, H1, H2.
Qed.

Lemma spec_hp_tuning data_dir max_epoch batch_size dur_seconds comment w :
  run_spec (hp_tuning_voxforge_classifier e data_dir max_epoch batch_size dur_seconds comment) w
    (λ r evs _,
       r = Raise (NameError "trainer") ∧
       head evs = Some (New (next_id w) "Study" [] [("direction", VStr "maximize")]%string) ∧
       trial_steps evs = flat_map (λ i, one_trial (next_id w + 1 + 5 * i)) (seq 0 25) ∧
       ∃ trials best,
         result_of (optimize (objective e data_dir) 25)
           (new "Study" [] [("direction", VStr "maximize")]%string w).2 = Ok trials ∧
         length trials = 25%nat ∧ best ∈ trials ∧
         (∀ t, t ∈ trials → t.2 <= best.2) ∧
         Print [VStr "  Value: "; VNum (Some best.2)] ∈ evs).
Proof.
  unfold hp_tuning_voxforge_classifier.
  eapply spec_bind with
    (Q1 := λ r evs w1, r = Ok (next_id w) ∧
             evs = [New (next_id w) "Study" [] [("direction", VStr "maximize")]%string] ∧
             w1 = (new "Study" [] [("direction", VStr "maximize")]%string w).2).
  { exists [New (next_id w) "Study" [] [("direction", VStr "maximize")]%string].
    split; [reflexivity|]. split; [reflexivity|]. split; reflexivity. }
  intros r evs1 w1 (-> & -> & Hw1). cbn beta iota.
  eapply spec_bind; [apply spec_self, returns_optimize|].
  intros r evs2 w2 ((trials & -> & HX & Hid & Hlen) & Hr & Hw2). cbn beta iota.
  destruct (best_trial_max trials) as (best & Hbest & Hin & Hmax).
  { intros ->. discriminate Hlen. }
  apply spec_emit, spec_emit. unfold best_trial. rewrite Hbest. apply spec_ret_bind.
  apply spec_emit, spec_emit. apply spec_get_world_bind.
  eapply spec_bind; [apply spec_for_each_prints|].
  { intros [key value] w0. by eexists. }
  intros r evs3 w3 [-> H3]. apply spec_raise.
  split; [done|]. split; [done|]. split.
  - unfold trial_steps in *. rewrite !omap_app, HX.
    change (omap trial_step [New (next_id w) "Study" [] [("direction", VStr "maximize")]%string])
      with (@nil TrialStep).
    rewrite app_nil_l, (app_nil_r evs3). cbn [omap list_omap trial_step].
    rewrite H3, app_nil_r.
    subst w1. apply flat_map_ext. intros i. f_equal.
    cbv [new fresh emit mbind mret Py_bind Py_ret]. cbn [next_id snd]. lia.
  - exists trials, best. subst w1. split; [symmetry; exact Hr|]. split; [exact Hlen|].
    split; [exact Hin|]. split; [exact Hmax|].
    rewrite !elem_of_app. right. right. rewrite !elem_of_cons. auto.
Qed.
End TuningFacts.


Section TuningShape.
Variable e : Externals.

Lemma shows_trial_suggest_int trial name low high log_scale w :
  run_spec (trial_suggest_int e trial name low high log_scale) w
    (returns trial_step [TSuggest trial name low high log_scale] 0 (λ _ _, True) w).
Proof.
  exists [Call trial "suggest_int" [VStr name; VInt low; VInt high; VBool log_scale]].
  split; [reflexivity|]. eexists. split; [reflexivity|]. split; [reflexivity|].
  split; [|done].
  unfold trial_suggest_int. cbv [emit get_world add_trial_param mbind mret Py_bind Py_ret].
  cbn. lia.
Qed.

(** Whatever the libraries answer, a trial shows a prefix of the same
    steps. *)
Lemma shows_objective data_dir trial w :
  run_spec (objective e data_dir trial) w
    (shows trial_step
       [ TNewModel (next_id w);
         TNewTrainer (next_id w + 2) (Some (VInt 5));
         TSuggest trial "max_t" 1 5 false;
         TSuggest trial "batch_size" 4 64 true;
         TFit (next_id w + 2) (next_id w) ] 4 (λ _ _, True) w).
Proof.
  unfold objective.
  eapply shows_seq with (X := [TNewModel (next_id w)]) (k1 := 1%nat)
    (R1 := λ model _, model = next_id w); [|reflexivity..|].
  { destruct (binds_BaselineResnetClassifier e); [|apply shows_raise].
    eapply shows_weaken; [apply returns_shows, (returns_new trial_step)|].
    by intros ? ? [-> _]. }
  intros model w1 -> Hid1.
  seq (returns_DictLogger trial_step). intros logger w2 Hl Hid2.
  seq returns_get_world. intros ? ? [-> ->] _.
  eapply shows_seq;
    [apply returns_shows, returns_new
    | cbn; rewrite Hid2, Hid1, <- Nat.add_assoc; reflexivity |reflexivity|].
  intros trainer w3 [Htr _] Hid3.
  seq shows_trial_suggest_int. intros max_t w4 _ _.
  seq shows_trial_suggest_int. intros batch_size w5 _ _.
  seq returns_prepare_and_split. intros [train_dataset val_dataset] w6 _ _.
  seq (shows_new_DataLoader trial_step). intros train_loader w7 _ _.
  seq (shows_new_DataLoader trial_step). intros val_loader w8 _ _.
  seq (returns_emit trial_step (Call _ "log_hyperparams" _)). intros _ w9 _ _.
  eapply shows_seq;
    [apply (shows_Trainer_fit trial_step)
    | rewrite trial_steps_fit_events; cbn [trainer_id];
      rewrite Htr, Hid2, Hid1, <- Nat.add_assoc; reflexivity |reflexivity|].
  intros _ w10 _ _.
  seq returns_get_world. intros ? ? [-> ->] _.
  last (shows_getitem trial_step).
Qed.
End TuningShape.

(** C9.  Two calls of [hp_tuning_voxforge_classifier] that differ only in
    [max_epoch], [batch_size], [dur_seconds] and [comment] do the same and
    end the same, from every state and whatever the libraries answer; and
    the only trainer a trial ever creates has [max_epochs=5], the batch size
    being the one the trial is asked for. *)
Theorem tuning_ignores_unused_arguments (e : Externals) (data_dir : string)
    (max_epoch1 batch_size1 dur_seconds1 : Z) (comment1 : string)
    (max_epoch2 batch_size2 dur_seconds2 : Z) (comment2 : string) (w : World) :
  hp_tuning_voxforge_classifier e data_dir max_epoch1 batch_size1 dur_seconds1 comment1 w
  = hp_tuning_voxforge_classifier e data_dir max_epoch2 batch_size2 dur_seconds2 comment2 w ∧
  ∀ trial w0,
    trial_steps (emitted (objective e data_dir trial) w0)
    `prefix_of` [ TNewModel (next_id w0);
                  TNewTrainer (next_id w0 + 2) (Some (VInt 5));
                  TSuggest trial "max_t" 1 5 false;
                  TSuggest trial "batch_size" 4 64 true;
                  TFit (next_id w0 + 2) (next_id w0) ].
Proof.
  split; [unfold hp_tuning_voxforge_classifier; reflexivity|].
  intros trial w0.
  by destruct (run_spec_emitted _ _ _ (shows_objective e data_dir trial w0)) as [Hpre _].
Qed.
(** *** [init_trainer], [split_dataset] and the split of a trial *)

(** C2.  As amended: [init_trainer] creates the trainer with the keywords
    [callbacks], [logger], [max_epochs] and [profiler], and with no other
    argument but, when [COLAB_GPU] is in the environment, [gpus=-1] and
    [auto_select_gpus=True] before them; it does nothing else than print a
    line first.  The callbacks are the checkpoint callback, built with the
    keywords [monitor] ('val_loss'), [dirpath] ('./Checkpoints'), [mode]
    ('min') and [filename] and nothing else, and, before it when
    [early_stopping] is true, an early-stopping callback built with the
    metric name 'val_loss' alone.  No patience is passed, neither to a
    callback nor to the trainer. *)
Theorem init_trainer_options (e : Externals) (logger : nat) (max_epochs : Z)
    (profiler : nat) (early_stopping : bool) (w : World) :
  let run := init_trainer e logger max_epochs profiler early_stopping in
  let checkpoint :=
    VCtor "ModelCheckpoint" []
      [ ("monitor", VStr "val_loss"); ("dirpath", VStr "./Checkpoints");
        ("mode", VStr "min"); ("filename", VStr "{epoch:02d}-{val_acc_step:.2f}") ]%string in
  let callbacks :=
    if early_stopping
    then [VCtor "EarlyStopping" [VStr "val_loss"] []; checkpoint]
    else [checkpoint] in
  let kwargs :=
    (if bool_decide ("COLAB_GPU"%string ∈ environ e)
     then [("gpus", VInt (-1)); ("auto_select_gpus", VBool true)]%string else [])
    ++ [ ("callbacks", VList callbacks); ("logger", VObj logger);
         ("max_epochs", VInt max_epochs); ("profiler", VObj profiler) ]%string in
  result_of run w = Ok (mkTrainer (next_id w) logger callbacks) ∧
  emitted run w = [Print [VStr "Initializing trainer..."];
                   New (next_id w) "Trainer" [] kwargs] ∧
  kwarg "patience" kwargs = None ∧
  ∀ callback, callback ∈ callbacks →
    ¬ configures_patience callback ∧
    keywords callback ⊆ ["monitor"; "dirpath"; "mode"; "filename"]%string.
Proof.
  intros run checkpoint callbacks kwargs. subst run kwargs.
  unfold init_trainer, emitted, result_of, is_colab.
  cbv [mbind mret Py_bind Py_ret print emit new fresh]. cbn [fst snd log next_id].
  destruct (bool_decide ("COLAB_GPU"%string ∈ environ e)); cbn [fst snd log next_id length app];
    rewrite Nat.sub_succ_l, Nat.sub_succ_l, Nat.sub_diag by lia;
    cbn [take reverse rev_append]; (split; [by destruct early_stopping|]);
    (split; [by destruct early_stopping|]); (split; [reflexivity|]);
    subst callbacks checkpoint; intros callback Hin;
    destruct early_stopping;
    repeat (apply elem_of_cons in Hin as [->|Hin]);
    try (by apply elem_of_nil in Hin);
    (split; [cbn; intros [[? [=]]|?]; lia | cbn; set_solver]).
Qed.

Lemma slice_bound_range (len i : Z) :
  (0 ≤ len)%Z → (0 ≤ slice_bound len i ≤ len)%Z.
Proof. intros H. unfold slice_bound. case_bool_decide; lia. Qed.

Lemma slice_bound_0 (len : Z) : (0 ≤ len)%Z → slice_bound len 0 = 0%Z.
Proof. intros H. unfold slice_bound. rewrite bool_decide_false by lia. lia. Qed.

Lemma slice_bound_len (len : Z) : (0 ≤ len)%Z → slice_bound len len = len.
Proof. intros H. unfold slice_bound. case_bool_decide; lia. Qed.

Lemma slice_bound_id (len i : Z) : (0 ≤ i ≤ len)%Z → slice_bound len i = i.
Proof. intros H. unfold slice_bound. rewrite bool_decide_false by lia. lia. Qed.

Lemma py_slice_partition {A} (l : list A) (k : Z) :
  py_slice l 0 k ++ py_slice l k (Z.of_nat (length l)) = l.
Proof.
  unfold py_slice. rewrite slice_bound_0, slice_bound_len by lia.
  pose proof (slice_bound_range (Z.of_nat (length l)) k ltac:(lia)) as Hb.
  set (b := slice_bound _ k) in *. change (Z.to_nat 0) with 0%nat.
  rewrite drop_0, Z.sub_0_r.
  rewrite (take_ge (drop (Z.to_nat b) l)) by (rewrite length_drop; lia).
  apply take_drop.
Qed.

Lemma py_slice_prefix_length {A} (l : list A) (k : Z) :
  Z.of_nat (length (py_slice l 0 k)) = slice_bound (Z.of_nat (length l)) k.
Proof.
  unfold py_slice. rewrite slice_bound_0 by lia.
  pose proof (slice_bound_range (Z.of_nat (length l)) k ltac:(lia)) as Hb.
  set (b := slice_bound _ k) in *. change (Z.to_nat 0) with 0%nat.
  rewrite drop_0, Z.sub_0_r, length_take. lia.
Qed.

(** What [split_dataset] does, whatever the fraction. *)
Lemma split_dataset_run (e : Externals) (ds : AudioDataset) (train_split : spec_float)
    (w : World) :
  let n := length (ds_labels ds) in
  let k := num_train_of e n train_split in
  let w1 := (emit (Invoke "torch.randperm" [VInt (Z.of_nat n)]) w).2 in
  let p := randperm_default e (log w1) n in
  split_dataset e ds train_split w
  = (Ok (mkSubset ds (py_slice p 0 k), mkSubset ds (py_slice p k (Z.of_nat n))), w1).
Proof.
  intros n k w1 p. unfold split_dataset, random_split. fold n. fold k.
  cbn [sum_Z foldr]. rewrite bool_decide_false by (intros H; apply H; lia).
  cbv [randperm mbind mret Py_bind Py_ret get_world unpack2]. cbn [fst snd].
  cbn [accumulate accumulate_from zip zip_with map fst].
  replace (k + (Z.of_nat n - k + 0))%Z with (Z.of_nat n) by lia.
  rewrite Nat2Z.id. fold w1. cbn [fst snd]. fold p.
  replace (0 + k - k)%Z with 0%Z by lia. replace (0 + k)%Z with k by lia.
  replace (k + (Z.of_nat n - k) - (Z.of_nat n - k))%Z with k by lia.
  replace (k + (Z.of_nat n - k))%Z with (Z.of_nat n) by lia.
  reflexivity.
Qed.

(** The lengths [split_dataset] gives [random_split] are 64-bit integers,
    and so are the sums and differences [random_split] takes of them; for a
    dataset of fewer than 2^63 samples their wrap-around leaves the sum [n]
    and the bounds 0, [k] and [n] of the two slices. *)
Lemma int64_lengths (n k : Z) :
  (0 ≤ n < 2 ^ 63)%Z → (- 2 ^ 63 ≤ k < 2 ^ 63)%Z →
  let num_val := wrap64 (n - k) in
  let total := wrap64 (k + num_val) in
  total = n ∧ wrap64 (k - k) = 0%Z ∧ wrap64 (total - num_val) = k.
Proof.
  assert (∀ z, ∃ q, wrap64 z = (z - 2 ^ 64 * q)%Z ∧ (- 2 ^ 63 ≤ wrap64 z < 2 ^ 63)%Z) as Hw.
  { intros z. unfold wrap64. exists ((z + 2 ^ 63) `div` 2 ^ 64)%Z.
    pose proof (Z.div_mod (z + 2 ^ 63) (2 ^ 64) ltac:(lia)).
    pose proof (Z.mod_pos_bound (z + 2 ^ 63) (2 ^ 64) ltac:(lia)). lia. }
  intros Hn Hk num_val total.
  destruct (Hw (n - k)%Z) as (q1 & H1 & R1). fold num_val in H1, R1.
  destruct (Hw (k + num_val)%Z) as (q2 & H2 & R2). fold total in H2, R2.
  destruct (Hw (k - k)%Z) as (q3 & H3 & R3).
  destruct (Hw (total - num_val)%Z) as (q4 & H4 & R4).
  lia.
Qed.

(** C4.  As amended.  The number of training samples is
    [k = np.floor(n * t).astype(int)]: the floor of the product of two
    doubles, which is rounded to a double, as a 64-bit integer.  For a
    dataset of [n] samples and a fraction [t] for which [k] lies between 0
    and [n], [split_dataset] returns a training subset of exactly [k]
    samples and a validation subset of exactly [n - k] samples of that
    dataset, and the two subsets together hold every sample once
    ([randperm] yielding a permutation). *)
Theorem split_dataset_sizes (e : Externals) (ds : AudioDataset) (train_split : spec_float)
    (w : World) :
  (∀ h n, randperm_default e h n ≡ₚ seq 0 n) →
  (0 ≤ num_train_of e (length (ds_labels ds)) train_split
     ≤ Z.of_nat (length (ds_labels ds)))%Z →
  let n := length (ds_labels ds) in
  let k := num_train_of e n train_split in
  ∃ train_dataset val_dataset,
    result_of (split_dataset e ds train_split) w = Ok (train_dataset, val_dataset) ∧
    dataset train_dataset = ds ∧ dataset val_dataset = ds ∧
    Z.of_nat (length (indices train_dataset)) = k ∧
    Z.of_nat (length (indices val_dataset)) = (Z.of_nat n - k)%Z ∧
    indices train_dataset ++ indices val_dataset ≡ₚ seq 0 n.
Proof.
  intros Hperm Hk n k. fold n k in Hk.
  unfold result_of. rewrite split_dataset_run. cbn [fst]. fold n k.
  eexists _, _. split; [reflexivity|]. cbn [dataset indices].
  set (p := randperm_default e _ n).
  assert (length p = n) as Hlen by (unfold p; by rewrite (Hperm _ _), length_seq).
  pose proof (py_slice_partition p k) as Hp. rewrite Hlen in Hp.
  pose proof (py_slice_prefix_length p k) as Hpre.
  rewrite Hlen, slice_bound_id in Hpre by lia.
  split; [done|]. split; [done|]. split; [exact Hpre|]. split.
  - apply (f_equal length) in Hp. rewrite length_app, Hlen in Hp. lia.
  - rewrite Hp. apply Hperm.
Qed.

(** The fraction 0.8 of a trial: the floor of the exact product is the
    floor of the product of the doubles, for every dataset of fewer than
    5000 samples. *)
Lemma floor_mul_is_the_double_floor (e : Externals) (n : nat) :
  (n < 5000)%nat → num_train_of e n (float_ratio 8 10) = floor_mul n (8 # 10).
Proof.
  intros Hn.
  assert (forallb (λ n, num_train_of e n (float_ratio 8 10) =? floor_mul n (8 # 10))%Z
            (seq 0 5000) = true) as H by (vm_compute; reflexivity).
  rewrite forallb_forall in H. apply Z.eqb_eq, H, in_seq. lia.
Qed.

Lemma prepare_and_split_result (e : Externals) (data_dir : string) (max_t : Z) (w : World) :
  ∃ ds,
    result_of (prepare_and_split e data_dir max_t) w
    = Ok (mkSubset ds (seeded_partition e (length (ds_labels ds))).1,
          mkSubset ds (seeded_partition e (length (ds_labels ds))).2).
Proof.
  unfold prepare_and_split, result_of, new_AudioDataset, timer, new, print.
  cbv [mbind mret Py_bind Py_ret emit fresh get_world]. cbn [fst snd log next_id].
  destruct (audio_dataset_files e _ data_dir _) as [labels class_dirs].
  cbn [fst snd log next_id ds_labels].
  unfold random_split. cbn [sum_Z foldr ds_labels].
  rewrite bool_decide_false by (intros H; apply H; lia).
  cbv [randperm mbind mret Py_bind Py_ret unpack2]. cbn [fst snd].
  cbn [accumulate accumulate_from zip zip_with map fst].
  eexists (mkAudioDataset _ labels class_dirs). cbn [ds_labels].
  unfold seeded_partition. cbn [fst snd].
  set (k := floor_mul (length labels) (8 # 10)).
  replace (Z.to_nat (k + (Z.of_nat (length labels) - k + 0))) with (length labels) by lia.
  replace (0 + k - k)%Z with 0%Z by lia. replace (0 + k)%Z with k by lia.
  replace (k + (Z.of_nat (length labels) - k) - (Z.of_nat (length labels) - k))%Z
    with k by lia.
  replace (k + (Z.of_nat (length labels) - k))%Z with (Z.of_nat (length labels)) by lia.
  reflexivity.
Qed.

(** C8.  The block of a trial that creates the dataset and splits it always
    returns, and the partition it returns is the one the generator seeded
    with 42 gives for the number of samples: whatever the state, the
    directory, [max_t] and the answers of the libraries, two trials (of one
    run or of two) whose datasets have the same number of samples get the
    same training indices and the same validation indices. *)
Theorem trial_split_is_deterministic (e1 e2 : Externals) (data_dir1 data_dir2 : string)
    (max_t1 max_t2 : Z) (w1 w2 : World) :
  seeded_randperm e1 = seeded_randperm e2 →
  ∃ train1 val1 train2 val2,
    result_of (prepare_and_split e1 data_dir1 max_t1) w1 = Ok (train1, val1) ∧
    result_of (prepare_and_split e2 data_dir2 max_t2) w2 = Ok (train2, val2) ∧
    dataset val1 = dataset train1 ∧ dataset val2 = dataset train2 ∧
    (indices train1, indices val1)
    = seeded_partition e1 (length (ds_labels (dataset train1))) ∧
    (length (ds_labels (dataset train1)) = length (ds_labels (dataset train2)) →
     indices train1 = indices train2 ∧ indices val1 = indices val2).
Proof.
  intros Hseed.
  destruct (prepare_and_split_result e1 data_dir1 max_t1 w1) as [ds1 H1].
  destruct (prepare_and_split_result e2 data_dir2 max_t2 w2) as [ds2 H2].
  eexists _, _, _, _. split; [exact H1|]. split; [exact H2|].
  cbn [dataset indices]. split; [done|]. split; [done|].
  split; [by destruct (seeded_partition e1 _)|].
  intros Hlen. unfold seeded_partition. rewrite Hseed, Hlen. done.
Qed.

(** * Further properties of the code *)

(** *** More on the reconstruction loss *)

Lemma Qc_square_nonneg (a : Qc) : 0 <= a * a.
Proof.
  destruct (Qclt_le_dec a 0) as [Hneg|Hpos].
  - replace (a * a) with ((- a) * (- a)) by ring.
    assert (0 <= - a) as H.
    { apply Qclt_le_weak in Hneg. apply Qcopp_le_compat in Hneg.
      by replace (- 0) with 0 in Hneg by ring. }
    by apply Qcmult_nonneg_nonneg.
  - by apply Qcmult_nonneg_nonneg.
Qed.

Lemma sq_diff_nonneg (a b : Qc) : 0 <= sq_diff a b.
Proof. apply Qc_square_nonneg. Qed.

Lemma sq_diff_zero (a b : Qc) : sq_diff a b = 0 ↔ a = b.
Proof.
  unfold sq_diff. split.
  - intros H. apply Qcmult_integral in H.
    assert (a - b = 0) as H0 by (by destruct H).
    replace a with ((a - b) + b) by ring. rewrite H0. ring.
  - intros ->. ring.
Qed.

Lemma sum1_nonneg (l : list Qc) : Forall (λ q, 0 <= q) l → 0 <= sum1 l.
Proof.
  induction 1 as [|q l Hq _ IH]; [apply Qcle_refl|].
  rewrite sum1_cons. by apply Qcplus_nonneg_nonneg.
Qed.

Lemma sum1_zero (l : list Qc) :
  Forall (λ q, 0 <= q) l → sum1 l = 0 → Forall (λ q, q = 0) l.
Proof.
  induction 1 as [|q l Hq Hl IH]; [constructor|].
  rewrite sum1_cons. intros Hsum.
  pose proof (sum1_nonneg l Hl) as Hs.
  assert (q = 0) as Hq0.
  { apply Qcle_antisym; [|exact Hq].
    rewrite <- Hsum. rewrite <- (Qcplus_0_r q) at 1. by apply Qcplus_le_mono_l. }
  constructor; [exact Hq0|]. apply IH. rewrite Hq0 in Hsum.
  by rewrite Qcplus_0_l in Hsum.
Qed.

Lemma zip_sq_diff_nonneg (l k : list Qc) : Forall (λ q, 0 <= q) (zip_with sq_diff l k).
Proof.
  revert k. induction l as [|a l IH]; intros [|b k]; cbn; constructor;
    [apply sq_diff_nonneg|apply IH].
Qed.

Lemma zip_sq_diff_zero (l k : list Qc) :
  length l = length k → Forall (λ q, q = 0) (zip_with sq_diff l k) → l = k.
Proof.
  revert k. induction l as [|a l IH]; intros [|b k] Hlen H; try done.
  cbn in H. inversion H as [|? ? H0 Hrest]; subst.
  apply sq_diff_zero in H0 as ->. f_equal. apply IH; [|done]. cbn in Hlen. lia.
Qed.

Lemma concat_same_shape_inj {A} (a b : list (list A)) :
  Forall2 (λ r r', length r = length r') a b → concat a = concat b → a = b.
Proof.
  induction 1 as [|r r' a b Hr _ IH]; [done|].
  cbn. intros H. apply app_inj_1 in H as [-> H]; [|exact Hr]. f_equal. by apply IH.
Qed.

Lemma sample_sq_error_nonneg (s s_hat : tensor3) : 0 <= sample_sq_error s s_hat.
Proof. rewrite sample_sq_error_entries. apply sum1_nonneg, zip_sq_diff_nonneg. Qed.

Lemma sample_sq_error_zero (s s_hat : tensor3) :
  same_shape3 s s_hat → sample_sq_error s s_hat = 0 → s = s_hat.
Proof.
  intros Hs H. rewrite sample_sq_error_entries in H.
  apply sum1_zero in H; [|apply zip_sq_diff_nonneg].
  assert (Forall2 (λ r r' : tensor1, length r = length r') (concat s) (concat s_hat)) as H1.
  { by apply Forall2_concat_lift. }
  assert (Forall2 (λ c c' : tensor2, length c = length c') s s_hat) as H2.
  { eapply Forall2_impl; [exact Hs|]. intros c c' Hc. by apply Forall2_length in Hc. }
  apply zip_sq_diff_zero in H.
  - apply concat_same_shape_inj in H; [|exact H1]. by apply concat_same_shape_inj in H.
  - unfold flat3. clear H. induction H1 as [|r r' a b Hr _ IH]; [done|].
    cbn. rewrite !length_app. lia.
Qed.

Lemma zip_sample_nonneg (x x_hat : tensor4) :
  Forall (λ q, 0 <= q) (zip_with sample_sq_error x x_hat).
Proof.
  revert x_hat. induction x as [|s x IH]; intros [|s' x_hat]; cbn; constructor;
    [apply sample_sq_error_nonneg|apply IH].
Qed.

Lemma Q_of_length_pos {A} (l : list A) :
  l ≠ [] → 0 < Q2Qc (inject_Z (Z.of_nat (length l))).
Proof.
  intros Hl. destruct l as [|a l]; [done|].
  unfold Qclt. cbn [this Q2Qc]. rewrite !Qred_correct.
  change (0%Q) with (inject_Z 0). rewrite <- Zlt_Qlt. cbn [length]. lia.
Qed.

Lemma batch_mean_sq_error_nonneg (x x_hat : tensor4) :
  x ≠ [] → 0 <= batch_mean_sq_error x x_hat.
Proof.
  intros Hx. unfold batch_mean_sq_error, Qcdiv.
  apply Qcmult_nonneg_nonneg; [apply sum1_nonneg, zip_sample_nonneg|].
  apply Qclt_le_weak, Qcinv_pos. by apply Q_of_length_pos.
Qed.

Lemma batch_mean_sq_error_zero (x x_hat : tensor4) :
  same_shape4 x x_hat → x ≠ [] → batch_mean_sq_error x x_hat = 0 ↔ x_hat = x.
Proof.
  intros Hs Hx. unfold batch_mean_sq_error, Qcdiv. split.
  - intros H. apply Qcmult_integral in H as [H|H].
    + apply sum1_zero in H; [|apply zip_sample_nonneg].
      clear Hx. induction Hs as [|s s' x x_hat Hs1 _ IH]; [done|].
      cbn in H. inversion H as [|? ? H0 Hrest]; subst.
      apply sample_sq_error_zero in H0 as ->; [|exact Hs1]. f_equal. by apply IH.
    + pose proof (Qcinv_pos _ (Q_of_length_pos x Hx)) as Hpos.
      rewrite H in Hpos. by apply Qclt_not_eq in Hpos.
  - intros ->.
    replace (sum1 (zip_with sample_sq_error x x)) with (Q2Qc 0); [ring|].
    clear. induction x as [|s x IH]; [done|]. cbn [zip_with]. rewrite sum1_cons, <- IH.
    assert (sample_sq_error s s = 0) as ->; [|ring].
    rewrite sample_sq_error_entries. generalize (flat3 s). intros l.
    induction l as [|a l IHl]; [done|]. cbn [zip_with]. rewrite sum1_cons, IHl.
    unfold sq_diff. ring.
Qed.

(** X1.  The loss a step returns is never negative. *)
Theorem training_step_loss_nonneg {latent L} (enc : tensor4 → option latent)
    (dec : latent → option tensor4) (batch : tensor4 * L) (batch_idx : nat) (loss : Qc) :
  fst <$> Autoencoder_1.training_step enc dec batch batch_idx = Some loss →
  0 <= loss.
Proof.
  destruct batch as [x y].
  rewrite training_step_returns_the_loss, reconstruction_loss_value.
  destruct ((Autoencoder_1.forward enc dec x).2) as [x_hat|]; [|done].
  cbn [mbind option_bind].
  destruct (broadcast_tensors x x_hat) as [[expanded_input expanded_target]|]; [|done].
  cbn [mbind option_bind]. case_decide as Hx; [done|].
  intros [= <-]. by apply batch_mean_sq_error_nonneg.
Qed.

(** X2.  In exact arithmetic, the loss of a batch whose reconstruction has
    its shape is zero exactly when the reconstruction is the input.  (The
    float32 arithmetic of the code is not modelled: there the square of a
    difference can underflow to 0, and then a loss of 0 does not tell that
    the two are equal; that the loss of an exact reconstruction is 0 holds
    there too.) *)
Theorem training_step_loss_zero {latent L} (enc : tensor4 → option latent)
    (dec : latent → option tensor4) (x : tensor4) (y : L) (batch_idx : nat)
    (x_hat : tensor4) :
  (Autoencoder_1.forward enc dec x).2 = Some x_hat →
  same_shape4 x x_hat →
  x ≠ [] →
  fst <$> Autoencoder_1.training_step enc dec (x, y) batch_idx = Some 0 ↔ x_hat = x.
Proof.
  intros Hf Hs Hx.
  rewrite training_step_returns_the_loss,
    (reconstruction_loss_same_shape enc dec x y x_hat Hf Hs Hx).
  split.
  - intros H%(inj Some). by apply batch_mean_sq_error_zero in H.
  - intros H. f_equal. by apply batch_mean_sq_error_zero.
Qed.

(** *** More on the epoch loss *)

Section EpochLossMore.
Context {features logits labels : Type}.
Variable model : features → logits.
Variable loss_fn : logits → features → string → Qc.
Variable size0 : features → nat.

Lemma compute_epoch_loss_value (loader : list (features * labels)) :
  compute_epoch_loss_autoencoder model loss_fn size0 loader
  = match total_examples size0 loader with
    | O => None
    | S n => Some (total_loss model loss_fn loader / Q2Qc (inject_Z (Z.of_nat (S n))))
    end.
Proof.
  unfold compute_epoch_loss_autoencoder. rewrite epoch_loss_fold. cbn [Nat.add].
  destruct (total_examples size0 loader); [reflexivity|]. f_equal. f_equal. ring.
Qed.

Lemma total_loss_app (l1 l2 : list (features * labels)) :
  total_loss model loss_fn (l1 ++ l2)
  = total_loss model loss_fn l1 + total_loss model loss_fn l2.
Proof. unfold total_loss. by rewrite map_app, sum1_app. Qed.

Lemma total_examples_app (l1 l2 : list (features * labels)) :
  total_examples size0 (l1 ++ l2)
  = (total_examples size0 l1 + total_examples size0 l2)%nat.
Proof.
  unfold total_examples. induction l1 as [|b l1 IH]; [reflexivity|].
  cbn [app map sum_list sum_list_with] in *. rewrite IH. lia.
Qed.
End EpochLossMore.

Lemma Q_of_nat_pos (n : nat) : (0 < n)%nat → 0 < Q2Qc (inject_Z (Z.of_nat n)).
Proof.
  intros Hn. unfold Qclt. cbn [this Q2Qc]. rewrite !Qred_correct.
  change (0%Q) with (inject_Z 0). rewrite <- Zlt_Qlt. lia.
Qed.

Lemma Q_of_nat_plus (n m : nat) :
  Q2Qc (inject_Z (Z.of_nat (n + m)))
  = Q2Qc (inject_Z (Z.of_nat n)) + Q2Qc (inject_Z (Z.of_nat m)).
Proof.
  apply Qc_is_canon. cbn [this Q2Qc Qcplus]. rewrite !Qred_correct.
  rewrite Nat2Z.inj_add, inject_Z_plus. reflexivity.
Qed.

(** X3.  A loader that yields no example has no epoch loss: the division by
    the number of examples fails. *)
Theorem compute_epoch_loss_no_examples {features logits labels : Type}
    (model : features → logits) (loss_fn : logits → features → string → Qc)
    (size0 : features → nat) (data_loader : list (features * labels)) :
  total_examples size0 data_loader = 0%nat ↔
  compute_epoch_loss_autoencoder model loss_fn size0 data_loader = None.
Proof.
  rewrite compute_epoch_loss_value.
  destruct (total_examples size0 data_loader); split; done.
Qed.

(** X4.  In exact arithmetic, the epoch loss of two loaders one after the
    other is the mean of their epoch losses weighted by their numbers of
    examples.  (The code accumulates in float32, whose rounding is not
    modelled: there the two sides can differ in the last digits.) *)
Theorem compute_epoch_loss_app {features logits labels : Type}
    (model : features → logits) (loss_fn : logits → features → string → Qc)
    (size0 : features → nat) (l1 l2 : list (features * labels)) (L1 L2 : Qc) :
  compute_epoch_loss_autoencoder model loss_fn size0 l1 = Some L1 →
  compute_epoch_loss_autoencoder model loss_fn size0 l2 = Some L2 →
  let n1 := Q2Qc (inject_Z (Z.of_nat (total_examples size0 l1))) in
  let n2 := Q2Qc (inject_Z (Z.of_nat (total_examples size0 l2))) in
  compute_epoch_loss_autoencoder model loss_fn size0 (l1 ++ l2)
  = Some ((n1 * L1 + n2 * L2) / (n1 + n2)).
Proof.
  rewrite !compute_epoch_loss_value, total_loss_app, total_examples_app.
  destruct (total_examples size0 l1) as [|k1] eqn:H1; [done|].
  destruct (total_examples size0 l2) as [|k2] eqn:H2; [done|].
  intros [= <-] [= <-] n1 n2. cbn [Nat.add]. f_equal.
  change (S (k1 + S k2)) with (S k1 + S k2)%nat. rewrite Q_of_nat_plus. fold n1 n2.
  assert (n1 ≠ 0) as Hn1 by (apply not_eq_sym, Qclt_not_eq, Q_of_nat_pos; lia).
  assert (n2 ≠ 0) as Hn2 by (apply not_eq_sym, Qclt_not_eq, Q_of_nat_pos; lia).
  assert (n1 + n2 ≠ 0) as Hn.
  { unfold n1, n2. rewrite <- Q_of_nat_plus.
    apply not_eq_sym, Qclt_not_eq, Q_of_nat_pos. lia. }
  field. done.
Qed.

Lemma Q_of_nat_0 : Q2Qc (inject_Z (Z.of_nat 0)) = 0.
Proof. by apply Qc_is_canon. Qed.

Lemma total_loss_bounds {features logits labels : Type}
    (model : features → logits) (loss_fn : logits → features → string → Qc)
    (size0 : features → nat) (loader : list (features * labels)) (lo hi : Qc) :
  (∀ b, b ∈ loader →
     lo * Q2Qc (inject_Z (Z.of_nat (size0 b.1))) <= loss_fn (model b.1) b.1 "sum" ∧
     loss_fn (model b.1) b.1 "sum" <= hi * Q2Qc (inject_Z (Z.of_nat (size0 b.1)))) →
  lo * Q2Qc (inject_Z (Z.of_nat (total_examples size0 loader)))
    <= total_loss model loss_fn loader ∧
  total_loss model loss_fn loader
    <= hi * Q2Qc (inject_Z (Z.of_nat (total_examples size0 loader))).
Proof.
  induction loader as [|b loader IH]; intros Hb.
  - unfold total_examples, total_loss. cbn. rewrite Q_of_nat_0, !Qcmult_0_r.
    split; apply Qcle_refl.
  - destruct IH as [IH1 IH2].
    { intros b' Hb'. apply Hb. by apply list_elem_of_further. }
    destruct (Hb b (list_elem_of_here _ _)) as [H1 H2].
    unfold total_examples, total_loss in *. cbn [map sum_list sum_list_with].
    rewrite sum1_cons. change (sum_list_with id ?l) with (sum_list l).
    rewrite Q_of_nat_plus, !Qcmult_plus_distr_r.
    split; by apply Qcplus_le_compat.
Qed.

(** X5.  In exact arithmetic, when the summed loss of every batch lies
    between [lo] and [hi] times the size of the batch, the epoch loss lies
    between [lo] and [hi].  (The code accumulates and divides in float32,
    whose rounding is not modelled: there the epoch loss can leave the
    interval by a rounding error.) *)
Theorem compute_epoch_loss_bounds {features logits labels : Type}
    (model : features → logits) (loss_fn : logits → features → string → Qc)
    (size0 : features → nat) (data_loader : list (features * labels)) (lo hi L : Qc) :
  (∀ b, b ∈ data_loader →
     lo * Q2Qc (inject_Z (Z.of_nat (size0 b.1))) <= loss_fn (model b.1) b.1 "sum" ∧
     loss_fn (model b.1) b.1 "sum" <= hi * Q2Qc (inject_Z (Z.of_nat (size0 b.1)))) →
  compute_epoch_loss_autoencoder model loss_fn size0 data_loader = Some L →
  lo <= L ∧ L <= hi.
Proof.
  intros Hb. rewrite compute_epoch_loss_value.
  destruct (total_loss_bounds model loss_fn size0 data_loader lo hi Hb) as [H1 H2].
  destruct (total_examples size0 data_loader) as [|k]; [done|].
  intros H%(inj Some). subst L.
  set (N := Q2Qc (inject_Z (Z.of_nat (S k)))) in *.
  assert (0 < N) as HN by (apply Q_of_nat_pos; lia).
  assert (N ≠ 0) as HN0 by (by apply not_eq_sym, Qclt_not_eq).
  split.
  - apply (Qcmult_lt_0_le_reg_r _ _ N HN).
    replace (total_loss model loss_fn data_loader / N * N)
      with (total_loss model loss_fn data_loader) by (field; done). exact H1.
  - apply (Qcmult_lt_0_le_reg_r _ _ N HN).
    replace (total_loss model loss_fn data_loader / N * N)
      with (total_loss model loss_fn data_loader) by (field; done). exact H2.
Qed.

(** *** [split_dataset] outside its range *)

(** X6.  Whatever the fraction (a double: also one below 0 or above 1, an
    infinity or no number), [split_dataset] returns, and the two subsets
    hold every sample of the dataset exactly once.  The training subset has
    [k = np.floor(n * t).astype(int)] samples cut to the range 0..n, a
    negative [k] counting from the end: [k] is the floor of the rounded
    product of the two doubles, as a 64-bit integer, and what the machine
    makes of a floor outside the 64-bit integers. *)
Theorem split_dataset_partitions (e : Externals) (ds : AudioDataset)
    (train_split : spec_float) (w : World) :
  (∀ h n, randperm_default e h n ≡ₚ seq 0 n) →
  let n := length (ds_labels ds) in
  ∃ train_dataset val_dataset,
    result_of (split_dataset e ds train_split) w = Ok (train_dataset, val_dataset) ∧
    dataset train_dataset = ds ∧ dataset val_dataset = ds ∧
    indices train_dataset ++ indices val_dataset ≡ₚ seq 0 n ∧
    Z.of_nat (length (indices train_dataset))
    = slice_bound (Z.of_nat n) (num_train_of e n train_split).
Proof.
  intros Hperm n. unfold result_of. rewrite split_dataset_run. cbn [fst].
  eexists _, _. split; [reflexivity|]. cbn [dataset indices]. fold n.
  set (p := randperm_default e _ n).
  assert (length p = n) as Hlen by (unfold p; by rewrite (Hperm _ _), length_seq).
  split; [done|]. split; [done|]. split.
  - pose proof (py_slice_partition p (num_train_of e n train_split)) as Hp.
    rewrite Hlen in Hp. rewrite Hp. apply Hperm.
  - rewrite py_slice_prefix_length. by rewrite Hlen.
Qed.

(** *** [init_dataset] and [get_datasets] *)

Lemma init_dataset_run (e : Externals) data_dir dur_seconds crop rgb_expand (w : World) :
  ∃ h evs w',
    init_dataset e data_dir dur_seconds crop rgb_expand w
    = (Ok (mkAudioDataset (next_id w) (audio_dataset_files e h data_dir []).1
             (audio_dataset_files e h data_dir []).2), w') ∧
    extends w w' evs ∧
    omap created evs
    = [(next_id w, "AudioDataset"%string,
        [VStr data_dir; VInt dur_seconds; VBool rgb_expand; crop_value crop], [])].
Proof.
  unfold init_dataset, new_AudioDataset_at, timer, print.
  cbv [new fresh emit get_world mbind mret Py_bind Py_ret]. cbn [fst snd log next_id].
  match goal with |- context [audio_dataset_files e ?h data_dir []] => exists h end.
  destruct (audio_dataset_files e _ data_dir []) as [labels class_dirs]. cbn [fst snd].
  eexists [_; _; _], _. split; [reflexivity|]. split; reflexivity.
Qed.

(** X7.  [get_datasets] creates one object, the dataset, from the directory,
    the duration, [rgb_expand] and [crop] in this order, and returns two
    subsets of it that together hold each of its samples once. *)
Theorem get_datasets_partitions (e : Externals) (data_dir : string) (dur_seconds : Z)
    (train_split : spec_float) (crop : option Z) (rgb_expand : bool) (w : World) :
  (∀ h n, randperm_default e h n ≡ₚ seq 0 n) →
  let run := get_datasets e data_dir dur_seconds train_split crop rgb_expand in
  ∃ train_dataset val_dataset,
    result_of run w = Ok (train_dataset, val_dataset) ∧
    dataset val_dataset = dataset train_dataset ∧
    ds_id (dataset train_dataset) = next_id w ∧
    indices train_dataset ++ indices val_dataset
      ≡ₚ seq 0 (length (ds_labels (dataset train_dataset))) ∧
    omap created (emitted run w)
    = [(next_id w, "AudioDataset"%string,
        [VStr data_dir; VInt dur_seconds; VBool rgb_expand; crop_value crop], [])].
Proof.
  intros Hperm run.
  destruct (init_dataset_run e data_dir dur_seconds crop rgb_expand w)
    as (h & evs & w1 & Hrun & Hext & Hnew).
  set (ds := mkAudioDataset _ _ _) in Hrun.
  assert (run w = (split_dataset e ds train_split w1)) as Hsplit.
  { unfold run, get_datasets. cbv [mbind Py_bind]. rewrite Hrun.
    rewrite split_dataset_run. reflexivity. }
  rewrite split_dataset_run in Hsplit.
  unfold result_of. rewrite Hsplit. cbn [fst].
  eexists _, _. split; [reflexivity|]. cbn [dataset indices].
  split; [done|]. split; [done|]. split.
  - set (n := length (ds_labels ds)). set (p := randperm_default e _ n).
    assert (length p = n) as Hlen by (unfold p; by rewrite (Hperm _ _), length_seq).
    pose proof (py_slice_partition p (num_train_of e n train_split)) as Hp.
    rewrite Hlen in Hp. rewrite Hp. apply Hperm.
  - rewrite (emitted_extends run w (evs ++ [Invoke "torch.randperm" [VInt (Z.of_nat (length (ds_labels ds)))]])).
    + rewrite omap_app, Hnew. reflexivity.
    + rewrite Hsplit. cbn [snd]. eapply extends_app; [exact Hext|]. reflexivity.
Qed.

(** *** [init_measurements_path] *)

Ltac dirs :=
  repeat match goal with
  | |- @eq (gset _) _ _ => apply leibniz_equiv, set_equiv; intros ?
  end;
  rewrite ?elem_of_union, ?elem_of_singleton, ?elem_of_empty in *; tauto.

Section MeasurementsPath.
Variable e : Externals.

Lemma ensure_dir_spec path w :
  run_spec (ensure_dir e path) w (λ r evs w',
    r = Ok () ∧ saves evs = [] ∧ omap created evs = [] ∧ next_id w' = next_id w ∧
    logger_metrics w' = logger_metrics w ∧ callback_metrics w' = callback_metrics w ∧
    trial_params w' = trial_params w ∧
    ((mkdirs evs = [] ∧ fs_dirs w' = fs_dirs w) ∨
     (mkdirs evs = [path] ∧ (path ∉ fs_dirs w) ∧ fs_dirs w' = {[path]} ∪ fs_dirs w ∧
      mkdir_error e (log w) path = None)) ∧
    (path ∈ fs_dirs w → evs = []) ∧
    (mkdir_error e (log w) path = None → path ∈ fs_dirs w')).
Proof.
  unfold run_spec, ensure_dir, isdir, try_mkdir, print.
  cbv [get_world mbind mret Py_bind Py_ret]. cbn [fst snd].
  case_bool_decide as Hin; cbn [negb].
  - exists []. split; [reflexivity|]. cbn. repeat split; auto.
  - destruct (mkdir_error e (log w) path) as [err|] eqn:Herr.
    + exists [Print [VStr err]]. split; [reflexivity|]. cbn.
      repeat split; auto; done.
    + exists [Mkdir path]. split; [reflexivity|]. cbn.
      repeat split; auto; try done. set_solver.
Qed.

Lemma init_measurements_path_unfold :
  init_measurements_path e
  = (_ ← print [VStr "Creating measurements path..."];
     measurements_dir ←
       (if is_colab e
        then _ ← print [VStr "Running on Colab"];
             mret "/content/drive/MyDrive/ECSE-552-FP/Measurements/"%string
        else _ ← print [VStr "Not running on Colab"];
             mret "./Measurements/"%string);
     w ← get_world;
     let now := today_strftime e (log w) in
     let measurements_path := os_path_join e measurements_dir now in
     _ ← ensure_dir e measurements_dir;
     _ ← ensure_dir e measurements_path;
     mret measurements_path).
Proof. reflexivity. Qed.

Lemma spec_init_measurements_path w :
  run_spec (init_measurements_path e) w (λ r evs w',
    ∃ h, let path := os_path_join e (measurements_dir e) (today_strftime e h) in
      r = Ok path ∧ saves evs = [] ∧ omap created evs = [] ∧ next_id w' = next_id w ∧
      logger_metrics w' = logger_metrics w ∧ callback_metrics w' = callback_metrics w ∧
      trial_params w' = trial_params w ∧
      NoDup (mkdirs evs) ∧
      (∀ d, d ∈ mkdirs evs → (d ∉ fs_dirs w) ∧ (d = measurements_dir e ∨ d = path)) ∧
      fs_dirs w' = list_to_set (mkdirs evs) ∪ fs_dirs w ∧
      (measurements_dir e ∈ fs_dirs w → path ∈ fs_dirs w → mkdirs evs = []) ∧
      ((∀ h' p, mkdir_error e h' p = None) →
       measurements_dir e ∈ fs_dirs w' ∧ path ∈ fs_dirs w')).
Proof.
  rewrite init_measurements_path_unfold.
  apply spec_emit.
  eapply spec_bind with (Q1 := λ r evs w1,
    r = Ok (measurements_dir e) ∧ saves evs = [] ∧ omap created evs = [] ∧ mkdirs evs = [] ∧
    same_state (emit (Print [VStr "Creating measurements path..."]) w).2 w1).
  { unfold measurements_dir. destruct (is_colab e).
    - apply spec_emit, spec_ret. by repeat split.
    - apply spec_emit, spec_ret. by repeat split. }
  intros r evs1 w1 (-> & Hs1 & Hc1 & Hd1 & Hid1 & Hfs1 & Hlm1 & Hcm1 & Htp1). cbn in Hid1, Hfs1, Hlm1, Hcm1, Htp1.
  change ((get_world ≫= ?f) ) with (λ w, f w w). cbv beta zeta.
  set (path := os_path_join e (measurements_dir e) (today_strftime e (log w1))).
  eapply spec_bind; [apply ensure_dir_spec|].
  intros r evs2 w2 (-> & Hs2 & Hc2 & Hid2 & Hlm2 & Hcm2 & Htp2 & Hdir2 & Hskip2 & Hok2).
  eapply spec_bind; [apply (ensure_dir_spec path)|].
  intros r evs3 w3 (-> & Hs3 & Hc3 & Hid3 & Hlm3 & Hcm3 & Htp3 & Hdir3 & Hskip3 & Hok3).
  apply spec_ret. exists (log w1). fold path.
  change (Print ?p :: ?l) with ([Print p] ++ l).
  rewrite !saves_app, !mkdirs_app, !omap_app, Hs1, Hs2, Hs3, Hd1, Hc1, Hc2, Hc3.
  change (saves [Print _]) with (@nil (string * Content)).
  change (saves []) with (@nil (string * Content)).
  change (mkdirs [Print _]) with (@nil string). change (mkdirs []) with (@nil string).
  cbn [app]. rewrite app_nil_r.
  split; [done|]. split; [done|]. split; [done|]. split; [congruence|]. split; [congruence|].
  split; [congruence|]. split; [congruence|].
  rewrite Hfs1 in Hdir2, Hskip2.
  clearbody path.
  destruct Hdir2 as [[-> Hfs2]|(-> & Hnin2 & Hfs2 & _)];
    destruct Hdir3 as [[-> Hfs3]|(-> & Hnin3 & Hfs3 & _)];
    rewrite Hfs3 in Hok3 |- *; rewrite Hfs2 in *; cbn [app list_to_set].
  - split; [constructor|]. split; [by intros d ?%elem_of_nil|].
    split; [dirs|]. split; [done|]. intros Hne.
    specialize (Hok2 (Hne _ _)). specialize (Hok3 (Hne _ _)). split; dirs.
  - split; [apply NoDup_singleton|]. split.
    { intros d ->%list_elem_of_singleton. split; [done|by right]. }
    split; [dirs|]. split; [by intros _ ?|]. intros Hne.
    specialize (Hok2 (Hne _ _)). split; dirs.
  - split; [apply NoDup_singleton|]. split.
    { intros d ->%list_elem_of_singleton. split; [done|by left]. }
    split; [dirs|]. split; [by intros ? _|]. intros Hne.
    specialize (Hok3 (Hne _ _)). split; dirs.
  - split.
    { apply NoDup_cons. split; [|apply NoDup_singleton].
      intros Heq%list_elem_of_singleton. apply Hnin3. rewrite <- Heq. dirs. }
    split.
    { intros d [->|Hd]%elem_of_cons.
      - split; [done|by left].
      - apply list_elem_of_singleton in Hd as ->.
        split; [|by right]. intros ?. apply Hnin3. dirs. }
    split; [dirs|]. split; [by intros ? _|]. intros Hne; split; dirs.
Qed.
End MeasurementsPath.


(** X8.  [init_measurements_path] never raises, also when a directory cannot
    be made: it returns the path of today's date under the measurements
    directory (the one on the drive when [COLAB_GPU] is set), writes no file
    and creates no object. *)
Theorem init_measurements_path_returns (e : Externals) (w : World) :
  let run := init_measurements_path e in
  (∃ h, result_of run w
        = Ok (os_path_join e (measurements_dir e) (today_strftime e h))) ∧
  saves (emitted run w) = [] ∧
  omap created (emitted run w) = [] ∧
  next_id (run w).2 = next_id w.
Proof.
  intros run.
  destruct (run_spec_emitted _ _ _ (spec_init_measurements_path e w))
    as (h & Hr & Hs & Hc & Hid & _).
  split; [by exists h|]. by repeat split.
Qed.

(** X9.  The directories [init_measurements_path] makes are among the
    measurements directory and the dated path, each made once and only when
    it was missing; afterwards the directories that exist are those that
    existed and those it made. *)
Theorem init_measurements_path_makes_missing_directories (e : Externals) (w : World) :
  let run := init_measurements_path e in
  NoDup (mkdirs (emitted run w)) ∧
  (∀ d, d ∈ mkdirs (emitted run w) →
     (d ∉ fs_dirs w) ∧ (d = measurements_dir e ∨ Ok d = result_of run w)) ∧
  fs_dirs (run w).2 = list_to_set (mkdirs (emitted run w)) ∪ fs_dirs w.
Proof.
  intros run.
  destruct (run_spec_emitted _ _ _ (spec_init_measurements_path e w))
    as (h & Hr & _ & _ & _ & _ & _ & _ & Hnd & Hin & Hfs & _).
  fold run in Hr, Hnd, Hin, Hfs |- *. split; [exact Hnd|]. split; [|exact Hfs].
  intros d Hd. destruct (Hin d Hd) as [Hnin [->| ->]]; split; auto.
Qed.

(** X10.  When making a directory succeeds and the date does not change, a
    second call of [init_measurements_path] finds both directories: it makes
    none and returns the same path. *)
Theorem init_measurements_path_again (e : Externals) (w : World) :
  (∀ h path, mkdir_error e h path = None) →
  (∀ h h', today_strftime e h = today_strftime e h') →
  let run := init_measurements_path e in
  let w1 := (run w).2 in
  result_of run w1 = result_of run w ∧
  mkdirs (emitted run w1) = [] ∧
  fs_dirs (run w1).2 = fs_dirs w1.
Proof.
  intros Hmk Hday run w1.
  destruct (run_spec_emitted _ _ _ (spec_init_measurements_path e w))
    as (h & Hr & _ & _ & _ & _ & _ & _ & _ & _ & _ & _ & Hex).
  destruct (Hex Hmk) as [Hdir Hpath].
  destruct (run_spec_emitted _ _ _ (spec_init_measurements_path e w1))
    as (h1 & Hr1 & _ & _ & _ & _ & _ & _ & _ & _ & Hfs1 & Hnone & _).
  fold run in Hr, Hr1, Hfs1, Hnone, Hdir, Hpath. fold w1 in Hdir, Hpath.
  rewrite (Hday h1 h) in Hr1, Hnone.
  specialize (Hnone Hdir Hpath). split; [by rewrite Hr1, Hr|]. split; [exact Hnone|].
  rewrite Hfs1, Hnone. cbn [list_to_set]. dirs.
Qed.

(** *** [plot_logger_metrics], case by case *)

(** X11.  [plot_logger_metrics] first opens the JSON file, which creates or
    empties it: when that fails it raises [OSError] and has done nothing.
    Then a logger without metrics makes it raise [AttributeError], the JSON
    file left empty.  Otherwise the metrics are dumped to the file, and it
    raises [KeyError] on the first series that is missing, in the order
    train_loss, val_loss, train_acc_epoch, val_acc_epoch, before any figure
    is written.  With the four series it writes the figure, shows it and
    returns, unless the file of the figure cannot be opened, which raises
    [OSError]. *)
Theorem plot_logger_metrics_missing_series (e : Externals) (logger : nat)
    (measurements_path plot_filename : string) (w : World) :
  let run := plot_logger_metrics e logger measurements_path plot_filename in
  let json := os_path_join e measurements_path (plot_filename +:+ "-metrics.json") in
  let png := os_path_join e measurements_path plot_filename in
  match open_error e (log w) json with
  | Some message => result_of run w = Raise (OSError message) ∧ emitted run w = []
  | None =>
      match logger_metrics w !! logger with
      | None =>
          result_of run w = Raise (AttributeError "metrics") ∧
          emitted run w = [Save json Empty]
      | Some metrics =>
          let dumped := [Save json Empty; Save json (JsonDump metrics)] in
          match first_missing metrics with
          | Some key => result_of run w = Raise (KeyError key) ∧ emitted run w = dumped
          | None =>
              match open_error e (reverse dumped ++ log w) png with
              | Some message =>
                  result_of run w = Raise (OSError message) ∧ emitted run w = dumped
              | None =>
                  result_of run w = Ok () ∧
                  emitted run w
                  = dumped ++
                    [ Save png
                        (LossAccFigure (default [] (metrics !! "train_loss"))
                           (default [] (metrics !! "val_loss"))
                           (default [] (metrics !! "train_acc_epoch"))
                           (default [] (metrics !! "val_acc_epoch")));
                      PltShow ]
              end
          end
      end
  end.
Proof.
  intros run json png.
  assert (∀ r w', run w = (r, w') → ∀ evs, extends w w' evs →
            result_of run w = r ∧ emitted run w = evs) as Hrun.
  { intros r w' Hr evs Hext. unfold result_of. rewrite Hr. split; [reflexivity|].
    apply emitted_extends. by rewrite Hr. }
  unfold run, plot_logger_metrics, open_w, write_file, metrics_of, getitem,
    first_missing, plotted_keys in *. subst json png.
  set (json := os_path_join e measurements_path (plot_filename +:+ "-metrics.json")) in *.
  set (png := os_path_join e measurements_path plot_filename) in *.
  cbv [mbind Py_bind get_world emit mret Py_ret raise] in Hrun |- *.
  cbn [fst snd log logger_metrics] in Hrun |- *.
  destruct (open_error e (log w) json) as [message|]; cbn [fst snd log logger_metrics] in *.
  { by eapply Hrun. }
  destruct (logger_metrics w !! logger) as [metrics|]; cbn [fst snd log logger_metrics] in *.
  2:{ by eapply Hrun. }
  rewrite !filter_cons, filter_nil.
  destruct (metrics !! "train_loss") as [train_loss|]; cbn [fst snd log] in *.
  2:{ rewrite decide_True by done. cbn [head]. by eapply Hrun. }
  rewrite decide_False by done.
  destruct (metrics !! "val_loss") as [val_loss|]; cbn [fst snd log] in *.
  2:{ rewrite decide_True by done. cbn [head]. by eapply Hrun. }
  rewrite decide_False by done.
  destruct (metrics !! "train_acc_epoch") as [train_acc|]; cbn [fst snd log] in *.
  2:{ rewrite decide_True by done. cbn [head]. by eapply Hrun. }
  rewrite decide_False by done.
  destruct (metrics !! "val_acc_epoch") as [val_acc|]; cbn [fst snd log] in *.
  2:{ rewrite decide_True by done. cbn [head]. by eapply Hrun. }
  rewrite decide_False by done. cbn [head default from_option id].
  change (reverse [Save json Empty; Save json (JsonDump metrics)] ++ log w)
    with (Save json (JsonDump metrics) :: Save json Empty :: log w).
  destruct (open_error e _ png) as [message|]; cbn [fst snd log] in *; by eapply Hrun.
Qed.

(** *** How the search ends *)

(** X12.  [hp_tuning_voxforge_classifier] never returns: whatever the
    arguments, the state and the libraries' answers, it ends in an
    exception. *)
Theorem hp_tuning_never_returns (e : Externals) (data_dir : string)
    (max_epoch batch_size dur_seconds : Z) (comment : string) (w : World) :
  ¬ is_Ok (result_of
             (hp_tuning_voxforge_classifier e data_dir max_epoch batch_size dur_seconds comment)
             w).
Proof.
  unfold result_of, hp_tuning_voxforge_classifier.
  do 9 (apply bind_never_Ok; intros ? ?). cbn. tauto.
Qed.

Lemma hp_tuning_unbound_name (e : Externals) (data_dir : string)
    (max_epoch batch_size dur_seconds : Z) (comment : string) (w : World) :
  binds_BaselineResnetClassifier e = false →
  run_spec (hp_tuning_voxforge_classifier e data_dir max_epoch batch_size dur_seconds
              comment) w
    (λ r evs _, r = Raise (NameError "BaselineResnetClassifier") ∧
                omap trial_step evs = [TNewTrial (next_id w + 1)]).
Proof.
  intros Hname. unfold hp_tuning_voxforge_classifier.
  eapply returns_then_raises; [apply (returns_new trial_step)|reflexivity|].
  intros study w1 _ Hid1. apply raises_then. cbn [optimize].
  eapply returns_then_raises with (Y := []);
    [apply (returns_new trial_step)|by rewrite Hid1|].
  intros trial w2 _ _. apply raises_then.
  unfold objective. rewrite Hname. apply raises_then. by apply spec_raise.
Qed.

(** X13.  The search ends in a [NameError].  When the name
    [BaselineResnetClassifier] is not bound (the file binds it only under
    [if __name__ == "__main__"]), the first trial raises at its first line:
    the search has made the study and one trial, and no model, no trainer
    and no fit.  When the name is bound, every fit completes and reports
    [val_acc_step], and the sampler answers in range, all 25 trials complete
    and the search then fails on its own last line: the exception is
    [NameError] for [trainer], a name that is local to the objective. *)
Theorem hp_tuning_raises_name_error (e : Externals) (data_dir : string)
    (max_epoch batch_size dur_seconds : Z) (comment : string) (w : World) :
  let run := hp_tuning_voxforge_classifier e data_dir max_epoch batch_size dur_seconds
               comment in
  (binds_BaselineResnetClassifier e = false →
   result_of run w = Raise (NameError "BaselineResnetClassifier") ∧
   trial_steps (emitted run w) = [TNewTrial (next_id w + 1)]) ∧
  (binds_BaselineResnetClassifier e = true →
   (∀ h, fit_exception (trainer_fit e h) = None) →
   (∀ h, is_Some (fit_callback_metrics (trainer_fit e h) !! "val_acc_step")) →
   (∀ h trial name low high log_scale,
      (low ≤ high)%Z → (low ≤ suggest_int e h trial name low high log_scale ≤ high)%Z) →
   result_of run w = Raise (NameError "trainer")).
Proof.
  intros run. split.
  - intros Hname.
    apply (run_spec_emitted run w
             (λ r evs _, r = Raise (NameError "BaselineResnetClassifier") ∧
                         omap trial_step evs = [TNewTrial (next_id w + 1)])).
    by apply hp_tuning_unbound_name.
  - intros Hname Hcompletes Hfit Hrange.
    by destruct (run_spec_emitted _ _ _
      (spec_hp_tuning e Hname Hcompletes Hfit Hrange data_dir max_epoch batch_size
         dur_seconds comment w)) as (Hr & _).
Qed.

Section MissingMetric.
Variable e : Externals.
Hypothesis name_bound : binds_BaselineResnetClassifier e = true.
Hypothesis fit_completes : ∀ h, fit_exception (trainer_fit e h) = None.
Hypothesis fit_reports_not :
  ∀ h, fit_callback_metrics (trainer_fit e h) !! "val_acc_step" = None.
Hypothesis suggest_in_range : ∀ h trial name low high log_scale,
  (low ≤ high)%Z → (low ≤ suggest_int e h trial name low high log_scale ≤ high)%Z.

Lemma objective_raises_KeyError data_dir trial w :
  run_spec (objective e data_dir trial) w
    (λ r evs _, r = Raise (KeyError "val_acc_step") ∧
       omap trial_step evs
       = [ TNewModel (next_id w);
           TNewTrainer (next_id w + 2) (Some (VInt 5));
           TSuggest trial "max_t" 1 5 false;
           TSuggest trial "batch_size" 4 64 true;
           TFit (next_id w + 2) (next_id w) ]).
Proof.
  unfold objective. rewrite name_bound.
  eapply returns_then_raises; [apply returns_new|reflexivity|]. intros model w1 [-> _] Hid1.
  eapply returns_then_raises; [apply (returns_DictLogger trial_step)|reflexivity|].
  intros logger w2 Hl Hid2.
  eapply returns_then_raises; [apply returns_get_world|reflexivity|]. intros ? ? [-> ->] _.
  eapply returns_then_raises;
    [apply returns_new| cbn; rewrite Hid2, Hid1, <- Nat.add_assoc; reflexivity |].
  intros trainer w3 [Htr _] Hid3.
  eapply returns_then_raises;
    [apply (returns_trial_suggest_int e suggest_in_range)|reflexivity|]. intros max_t w4 _ _.
  eapply returns_then_raises;
    [apply (returns_trial_suggest_int e suggest_in_range)|reflexivity|].
  intros batch_size w5 Hbs _.
  eapply returns_then_raises; [apply returns_prepare_and_split|reflexivity|].
  intros [train_dataset val_dataset] w6 _ _.
  cbn beta in Hbs. assert (0 < batch_size)%Z as Hpos by (specialize (Hbs ltac:(lia)); lia).
  eapply returns_then_raises; [apply (returns_new_DataLoader _ _ _ Hpos)|reflexivity|].
  intros train_loader w7 _ _.
  eapply returns_then_raises; [apply (returns_new_DataLoader _ _ _ Hpos)|reflexivity|].
  intros val_loader w8 _ _.
  eapply returns_then_raises;
    [apply (returns_emit trial_step (Call _ "log_hyperparams" _))|reflexivity|].
  intros _ w9 _ _.
  eapply returns_then_raises;
    [apply (returns_Trainer_fit trial_step), fit_completes
    | rewrite trial_steps_fit_events; cbn [trainer_id];
      rewrite Htr, Hid2, Hid1, <- Nat.add_assoc; reflexivity |].
  intros _ w10 [_ Hcb] _. cbn [trainer_id] in Hcb.
  eapply returns_then_raises; [apply returns_get_world|reflexivity|]. intros ? ? [-> ->] _.
  cbn [trainer_id]. rewrite Hcb. cbn [default from_option id]. unfold getitem.
  rewrite fit_reports_not. by apply spec_raise.
Qed.
End MissingMetric.

(** X14.  When the name [BaselineResnetClassifier] is bound and every fit
    completes but does not report [val_acc_step], the first trial trains its
    model and then fails with [KeyError] on that name; the exception ends
    the search, which has run this one trial. *)
Theorem search_stops_when_metric_missing (e : Externals) (data_dir : string)
    (max_epoch batch_size dur_seconds : Z) (comment : string) (w : World) :
  binds_BaselineResnetClassifier e = true →
  (∀ h, fit_exception (trainer_fit e h) = None) →
  (∀ h, fit_callback_metrics (trainer_fit e h) !! "val_acc_step" = None) →
  (∀ h trial name low high log_scale,
     (low ≤ high)%Z → (low ≤ suggest_int e h trial name low high log_scale ≤ high)%Z) →
  let run := hp_tuning_voxforge_classifier e data_dir max_epoch batch_size dur_seconds
               comment in
  result_of run w = Raise (KeyError "val_acc_step") ∧
  trial_steps (emitted run w) = one_trial (next_id w + 1).
Proof.
  intros Hname Hcompletes Hfit Hrange run.
  apply (run_spec_emitted run w (λ r evs _, r = Raise (KeyError "val_acc_step") ∧
                                    omap trial_step evs = one_trial (next_id w + 1))).
  unfold run, hp_tuning_voxforge_classifier.
  eapply returns_then_raises with (Y := one_trial (next_id w + 1));
    [apply returns_new|reflexivity|].
  intros study w1 _ Hid1. apply raises_then. cbn [optimize].
  eapply returns_then_raises; [apply returns_new|by rewrite Hid1|].
  intros trial w2 [-> _] Hid2. apply raises_then.
  eapply spec_weaken; [apply (objective_raises_KeyError e Hname Hcompletes Hfit Hrange)|].
  intros r evs w' [-> HX]. split; [reflexivity|]. rewrite HX, Hid2, Hid1.
  rewrite <- !Nat.add_assoc. reflexivity.
Qed.

(** *** [get_auroc] *)

Lemma ok_fold_inv {A S} (body : S → A → Py S) (J : list A → S → Prop) (l : list A) :
  (∀ done a s w, J done s →
     match (body s a w).1 with Ok s' => J (done ++ [a]) s' | Raise _ => True end) →
  ∀ done s w, J done s →
    match (fold_py body l s w).1 with Ok s' => J (done ++ l) s' | Raise _ => True end.
Proof.
  intros Hbody. induction l as [|a l IH]; intros done s w HJ.
  - cbn. by rewrite app_nil_r.
  - cbn [fold_py]. revert w.
    eapply ok_bind with (P1 := J (done ++ [a])); [intros w; by apply Hbody|].
    intros s' w HJ'. specialize (IH (done ++ [a]) s' w HJ').
    by rewrite <- app_assoc in IH.
Qed.

Lemma ok_fetch_labels ds idxs w :
  match (fetch_labels ds idxs w).1 with
  | Ok ys => length ys = length idxs
  | Raise _ => True
  end.
Proof.
  unfold fetch_labels.
  destruct (mapM (λ i, ds_labels ds !! i) idxs) as [ys|] eqn:Hys; [|done].
  cbn. symmetry. by eapply length_mapM.
Qed.

Section Auroc.
Variable e : Externals.
Variables (model : nat) (ds : Subset) (batch_size : Z) (k : nat).
Hypothesis batch_size_pos : (0 < batch_size)%Z.
Hypothesis indices_valid :
  Forall (λ i, i < length (ds_labels (dataset ds)))%nat (indices ds).
Hypothesis scores_per_sample : ∀ h m d idxs,
  let scores := softmax e (model_forward e h m d idxs) in
  length scores = length idxs ∧ Forall (λ row, length row = k) scores.
Hypothesis no_cuda : ∀ h, cuda_is_available e h = false.

Lemma length_concat_rows {A} (rows : list (list A)) :
  Forall (λ row, length row = k) rows → length (concat rows) = (k * length rows)%nat.
Proof.
  induction 1 as [|row rows Hrow _ IH]; cbn [concat length]; [lia|].
  rewrite length_app, IH, Hrow. lia.
Qed.

Lemma spec_get_auroc w :
  run_spec (get_auroc e model ds batch_size) w (sees auroc_sizes (λ r X,
    ∃ y_true y_score,
      length y_true = length (indices ds) ∧
      length y_score = (k * length (indices ds))%nat ∧
      X = [(length y_true, length y_score)] ∧
      (is_Ok r → is_Ok (roc_auc_score e y_true y_score (dirs (dataset ds)))))).
Proof.
  unfold get_auroc.
  eapply returns_then; [apply (returns_print auroc_sizes)|].
  intros _ w1 _ _.
  eapply returns_then; [apply (returns_new_DataLoader_pos _ _ _ _ batch_size_pos)|].
  intros dataloader w2 -> _.
  eapply returns_then; [apply (returns_device_name auroc_sizes e)|].
  intros device w3 Hdevice _. rewrite no_cuda in Hdevice. subst device.
  eapply returns_then; [apply (returns_emit auroc_sizes)|].
  intros _ w4 _ _.
  eapply returns_then.
  { apply (returns_fold_inv auroc_sizes _
             (λ done '(y_pop_true, y_pop_hat),
                length y_pop_true = length (concat done) ∧
                length y_pop_hat = (k * length (concat done))%nat)) with (done := []).
    2:{ cbn. split; [reflexivity|lia]. }
    intros done idxs [y_pop_true y_pop_hat] w5 Hin [Ht Hh].
    assert (Forall (λ i, i < length (ds_labels (dataset ds)))%nat idxs) as Hvalid.
    { apply Forall_forall. intros i Hi.
      eapply (proj1 (Forall_forall _ _) indices_valid).
      by eapply chunks_upto_sublist. }
    rseq (returns_fetch_labels auroc_sizes _ _ _ Hvalid). intros y w6 [Hy _] _.
    rseq (returns_call_model auroc_sizes). intros y_hat w7 [h ->] _.
    rseq (returns_numpy auroc_sizes). intros y_hat w8 -> _.
    apply returns_ret. destruct (scores_per_sample h model (ds_id (dataset ds)) idxs) as [Hl Hr].
    rewrite !length_app, concat_app, length_app. cbn [concat]. rewrite app_nil_r.
    rewrite (length_concat_rows _ Hr), Hl, Hy, Ht, Hh. split; lia. }
  intros [y_pop_true y_pop_hat] w5 [Ht Hh] _.
  rewrite app_nil_l in Ht, Hh. unfold index_batches in Ht, Hh. cbn [dl_batch_size dl_dataset] in Ht, Hh.
  rewrite chunks_concat in Ht, Hh by lia.
  apply spec_emit. unfold sees.
  assert (∀ r : Result unit, ∀ evs,
    omap auroc_sizes evs = [] →
    (is_Ok r → is_Ok (roc_auc_score e y_pop_true y_pop_hat (dirs (dataset ds)))) →
    ∃ y_true y_score,
      length y_true = length (indices ds) ∧
      length y_score = (k * length (indices ds))%nat ∧
      omap auroc_sizes [Print [VStr "Calculating AUROC"]] ++
      [] ++ [] ++ omap auroc_sizes [Call model "to" [VStr "cpu"]] ++ [] ++
        omap auroc_sizes
          (Invoke "roc_auc_score"
             [VList (VInt ∘ Z.of_nat <$> y_pop_true); VList (VNum ∘ Some <$> y_pop_hat);
              VList (VStr <$> dirs (dataset ds)); VStr "ovr"] :: evs)
      = [(length y_true, length y_score)] ∧
      (is_Ok r → is_Ok (roc_auc_score e y_true y_score (dirs (dataset ds))))) as Hend.
  { intros r evs Hevs Hr. exists y_pop_true, y_pop_hat.
    split; [exact Ht|]. split; [exact Hh|]. split; [|exact Hr].
    cbn. rewrite Hevs, !length_fmap. reflexivity. }
  destruct (roc_auc_score e y_pop_true y_pop_hat (dirs (dataset ds))) as [auroc|x] eqn:Hscore.
  - exists [Print [VStr "AUROC = "; VNum (round_digits e (Some auroc) 4)]].
    unfold lift_result, print. cbv [mbind Py_bind emit]. cbn [fst snd].
    split; [reflexivity|]. apply Hend; [reflexivity|done].
  - exists []. unfold lift_result. cbv [mbind Py_bind]. cbn [fst snd].
    split; [reflexivity|]. apply Hend; [reflexivity|done].
Qed.
End Auroc.

(** With CUDA the scores of the first batch are on the device, and their
    conversion raises. *)
Lemma get_auroc_cuda (e : Externals) (model : nat) (ds : Subset) (batch_size : Z)
    (w : World) :
  (0 < batch_size)%Z →
  Forall (λ i, i < length (ds_labels (dataset ds)))%nat (indices ds) →
  (∀ h, cuda_is_available e h = true) → indices ds ≠ [] →
  run_spec (get_auroc e model ds batch_size) w (λ r evs _,
    r = Raise (TypeError "can't convert cuda:0 device type tensor to numpy. Use Tensor.cpu() to copy the tensor to host memory first.") ∧
    omap auroc_sizes evs = []).
Proof.
  intros Hbs Hvalid Hcuda Hne. unfold get_auroc.
  eapply returns_then_raises; [apply (returns_print auroc_sizes)|reflexivity|].
  intros _ w1 _ _.
  eapply returns_then_raises;
    [apply (returns_new_DataLoader_pos auroc_sizes _ _ _ Hbs)|reflexivity|].
  intros dataloader w2 -> _.
  eapply returns_then_raises; [apply (returns_device_name auroc_sizes e)|reflexivity|].
  intros device w3 Hdevice _. rewrite Hcuda in Hdevice. subst device.
  eapply returns_then_raises; [apply (returns_emit auroc_sizes)|reflexivity|].
  intros _ w4 _ _. apply raises_then.
  unfold index_batches, chunks. cbn [dl_dataset dl_batch_size].
  destruct (indices ds) as [|i l]; [done|]. cbn [length chunks_upto fold_py].
  apply raises_then.
  eapply returns_then_raises; [apply (returns_fetch_labels auroc_sizes)|reflexivity|].
  { apply Forall_forall. intros j Hj.
    eapply (proj1 (Forall_forall _ _) Hvalid). by eapply subseteq_take. }
  intros y w5 _ _.
  eapply returns_then_raises; [apply (returns_call_model auroc_sizes)|reflexivity|].
  intros y_hat w6 _ _. apply raises_then. by apply spec_raise.
Qed.

(** X15.  Without CUDA, [get_auroc] gives the score function one label per
    sample but, the score rows being appended flat, [k] scores per sample:
    for a loader of a positive batch size over [N] valid samples and a model
    that answers [k] scores for each sample, [roc_auc_score] is called once,
    on [N] labels and [k * N] scores.  With CUDA and a sample to score, the
    scores of the first batch are on the device, their conversion to an
    array raises [TypeError], and [roc_auc_score] is not called. *)
Theorem get_auroc_score_sizes (e : Externals) (model : nat) (ds : Subset)
    (batch_size : Z) (k : nat) (w : World) :
  (0 < batch_size)%Z →
  Forall (λ i, i < length (ds_labels (dataset ds)))%nat (indices ds) →
  (∀ h m d idxs,
     let scores := softmax e (model_forward e h m d idxs) in
     length scores = length idxs ∧ Forall (λ row, length row = k) scores) →
  let run := get_auroc e model ds batch_size in
  ((∀ h, cuda_is_available e h = false) →
   omap auroc_sizes (emitted run w)
   = [(length (indices ds), (k * length (indices ds))%nat)]) ∧
  ((∀ h, cuda_is_available e h = true) → indices ds ≠ [] →
   result_of run w
   = Raise (TypeError "can't convert cuda:0 device type tensor to numpy. Use Tensor.cpu() to copy the tensor to host memory first.") ∧
   omap auroc_sizes (emitted run w) = []).
Proof.
  intros Hbs Hvalid Hscores run. subst run. split.
  - intros Hcuda.
    destruct (run_spec_emitted _ _ _
                (spec_get_auroc e model ds batch_size k Hbs Hvalid Hscores Hcuda w))
      as (y_true & y_score & Ht & Hs & HX & _).
    by rewrite HX, Ht, Hs.
  - intros Hcuda Hne.
    apply (run_spec_emitted _ _ _
             (get_auroc_cuda e model ds batch_size w Hbs Hvalid Hcuda Hne)).
Qed.

Lemma get_auroc_never_Ok (e : Externals) (model : nat) (ds : Subset)
    (batch_size : Z) (k : nat) (w : World) :
  (0 < batch_size)%Z →
  (∀ h m d idxs,
     let scores := softmax e (model_forward e h m d idxs) in
     length scores = length idxs ∧ Forall (λ row, length row = k) scores) →
  (∀ y_true y_score names,
     length y_true ≠ length y_score → ¬ is_Ok (roc_auc_score e y_true y_score names)) →
  indices ds ≠ [] → k ≠ 1%nat →
  ¬ is_Ok (get_auroc e model ds batch_size w).1.
Proof.
  intros Hbs Hscores Hrefuses Hne Hk.
  assert (match (get_auroc e model ds batch_size w).1 with
          | Ok _ => False
          | Raise _ => True
          end) as H;
    [|revert H; destruct (get_auroc e model ds batch_size w).1; cbn; tauto].
  unfold get_auroc. revert w.
  eapply ok_bind; [intro; apply ok_any|]. intros _ w _. revert w.
  eapply ok_bind with (P1 := λ dl, dl = mkDataLoader ds (Z.to_nat batch_size)).
  { intros w. unfold new_DataLoader. by rewrite bool_decide_true. }
  intros dataloader w ->. revert w.
  eapply ok_bind; [intro; apply ok_any|]. intros device w _. revert w.
  eapply ok_bind; [intro; apply ok_any|]. intros _ w _. revert w.
  eapply ok_bind with
    (P1 := λ '(y_pop_true, y_pop_hat),
       length y_pop_true = length (indices ds) ∧
       length y_pop_hat = (k * length (indices ds))%nat).
  { intros w.
    pose proof (ok_fold_inv
      (λ '(y_pop_true, y_pop_hat) idxs,
         y ← fetch_labels (dataset ds) idxs;
         y_hat ← call_model e model (dataset ds) idxs;
         let y_hat := softmax e y_hat in
         let y_pop_true := y_pop_true ++ y in
         y_hat ← numpy device y_hat;
         mret (y_pop_true, y_pop_hat ++ concat y_hat))
      (λ done '(y_pop_true, y_pop_hat),
         length y_pop_true = length (concat done) ∧
         length y_pop_hat = (k * length (concat done))%nat)
      (index_batches (mkDataLoader ds (Z.to_nat batch_size)))) as Hfold.
    specialize (Hfold) with (done := []) (s := ([], [])) (w := w).
    unfold index_batches in Hfold. cbn [dl_batch_size dl_dataset app] in Hfold.
    rewrite chunks_concat in Hfold by lia.
    apply Hfold; [|cbn; split; [reflexivity|lia]].
    clear w Hfold. intros done idxs [y_pop_true y_pop_hat] w [Ht Hh]. revert w.
    eapply ok_bind; [intro; apply ok_fetch_labels|]. intros y w Hy. revert w.
    eapply ok_bind with
      (P1 := λ y_hat, ∃ h, y_hat = model_forward e h model (ds_id (dataset ds)) idxs).
    { intros w. cbn. by eexists. }
    intros y_hat w [h ->]. revert w.
    eapply ok_bind with
      (P1 := λ y_hat, y_hat = softmax e (model_forward e h model (ds_id (dataset ds)) idxs)).
    { intros w. unfold numpy. by case_bool_decide. }
    intros y_hat w ->. cbn.
    destruct (Hscores h model (ds_id (dataset ds)) idxs) as [Hl Hr].
    rewrite !length_app, concat_app, length_app. cbn [concat]. rewrite app_nil_r.
    rewrite (length_concat_rows k _ Hr), Hl, Hy, Ht, Hh. split; lia. }
  intros [y_pop_true y_pop_hat] w [Ht Hh]. revert w.
  eapply ok_bind; [intro; apply ok_any|]. intros _ w _. revert w.
  eapply ok_bind with (P1 := λ _, False); [|done].
  intros w. unfold lift_result. cbn [fst].
  destruct (roc_auc_score e y_pop_true y_pop_hat (dirs (dataset ds))) as [auroc|x] eqn:Hscore;
    [|done].
  apply (Hrefuses y_pop_true y_pop_hat (dirs (dataset ds))); [|by rewrite Hscore].
  rewrite Ht, Hh. destruct (indices ds) as [|i l]; [done|]. cbn [length]. nia.
Qed.

(** X16.  So [get_auroc] cannot succeed on a classifier of several classes:
    when the score function refuses labels and scores of different numbers,
    as the library's does, [get_auroc] raises for every non-empty subset,
    unless the model answers one score for each sample. *)
Theorem get_auroc_fails_on_flattened_scores (e : Externals) (model : nat) (ds : Subset)
    (batch_size : Z) (k : nat) (w : World) :
  (0 < batch_size)%Z →
  Forall (λ i, i < length (ds_labels (dataset ds)))%nat (indices ds) →
  (∀ h m d idxs,
     let scores := softmax e (model_forward e h m d idxs) in
     length scores = length idxs ∧ Forall (λ row, length row = k) scores) →
  (∀ y_true y_score names,
     length y_true ≠ length y_score → ¬ is_Ok (roc_auc_score e y_true y_score names)) →
  indices ds ≠ [] → k ≠ 1%nat →
  ¬ is_Ok (result_of (get_auroc e model ds batch_size) w).
Proof. intros Hbs _. by apply get_auroc_never_Ok. Qed.

(** X17.  [get_auroc] writes no file, makes no directory and changes nothing
    of the state but the log, whether it returns or raises. *)
Theorem get_auroc_only_logs (e : Externals) (model : nat) (ds : Subset)
    (batch_size : Z) (w : World) :
  let run := get_auroc e model ds batch_size in
  saves (emitted run w) = [] ∧ mkdirs (emitted run w) = [] ∧ same_state w (run w).2.
Proof.
  intros run.
  apply (run_spec_emitted run w (writes (@no_file unit) w)).
  unfold run, get_auroc.
  apply writes_seq; [by apply writes_quiet_emit|done|]. intros _ w1.
  apply writes_seq; [apply writes_new_DataLoader|done|]. intros dataloader w2.
  apply writes_seq; [apply writes_device_name|done|]. intros device w3.
  apply writes_seq; [by apply writes_quiet_emit|done|]. intros _ w4.
  apply writes_seq; [|done|].
  { apply writes_fold. intros [y_pop_true y_pop_hat] idxs w5.
    apply writes_seq; [apply writes_fetch_labels|done|]. intros y w6.
    apply writes_seq; [apply writes_call_model|done|]. intros y_hat w7.
    apply writes_seq; [apply writes_numpy|done|]. intros y_hat' w8.
    by apply writes_ret. }
  intros [y_pop_true y_pop_hat] w5.
  apply writes_seq; [by apply writes_quiet_emit|done|]. intros _ w6.
  apply writes_seq; [apply writes_lift_result|done|]. intros auroc w7.
  by apply writes_quiet_emit.
Qed.

(** *** What [train_model] returns *)

(** X18.  For the baseline classifier's name [train_model] does not return
    the logger when the validation subset is not empty and the classifier
    has several classes: if not before, then after the fit,
    [plot_logger_metrics] raises or [get_auroc] does. *)
Theorem train_model_baseline_fails (e : Externals) (model : nat)
    (train_dataset val_dataset : Subset) (max_epoch batch_size : Z) (early_stopping : bool)
    (k : nat) (w : World) :
  Forall (λ i, i < length (ds_labels (dataset val_dataset)))%nat (indices val_dataset) →
  (∀ h m d idxs,
     let scores := softmax e (model_forward e h m d idxs) in
     length scores = length idxs ∧ Forall (λ row, length row = k) scores) →
  (∀ y_true y_score names,
     length y_true ≠ length y_score → ¬ is_Ok (roc_auc_score e y_true y_score names)) →
  indices val_dataset ≠ [] → k ≠ 1%nat →
  ¬ is_Ok (result_of (train_model e model BASELINE_RESNET_NAME train_dataset val_dataset
                        max_epoch batch_size early_stopping) w).
Proof.
  intros Hvalid Hscores Hrefuses Hne Hk.
  unfold result_of, train_model.
  destruct (decide (0 < batch_size)%Z) as [Hbs|Hbs].
  2:{ apply fail_never_Ok. unfold new_DataLoader.
      rewrite bool_decide_false by done. cbn. tauto. }
  do 4 (apply bind_never_Ok; intros ? ?).
  destruct a2 as [[profiler_filename plot_filename] plot_time].
  do 4 (apply bind_never_Ok; intros ? ?).
  apply fail_never_Ok. rewrite bool_decide_true by done.
  apply bind_never_Ok. intros _ w1.
  by apply (get_auroc_never_Ok e model val_dataset batch_size k).
Qed.

Section TrainModelResult.
Variable e : Externals.

Lemma saves_init_measurements_path w :
  run_spec (init_measurements_path e) w (returns saved [] 0 (λ _ _, True) w).
Proof.
  eapply spec_weaken; [apply spec_init_measurements_path|].
  intros r evs w' (h & -> & Hs & _ & Hid & _). eexists. split; [reflexivity|].
  split; [exact Hs|]. split; [lia|done].
Qed.

Lemma saves_make_log_filenames comment w :
  run_spec (make_log_filenames e comment) w (returns saved [] 0 (λ _ _, True) w).
Proof. exists []. split; [reflexivity|]. eexists. prim. Qed.

Lemma saves_init_trainer logger max_epochs profiler early_stopping w :
  run_spec (init_trainer e logger max_epochs profiler early_stopping) w
    (returns saved [] 1 (λ trainer _, trainer_logger trainer = logger) w).
Proof.
  unfold init_trainer. rseq (returns_print saved). intros _ w1 _ _.
  destruct (is_colab e).
  - rseq (returns_new saved). intros t w2 _ _. by apply returns_ret.
  - rseq (returns_new saved). intros t w2 _ _. by apply returns_ret.
Qed.

Lemma saves_fit_events trainer model train_loader val_loader o :
  omap saved (fit_events trainer model train_loader val_loader o)
  = (λ path, (path, TrainerFile)) <$> fit_files o.
Proof.
  unfold fit_events.
  change (omap saved (?ev :: ?l)) with (omap saved l).
  rewrite omap_app, omap_fmap_None by done. cbn [app].
  induction (fit_files o) as [|f files IH]; [reflexivity|]. cbn. by rewrite IH.
Qed.

Lemma saves_train_model model name train_dataset val_dataset max_epoch batch_size
    early_stopping w :
  name ≠ BASELINE_RESNET_NAME → (0 < batch_size)%Z →
  run_spec (train_model e model name train_dataset val_dataset max_epoch batch_size
              early_stopping) w
    (ends saved (λ r files w', ∃ h,
       let o := trainer_fit e h in
       files = (λ path, (path, TrainerFile)) <$> fit_files o ∧
       match fit_exception o with
       | Some exn => r = Raise exn
       | None =>
           r = Ok (next_id w) ∧
           logger_metrics w' !! next_id w = Some (fit_logger_metrics o) ∧
           next_id w' = (next_id w + 3)%nat
       end)).
Proof.
  intros Hname Hbs. unfold train_model.
  eapply (returns_then_world saved); [apply (returns_new_DataLoader_pos saved _ _ _ Hbs)|].
  intros train_loader w1 _ Hid1.
  eapply (returns_then_world saved); [apply (returns_new_DataLoader_pos saved _ _ _ Hbs)|].
  intros val_loader w2 _ Hid2.
  eapply (returns_then_world saved); [apply saves_init_measurements_path|].
  intros measurements_path w3 _ Hid3.
  eapply (returns_then_world saved); [apply saves_make_log_filenames|].
  intros [[profiler_filename plot_filename] plot_time] w4 _ Hid4.
  eapply (returns_then_world saved); [apply (returns_DictLogger saved)|].
  intros logger w5 Hl Hid5.
  eapply (returns_then_world saved); [apply (returns_new saved)|].
  intros profiler w6 _ Hid6.
  eapply (returns_then_world saved); [apply saves_init_trainer|].
  intros trainer w7 Htr Hid7. cbn beta in Hl, Htr.
  eapply spec_bind; [apply spec_Trainer_fit|].
  intros r evs8 w8 H. cbn beta in H. destruct H as (-> & -> & Hid8 & Hlm & _).
  set (o := trainer_fit e _) in *.
  destruct (fit_exception o) as [exn|] eqn:Ho.
  { unfold ends.
    exists (Call (trainer_id trainer) "fit"
              [VObj model; loader_value train_loader; loader_value val_loader] :: log w7).
    fold o. cbn zeta. rewrite Ho, saves_fit_events. split; reflexivity. }
  rewrite bool_decide_false by done.
  assert (∀ w', (((if bool_decide (name = MEL_AE_NAME) then mret () else mret ())
                  ≫= λ _ : (), mret logger) : Py nat) w' = (Ok logger, w')) as Hrest.
  { intros w'. by case_bool_decide. }
  exists []. rewrite Hrest. split; [reflexivity|]. cbn [fst snd].
  unfold ends.
  exists (Call (trainer_id trainer) "fit"
            [VObj model; loader_value train_loader; loader_value val_loader] :: log w7).
  fold o. cbn zeta. rewrite Ho, app_nil_r, saves_fit_events.
  split; [reflexivity|].
  assert (next_id w4 = next_id w) as Hid by lia.
  rewrite Hlm, Htr, Hl, Hid, lookup_insert_eq. repeat split. lia.
Qed.
End TrainModelResult.

(** X19.  For every name other than the baseline classifier's and a
    positive batch size, [train_model] writes no file of its own: the files
    written in the run are those the fit writes (the checkpoints of its
    callback, the output of its profiler).  When the fit completes,
    [train_model] returns the logger it created, which then holds the
    metrics the fit recorded, and three objects have been created (the
    logger, the profiler and the trainer); when the fit raises,
    [train_model] raises the same exception. *)
Theorem train_model_returns_its_logger (e : Externals) (model : nat) (name : string)
    (train_dataset val_dataset : Subset) (max_epoch batch_size : Z) (early_stopping : bool)
    (w : World) :
  name ≠ BASELINE_RESNET_NAME → (0 < batch_size)%Z →
  let run := train_model e model name train_dataset val_dataset max_epoch batch_size
               early_stopping in
  ∃ h,
    let o := trainer_fit e h in
    saves (emitted run w) = (λ path, (path, TrainerFile)) <$> fit_files o ∧
    match fit_exception o with
    | Some exn => result_of run w = Raise exn
    | None =>
        result_of run w = Ok (next_id w) ∧
        logger_metrics (run w).2 !! next_id w = Some (fit_logger_metrics o) ∧
        next_id (run w).2 = (next_id w + 3)%nat
    end.
Proof.
  intros Hname Hbs run.
  apply (run_spec_emitted _ _ _
    (saves_train_model e model name train_dataset val_dataset max_epoch batch_size
       early_stopping w Hname Hbs)).
Qed.

(** *** The matrix [plot_confusion_matrix] returns *)

Lemma counts_matrix_zeros k : counts_matrix k (zeros k).
Proof.
  unfold counts_matrix, zeros. rewrite length_replicate. split; [done|].
  apply Forall_replicate. rewrite length_replicate. split; [done|].
  apply Forall_replicate, Qcle_refl.
Qed.

Lemma Q_of_nat_nonneg n : 0 <= Q_of_nat n.
Proof.
  destruct n as [|n]; [apply Qcle_refl|].
  apply Qclt_le_weak, Q_of_nat_pos. lia.
Qed.

Lemma confusion_matrix_shape y_true y_pred k counts :
  confusion_matrix y_true y_pred k = Ok counts →
  length counts = k ∧ Forall (λ row, length row = k) counts.
Proof.
  unfold confusion_matrix. repeat case_bool_decide; try done.
  intros [= <-]. rewrite length_map, length_seq. split; [done|].
  apply Forall_map, Forall_forall. intros i _. cbn. by rewrite length_map, length_seq.
Qed.

Lemma add_counts_row (row : list Qc) (ns : list nat) k :
  length row = k → Forall (λ q, 0 <= q) row → length ns = k →
  length (zip_with (λ a n, a + Q_of_nat n) row ns) = k ∧
  Forall (λ q, 0 <= q) (zip_with (λ a n, a + Q_of_nat n) row ns).
Proof.
  intros Hl Hrow Hn. split; [rewrite length_zip_with; lia|]. clear Hl Hn.
  revert ns. induction Hrow as [|a row Ha _ IH]; intros [|n ns]; cbn; try constructor.
  - apply Qcplus_nonneg_nonneg; [exact Ha|apply Q_of_nat_nonneg].
  - apply IH.
Qed.

Lemma counts_matrix_add k M counts :
  counts_matrix k M → length counts = k → Forall (λ row, length row = k) counts →
  counts_matrix k (add_counts M counts).
Proof.
  unfold counts_matrix, add_counts. intros [HlM HM] Hlc Hc. split.
  { rewrite length_zip_with. lia. }
  clear HlM Hlc. revert counts Hc.
  induction HM as [|row M [Hl Hrow] _ IH]; intros counts Hc; [constructor|].
  destruct Hc as [|ns counts Hn Hc]; cbn; constructor.
  - by apply add_counts_row.
  - by apply IH.
Qed.

Lemma sum1_scale (row : list Qc) (s : Qc) :
  s ≠ 0 → sum1 (map (λ a, a / s) row) = sum1 row / s.
Proof.
  intros Hs. induction row as [|a row IH]; cbn [map].
  - unfold sum1. cbn. field. exact Hs.
  - rewrite !sum1_cons, IH. field. exact Hs.
Qed.

Lemma normalized_row_of_counts (row : list Qc) :
  Forall (λ q, 0 <= q) row → normalized_row (map (λ a, cell_div a (sum1 row)) row).
Proof.
  intros Hrow. unfold normalized_row, cell_div.
  case_bool_decide as Hs.
  - left. apply Forall_map, Forall_forall. by intros.
  - right. exists (map (λ a, a / sum1 row) row). split; [|split].
    + change (Some <$> ?l) with (map (@Some Qc) l). by rewrite map_map.
    + assert (0 < sum1 row) as Hpos.
      { pose proof (sum1_nonneg row Hrow) as H.
        apply Qcle_lt_or_eq in H as [H|H]; [exact H|]. by destruct Hs. }
      apply Forall_map. eapply Forall_impl; [exact Hrow|]. intros a Ha. cbn.
      unfold Qcdiv. apply Qcmult_nonneg_nonneg; [exact Ha|].
      apply Qclt_le_weak, Qcinv_pos. exact Hpos.
    + rewrite sum1_scale by exact Hs. field. exact Hs.
Qed.

Lemma normalize_rows_counts k M :
  counts_matrix k M →
  length (normalize_rows M) = k ∧
  Forall (λ row, length row = k ∧ normalized_row row) (normalize_rows M).
Proof.
  unfold normalize_rows. intros [Hl HM]. rewrite length_map. split; [exact Hl|].
  apply Forall_map. eapply Forall_impl; [exact HM|]. intros row [Hr Hrow]. cbn.
  rewrite length_map. split; [exact Hr|]. by apply normalized_row_of_counts.
Qed.

Lemma ok_plot_confusion_matrix (e : Externals) model model_name ds data_name batch_size
    measurements_path plot_time w :
  match (plot_confusion_matrix e model model_name ds data_name batch_size
           measurements_path plot_time w).1 with
  | Ok conf_mat =>
      length conf_mat = length (dirs (dataset ds)) ∧
      Forall (λ row, length row = length (dirs (dataset ds)) ∧ normalized_row row) conf_mat
  | Raise _ => True
  end.
Proof.
  unfold plot_confusion_matrix. revert w.
  eapply ok_bind; [intro; apply ok_any|]. intros _ w _. revert w.
  eapply ok_bind; [intro; apply ok_any|]. intros dataloader w _. revert w.
  eapply ok_bind; [intro; apply ok_any|]. intros device w _. revert w.
  eapply ok_bind; [intro; apply ok_any|]. intros _ w _. revert w.
  eapply ok_bind with (P1 := counts_matrix (length (dirs (dataset ds)))).
  { intros w. apply ok_fold; [|apply counts_matrix_zeros].
    intros M idxs w0 HM. revert w0.
    eapply ok_bind; [intro; apply ok_any|]. intros y w0 _. revert w0.
    eapply ok_bind; [intro; apply ok_any|]. intros y_hat w0 _. revert w0.
    eapply ok_bind with
      (P1 := λ counts, length counts = length (dirs (dataset ds)) ∧
                       Forall (λ row, length row = length (dirs (dataset ds))) counts).
    - intros w0. unfold lift_result. cbn [fst].
      destruct (confusion_matrix _ _ _) as [counts|x] eqn:Hc; [|done].
      by eapply confusion_matrix_shape.
    - intros counts w0 [Hl Hc]. cbn. by apply counts_matrix_add. }
  intros M w HM. revert w.
  eapply ok_bind; [intro; apply ok_any|]. intros _ w _. revert w.
  eapply ok_bind; [intro; apply ok_any|]. intros _ w _. revert w.
  eapply ok_bind; [intro; apply ok_any|]. intros _ w _. revert w.
  eapply ok_bind; [intro; apply ok_any|]. intros _ w _. revert w.
  eapply ok_bind; [intro; apply ok_any|]. intros _ w _.
  cbn. by apply normalize_rows_counts.
Qed.

(** X20.  The matrix [plot_confusion_matrix] returns has one row and one
    column for each class directory of the dataset, and each of its rows is
    either without a number in it (no sample of the class was counted, and
    the row was divided by 0) or made of non-negative fractions whose sum
    is 1. *)
Theorem plot_confusion_matrix_rows (e : Externals) (model : nat) (model_name : string)
    (ds : Subset) (data_name : string) (batch_size : Z)
    (measurements_path plot_time : string) (w : World) (conf_mat : list (list cell)) :
  result_of (plot_confusion_matrix e model model_name ds data_name batch_size
               measurements_path plot_time) w = Ok conf_mat →
  length conf_mat = length (dirs (dataset ds)) ∧
  Forall (λ row, length row = length (dirs (dataset ds)) ∧ normalized_row row) conf_mat.
Proof.
  intros Hr.
  pose proof (ok_plot_confusion_matrix e model model_name ds data_name batch_size
                measurements_path plot_time w) as H.
  unfold result_of in Hr. by rewrite Hr in H.
Qed.

Lemma sum1_replicate_0 k : sum1 (replicate k 0) = 0.
Proof. induction k as [|k IH]; [reflexivity|]. cbn [replicate]. rewrite sum1_cons, IH. ring. Qed.

Lemma normalize_rows_zeros k : normalize_rows (zeros k) = replicate k (replicate k None).
Proof.
  unfold normalize_rows, zeros.
  change (map ?f (replicate k ?x)) with (f <$> replicate k x). rewrite fmap_replicate.
  f_equal. rewrite sum1_replicate_0.
  change (map ?f (replicate k ?x)) with (f <$> replicate k x). rewrite fmap_replicate.
  f_equal.
Qed.

(** X21.  Of an empty subset [plot_confusion_matrix] returns, when its
    files can be opened, a matrix without a number in it: no batch is
    counted, every row is divided by its sum 0, and the accuracy it prints
    is 0 divided by 0 as well.  When the files cannot be opened it raises
    the [OSError] of the first one and has written nothing. *)
Theorem plot_confusion_matrix_of_no_sample (e : Externals) (model : nat)
    (model_name : string) (ds : Subset) (data_name : string) (batch_size : Z)
    (measurements_path plot_time : string) (w : World) :
  indices ds = [] → (0 < batch_size)%Z →
  let run := plot_confusion_matrix e model model_name ds data_name batch_size
               measurements_path plot_time in
  let k := length (dirs (dataset ds)) in
  ((∀ h path, open_error e h path = None) →
   result_of run w = Ok (replicate k (replicate k None)) ∧
   Print [VStr "Accuracy: "; VNum (round_digits e None 2); VStr "%"] ∈ emitted run w) ∧
  (∀ message, (∀ h path, open_error e h path = Some message) →
   result_of run w = Raise (OSError message) ∧ saves (emitted run w) = []).
Proof.
  intros Hempty Hbs run k. split.
  - intros Hopen. rewrite <- (omap_Some_id (emitted run w)).
    apply (run_spec_emitted run w (ends Some (λ r evs _,
             r = Ok (replicate k (replicate k None)) ∧
             Print [VStr "Accuracy: "; VNum (round_digits e None 2); VStr "%"] ∈ evs))).
    unfold run, plot_confusion_matrix.
    eapply returns_then_world; [apply (returns_print Some)|]. intros _ w1 _ _.
    eapply returns_then_world; [apply (returns_new_DataLoader_pos Some _ _ _ Hbs)|].
    intros dataloader w2 -> _.
    eapply returns_then_world; [apply (returns_device_name Some e)|].
    intros device w3 _ _.
    eapply returns_then_world; [apply (returns_emit Some)|]. intros _ w4 _ _.
    unfold index_batches, chunks. cbn [dl_dataset dl_batch_size].
    rewrite Hempty. cbn [length chunks_upto fold_py]. fold k. apply spec_ret_bind.
    eapply returns_then_world; [apply (returns_write_file Some), Hopen|]. intros _ w5 _ _.
    eapply returns_then_world; [apply (returns_write_file Some), Hopen|]. intros _ w6 _ _.
    eapply returns_then_world; [apply (returns_print Some)|]. intros _ w7 _ _.
    eapply returns_then_world; [apply (returns_write_file Some), Hopen|]. intros _ w8 _ _.
    eapply returns_then_world; [apply (returns_write_file Some), Hopen|]. intros _ w9 _ _.
    apply spec_ret. unfold ends. split; [by rewrite normalize_rows_zeros|].
    assert (cell_div (diagonal_sum (zeros k)) (total_sum (zeros k)) = None) as ->.
    { unfold cell_div. rewrite bool_decide_true; [done|].
      unfold total_sum, zeros.
      change (map ?f (replicate k ?x)) with (f <$> replicate k x).
      by rewrite fmap_replicate, sum1_replicate_0, sum1_replicate_0. }
    do 6 (apply elem_of_app; right). apply elem_of_app. left. apply list_elem_of_here.
  - intros message Hopen.
    apply (run_spec_emitted run w
             (λ r evs _, r = Raise (OSError message) ∧ omap saved evs = [])).
    unfold run, plot_confusion_matrix.
    eapply returns_then_raises; [apply (returns_print saved)|reflexivity|]. intros _ w1 _ _.
    eapply returns_then_raises;
      [apply (returns_new_DataLoader_pos saved _ _ _ Hbs)|reflexivity|].
    intros dataloader w2 -> _.
    eapply returns_then_raises; [apply (returns_device_name saved e)|reflexivity|].
    intros device w3 _ _.
    eapply returns_then_raises; [apply (returns_emit saved)|reflexivity|]. intros _ w4 _ _.
    unfold index_batches, chunks. cbn [dl_dataset dl_batch_size].
    rewrite Hempty. cbn [length chunks_upto fold_py]. apply spec_ret_bind.
    apply raises_then. unfold write_file. apply spec_get_world_bind.
    rewrite Hopen. by apply spec_raise.
Qed.

(** ** The shapes through the networks of [models.py] *)

Lemma Sequential_cons {act} (lf : AutoEncoder.Layer → act → option act) m ms x :
  AutoEncoder.Sequential lf (m :: ms) x = lf m x ≫= AutoEncoder.Sequential lf ms.
Proof.
  unfold AutoEncoder.Sequential. cbn [foldl mbind option_bind].
  destruct (lf m x) as [y|]; [reflexivity|]. cbn. apply Sequential_None.
Qed.

Lemma conv2d_batch c_in c_out kernel_size stride padding n c h w r :
  Shape.conv2d c_in c_out kernel_size stride padding [n; c; h; w] = Some r →
  c = c_in ∧ ∃ h' w',
    Shape.conv_size h kernel_size.1 stride.1 padding = Some h' ∧
    Shape.conv_size w kernel_size.2 stride.2 padding = Some w' ∧
    r = [n; c_out; h'; w'].
Proof.
  unfold Shape.conv2d. case_bool_decide as Hc; [|done]. intros H. split; [exact Hc|].
  destruct (Shape.conv_size h _ _ _) as [h'|]; [|done].
  destruct (Shape.conv_size w _ _ _) as [w'|]; [|done].
  cbn in H. injection H as <-. by exists h', w'.
Qed.

Lemma conv_transpose2d_batch c_in c_out kernel_size stride padding output_padding n c h w r :
  Shape.conv_transpose2d c_in c_out kernel_size stride padding output_padding [n; c; h; w]
  = Some r →
  c = c_in ∧ ∃ h' w',
    Shape.conv_transpose_size h kernel_size.1 stride.1 padding output_padding = Some h' ∧
    Shape.conv_transpose_size w kernel_size.2 stride.2 padding output_padding = Some w' ∧
    r = [n; c_out; h'; w'].
Proof.
  unfold Shape.conv_transpose2d. case_bool_decide as Hc; [|done]. intros H. split; [exact Hc|].
  destruct (Shape.conv_transpose_size h _ _ _ _) as [h'|]; [|done].
  destruct (Shape.conv_transpose_size w _ _ _ _) as [w'|]; [|done].
  cbn in H. injection H as <-. by exists h', w'.
Qed.

Lemma view_batch (B c h w : Z) :
  (c * (h * (w * 1)) ≠ 0)%Z → (-1 < c)%Z → (-1 < h)%Z → (-1 < w)%Z →
  Shape.view [(-1)%Z; c; h; w] [B; (c * (h * (w * 1)))%Z] = Some [B; c; h; w].
Proof.
  intros Hne Hc Hh Hw. unfold Shape.view.
  rewrite bool_decide_false.
  2:{ rewrite !Exists_cons, Exists_nil. lia. }
  rewrite !filter_cons, filter_nil.
  rewrite (decide_True (P := (-1 = -1)%Z)) by done.
  rewrite (decide_False (P := (c = -1)%Z)) by lia.
  rewrite (decide_False (P := (h = -1)%Z)) by lia.
  rewrite (decide_False (P := (w = -1)%Z)) by lia.
  rewrite (decide_False (P := (-1 ≠ -1)%Z)) by (intros H; by apply H).
  rewrite (decide_True (P := (c ≠ -1)%Z)) by lia.
  rewrite (decide_True (P := (h ≠ -1)%Z)) by lia.
  rewrite (decide_True (P := (w ≠ -1)%Z)) by lia.
  cbn [Shape.numel foldr map]. rewrite bool_decide_false by exact Hne.
  replace (B * (c * (h * (w * 1)) * 1))%Z with (B * (c * (h * (w * 1))))%Z by lia.
  rewrite Z.mod_mul, Z.div_mul by exact Hne.
  rewrite !(bool_decide_true (_ = _)) by done.
  rewrite (bool_decide_false (c = -1)%Z), (bool_decide_false (h = -1)%Z),
    (bool_decide_false (w = -1)%Z) by lia.
  reflexivity.
Qed.

Lemma AutoEncoder_decoder_shape (B : Z) :
  AutoEncoder.Sequential AutoEncoder_layer_shape AutoEncoder.decoder [B; 2%Z]
  = Some [B; 1%Z; 28%Z; 28%Z].
Proof.
  unfold AutoEncoder.decoder.
  rewrite Sequential_cons.
  change (AutoEncoder_layer_shape (AutoEncoder.Linear 2 3136) [B; 2%Z])
    with (Some [B; 3136%Z]).
  cbn [mbind option_bind]. rewrite Sequential_cons.
  change (AutoEncoder_layer_shape (AutoEncoder.Reshape [(-1)%Z; 64%Z; 7%Z; 7%Z]) [B; 3136%Z])
    with (Shape.view [(-1)%Z; 64%Z; 7%Z; 7%Z] [B; (64 * (7 * (7 * 1)))%Z]).
  rewrite view_batch by lia. cbn [mbind option_bind].
  vm_compute. reflexivity.
Qed.

Ltac layer H :=
  rewrite Sequential_cons in H;
  cbn [AutoEncoder_layer_shape fst snd] in H;
  let r := fresh "r" in let Hr := fresh "Hr" in
  match type of H with
  | Some ?x ≫= _ = _ => cbn [mbind option_bind] in H
  | ?m ≫= _ = _ =>
      destruct m as [r|] eqn:Hr; [cbn [mbind option_bind] in H|discriminate H]
  end.

Lemma AutoEncoder_encoder_shape (B C H W : Z) (s : list Z) :
  AutoEncoder.Sequential AutoEncoder_layer_shape AutoEncoder.encoder [B; C; H; W] = Some s →
  s = [B; 2%Z].
Proof.
  unfold AutoEncoder.encoder. intros Hs.
  layer Hs. apply conv2d_batch in Hr as (_ & h1 & w1 & _ & _ & ->). layer Hs.
  layer Hs. apply conv2d_batch in Hr as (_ & h2 & w2 & _ & _ & ->). layer Hs.
  layer Hs. apply conv2d_batch in Hr as (_ & h3 & w3 & _ & _ & ->). layer Hs.
  layer Hs. apply conv2d_batch in Hr as (_ & h4 & w4 & _ & _ & ->).
  layer Hs. cbn [Shape.flatten] in Hr. injection Hr as <-.
  layer Hs. cbn [Shape.linear] in Hr. case_bool_decide; [|done].
  cbn in Hr. injection Hr as <-. cbn in Hs. by injection Hs as <-.
Qed.

(** X22.  Whatever batch of images [AutoEncoder] accepts, what it answers is
    a batch of as many images of one channel and 28 by 28 pixels. *)
Theorem AutoEncoder_answers_28_by_28 (B C H W : Z) (s : list Z) :
  AutoEncoder.forward AutoEncoder_layer_shape [B; C; H; W] = Some s →
  s = [B; 1%Z; 28%Z; 28%Z].
Proof.
  unfold AutoEncoder.forward. intros Hs.
  destruct (AutoEncoder.Sequential _ AutoEncoder.encoder _) as [z|] eqn:Hz; [|done].
  apply AutoEncoder_encoder_shape in Hz as ->. cbn [mbind option_bind] in Hs.
  rewrite AutoEncoder_decoder_shape in Hs. cbn in Hs. by injection Hs as <-.
Qed.

(** X23.  [AutoEncoder] accepts every batch of one-channel images of 25 to 28
    pixels a side: a batch of 28 by 28 images keeps its shape, a smaller
    image comes back larger than it went in. *)
Theorem AutoEncoder_accepts_25_to_28 (B H W : Z) :
  (25 ≤ H ≤ 28)%Z → (25 ≤ W ≤ 28)%Z →
  AutoEncoder.forward AutoEncoder_layer_shape [B; 1%Z; H; W] = Some [B; 1%Z; 28%Z; 28%Z].
Proof.
  intros HH HW. unfold AutoEncoder.forward.
  assert (AutoEncoder.Sequential AutoEncoder_layer_shape AutoEncoder.encoder [B; 1%Z; H; W]
          = Some [B; 2%Z]) as ->.
  { assert (H = 25 ∨ H = 26 ∨ H = 27 ∨ H = 28)%Z as HHc by lia.
    assert (W = 25 ∨ W = 26 ∨ W = 27 ∨ W = 28)%Z as HWc by lia.
    destruct HHc as [->|[->|[->| ->]]]; destruct HWc as [->|[->|[->| ->]]];
      vm_compute; reflexivity. }
  cbn [mbind option_bind]. by rewrite AutoEncoder_decoder_shape.
Qed.

(** *** [Trim] *)

Lemma py_slice_take {A} (l : list A) (k : nat) : py_slice l 0 (Z.of_nat k) = take k l.
Proof.
  unfold py_slice, slice_bound.
  rewrite (bool_decide_false (0 < 0)%Z), (bool_decide_false (Z.of_nat k < 0)%Z) by lia.
  rewrite (Z.min_l 0) by lia. change (Z.to_nat 0) with 0%nat. rewrite drop_0, Z.sub_0_r.
  destruct (decide (k ≤ length l)%nat).
  - rewrite Z.min_l by lia. by rewrite Nat2Z.id.
  - rewrite Z.min_r by lia. rewrite Nat2Z.id. by rewrite !take_ge by lia.
Qed.

Lemma Trim_forward_take {A} (x : list (list (list (list A)))) :
  Trim_forward x = map (map (λ image, map (take 28) (take 28 image))) x.
Proof.
  assert (∀ B (l : list B), py_slice l 0 28 = take 28 l) as Hcut.
  { intros B l. apply (py_slice_take l 28). }
  unfold Trim_forward. apply map_ext. intros sample. apply map_ext. intros image.
  rewrite Hcut. apply map_ext. intros row. apply Hcut.
Qed.

(** X24.  [Trim] cuts every image of a batch to its first 28 rows and every
    row to its first 28 entries: no image it answers is larger than 28 by
    28, an image that is not larger is answered as it is, and trimming
    twice is trimming once. *)
Theorem Trim_forward_cuts_to_28 {A} (x : list (list (list (list A)))) :
  Forall (Forall (λ image, (length image ≤ 28)%nat ∧
                           Forall (λ row, (length row ≤ 28)%nat) image)) (Trim_forward x) ∧
  (Forall (Forall (λ image, (length image ≤ 28)%nat ∧
                            Forall (λ row, (length row ≤ 28)%nat) image)) x →
   Trim_forward x = x) ∧
  Trim_forward (Trim_forward x) = Trim_forward x.
Proof.
  assert (∀ y : list (list (list (list A))),
    Forall (Forall (λ image, (length image ≤ 28)%nat ∧
                             Forall (λ row, (length row ≤ 28)%nat) image)) y →
    Trim_forward y = y) as Hid.
  { intros y Hy. rewrite Trim_forward_take.
    rewrite <- (map_id y) at 2. apply map_ext_Forall.
    eapply Forall_impl; [exact Hy|]. intros sample Hsample.
    rewrite <- (map_id sample) at 2. apply map_ext_Forall.
    eapply Forall_impl; [exact Hsample|]. intros image [Himage Hrows]. cbn.
    rewrite (take_ge image) by exact Himage.
    rewrite <- (map_id image) at 2. apply map_ext_Forall.
    eapply Forall_impl; [exact Hrows|]. intros row Hrow. by apply take_ge. }
  assert (Forall (Forall (λ image, (length image ≤ 28)%nat ∧
                                   Forall (λ row, (length row ≤ 28)%nat) image))
            (Trim_forward x)) as Hcut.
  { rewrite Trim_forward_take. apply Forall_map, Forall_forall. intros sample _.
    apply Forall_map, Forall_forall. intros image _. cbn. split.
    - rewrite length_map, length_take. lia.
    - apply Forall_map, Forall_forall. intros row _. cbn. rewrite length_take. lia. }
  split; [exact Hcut|]. split; [apply Hid|]. by apply Hid.
Qed.

(** *** [Encoder], [Decoder] and the default [Autoencoder_1] *)

Lemma Coders_Sequential_None ms : foldl (λ acc m, acc ≫= Coders.layer_shape m) None ms = None.
Proof. by induction ms. Qed.

Lemma Coders_Sequential_cons m ms x :
  Coders.Sequential (m :: ms) x = Coders.layer_shape m x ≫= Coders.Sequential ms.
Proof.
  unfold Coders.Sequential. cbn [foldl mbind option_bind].
  destruct (Coders.layer_shape m x) as [y|]; [reflexivity|]. cbn. apply Coders_Sequential_None.
Qed.

Ltac coder H :=
  rewrite Coders_Sequential_cons in H;
  cbn [Coders.layer_shape fst snd] in H;
  let r := fresh "r" in let Hr := fresh "Hr" in
  match type of H with
  | Some ?x ≫= _ = _ => cbn [mbind option_bind] in H
  | ?m ≫= _ = _ =>
      destruct m as [r|] eqn:Hr; [cbn [mbind option_bind] in H|discriminate H]
  end.

Ltac coder_goal :=
  rewrite Coders_Sequential_cons;
  cbn [Coders.layer_shape Shape.conv2d Shape.flatten Shape.numel foldr fst snd];
  rewrite ?bool_decide_true by done;
  repeat match goal with
  | |- context [Shape.conv_size ?a ?b ?c ?d] =>
      let v := eval vm_compute in (Shape.conv_size a b c d) in
      change (Shape.conv_size a b c d) with v
  end;
  cbn [mbind option_bind].

Lemma Decoder_linear_shape (latent_dim B : Z) :
  Coders.Sequential (Coders.Decoder_linear latent_dim) [B; latent_dim]
  = Some [B; (2 * 20480)%Z].
Proof.
  unfold Coders.Decoder_linear. rewrite !Coders_Sequential_cons.
  cbn [Coders.layer_shape Shape.linear]. rewrite bool_decide_true by done. reflexivity.
Qed.

Lemma Decoder_reshape_shape (B : Z) (r : list Z) :
  Shape.view [B; (-1)%Z; 4%Z; 4%Z] [B; (2 * 20480)%Z] = Some r ↔
  (0 < B)%Z ∧ r = [B; 2560%Z; 4%Z; 4%Z].
Proof.
  destruct (decide (B = -1)%Z) as [->|HB].
  { split; [done|]. intros [HB _]. lia. }
  unfold Shape.view. rewrite !filter_cons, !filter_nil.
  rewrite (decide_False (P := (B = -1)%Z)) by done.
  rewrite (decide_True (P := (B ≠ -1)%Z)) by done.
  rewrite (decide_True (P := (-1 = -1)%Z)) by done.
  rewrite (decide_False (P := (-1 ≠ -1)%Z)) by (intros H; by apply H).
  rewrite !(decide_False (P := (4 = -1)%Z)) by done.
  rewrite !(decide_True (P := (4 ≠ -1)%Z)) by done.
  cbn [Shape.numel foldr map].
  replace (B * (2 * 20480 * 1))%Z with (2560 * (B * (4 * (4 * 1))))%Z by lia.
  case_bool_decide as Hneg.
  { split; [done|]. intros [HB' _]. exfalso.
    rewrite !Exists_cons, Exists_nil in Hneg. cbn beta in Hneg. lia. }
  rewrite !Exists_cons, Exists_nil in Hneg. cbn beta in Hneg.
  case_bool_decide as H0; [split; [done|lia]|].
  rewrite Z.mod_mul, Z.div_mul by exact H0.
  rewrite (bool_decide_true (0 = 0)%Z) by done.
  rewrite (bool_decide_false (B = -1)%Z) by done.
  rewrite (bool_decide_true (-1 = -1)%Z) by done.
  rewrite !(bool_decide_false (4 = -1)%Z) by done.
  split.
  - intros [= <-]. split; [lia|reflexivity].
  - by intros [_ ->].
Qed.

Lemma Decoder_net_shape (n c B : Z) (s : list Z) :
  Coders.Sequential (Coders.Decoder_net n c) [B; 2560%Z; 4%Z; 4%Z] = Some s ↔
  c = 1280%Z ∧ s = [B; n; 32%Z; 32%Z].
Proof.
  split.
  - unfold Coders.Decoder_net. intros Hs.
    coder Hs. apply conv_transpose2d_batch in Hr as (Hc & h1 & w1 & Hh & Hw & ->).
    assert (c = 1280)%Z as -> by lia. split; [reflexivity|].
    vm_compute in Hh, Hw. injection Hh as <-. injection Hw as <-.
    vm_compute in Hs. by injection Hs as <-.
  - intros [-> ->]. vm_compute. reflexivity.
Qed.

Lemma Encoder_shape (n c latent_dim B C H W : Z) (s : list Z) :
  Coders.Encoder_forward n c latent_dim [B; C; H; W] = Some s → s = [B; latent_dim].
Proof.
  unfold Coders.Encoder_forward, Coders.Encoder_net. intros Hs.
  coder Hs. apply conv2d_batch in Hr as (_ & h1 & w1 & _ & _ & ->). coder Hs.
  coder Hs. apply conv2d_batch in Hr as (_ & h2 & w2 & _ & _ & ->). coder Hs.
  coder Hs. apply conv2d_batch in Hr as (_ & h3 & w3 & _ & _ & ->). coder Hs.
  coder Hs. apply conv2d_batch in Hr as (_ & h4 & w4 & _ & _ & ->). coder Hs.
  coder Hs. apply conv2d_batch in Hr as (_ & h5 & w5 & _ & _ & ->). coder Hs.
  coder Hs. cbn [Shape.flatten] in Hr. injection Hr as <-.
  coder Hs. cbn [Shape.linear] in Hr. case_bool_decide; [|done].
  cbn in Hr. injection Hr as <-. cbn in Hs. by injection Hs as <-.
Qed.

Lemma Decoder_shape (n c latent_dim B : Z) (s : list Z) :
  Coders.Decoder_forward n c latent_dim [B; latent_dim] = Some s ↔
  c = 1280%Z ∧ (0 < B)%Z ∧ s = [B; n; 32%Z; 32%Z].
Proof.
  unfold Coders.Decoder_forward. rewrite Decoder_linear_shape. cbn [mbind option_bind].
  split.
  - intros Hs. destruct (Shape.view _ _) as [r|] eqn:Hr; [|done].
    apply Decoder_reshape_shape in Hr as [HB ->]. cbn [mbind option_bind] in Hs.
    apply Decoder_net_shape in Hs as [-> ->]. done.
  - intros (-> & HB & ->).
    rewrite (proj2 (Decoder_reshape_shape B _) (conj HB eq_refl)). cbn [mbind option_bind].
    by apply Decoder_net_shape.
Qed.

Lemma Encoder_example_shape (n c latent_dim : Z) (s : list Z) :
  Coders.Encoder_forward n c latent_dim (Coders.example_input_array n 128 157) = Some s ↔
  c = 64%Z ∧ s = [2%Z; latent_dim].
Proof.
  unfold Coders.Encoder_forward, Coders.Encoder_net, Coders.example_input_array.
  assert (Coders.Sequential
            [Coders.Conv2d n c 3 1 2; Coders.GELU; Coders.Conv2d c c 3 1 1; Coders.GELU;
             Coders.Conv2d c (2 * c) 3 1 2; Coders.GELU;
             Coders.Conv2d (2 * c) (2 * c) 3 1 1; Coders.GELU;
             Coders.Conv2d (2 * c) (2 * c) 3 1 2; Coders.GELU;
             Coders.Flatten; Coders.Linear (2 * 20480) latent_dim] [2%Z; n; 128%Z; 157%Z]
          = Shape.linear (2 * 20480) latent_dim [2%Z; (2 * c * (16 * (20 * 1)))%Z]) as ->.
  { do 11 coder_goal. rewrite Coders_Sequential_cons. cbn [Coders.layer_shape].
    destruct (Shape.linear _ _ _); reflexivity. }
  cbn [Shape.linear]. case_bool_decide as Hc; cbn [fmap option_fmap option_map].
  - split; [intros [= <-]; split; [lia|done]|by intros [_ ->]].
  - split; [done|]. intros [-> _]. by destruct Hc.
Qed.

(** X25.  [Decoder] answers 32 by 32 images, and only for a base channel size
    of 1280: on a batch of [B] latent vectors it returns exactly when
    [base_channel_size] is 1280 and the batch is not empty, and what it
    returns are [B] images of [num_input_channels] channels and 32 by 32
    pixels. *)
Theorem Decoder_answers_32_by_32 (num_input_channels base_channel_size latent_dim B : Z)
    (s : list Z) :
  Coders.Decoder_forward num_input_channels base_channel_size latent_dim [B; latent_dim]
  = Some s ↔
  base_channel_size = 1280%Z ∧ (0 < B)%Z ∧ s = [B; num_input_channels; 32%Z; 32%Z].
Proof. apply Decoder_shape. Qed.

(** X26.  [Encoder] accepts the example input of [Autoencoder_1], two images
    of 128 by 157, exactly when [base_channel_size] is 64; it then answers
    two latent vectors. *)
Theorem Encoder_accepts_example_input (num_input_channels base_channel_size latent_dim : Z)
    (s : list Z) :
  Coders.Encoder_forward num_input_channels base_channel_size latent_dim
    (Coders.example_input_array num_input_channels 128 157) = Some s ↔
  base_channel_size = 64%Z ∧ s = [2%Z; latent_dim].
Proof. apply Encoder_example_shape. Qed.

(** X27.  So [Autoencoder_1] with its default encoder and decoder cannot
    process its own example input, whatever the base channel size, the
    latent dimension and the number of channels: the encoder needs 64 base
    channels for it and the decoder 1280. *)
Theorem Autoencoder_1_rejects_example_input
    (num_input_channels base_channel_size latent_dim : Z) :
  Coders.Autoencoder_1_forward num_input_channels base_channel_size latent_dim
    (Coders.example_input_array num_input_channels 128 157) = None.
Proof.
  unfold Coders.Autoencoder_1_forward.
  destruct (Coders.Encoder_forward _ _ _ _) as [z|] eqn:Hz; [|reflexivity].
  apply Encoder_example_shape in Hz as [-> ->]. cbn [mbind option_bind].
  destruct (Coders.Decoder_forward _ _ _ _) as [s|] eqn:Hs; [|reflexivity].
  apply Decoder_shape in Hs as [Hc _]. discriminate Hc.
Qed.

(** X28.  Whatever batch of images the default [Autoencoder_1] accepts, its
    base channel size is 1280 and the reconstruction is a batch of as many
    images of 32 by 32 pixels. *)
Theorem Autoencoder_1_reconstructs_32_by_32
    (num_input_channels base_channel_size latent_dim B C H W : Z) (s : list Z) :
  Coders.Autoencoder_1_forward num_input_channels base_channel_size latent_dim [B; C; H; W]
  = Some s →
  base_channel_size = 1280%Z ∧ s = [B; num_input_channels; 32%Z; 32%Z].
Proof.
  unfold Coders.Autoencoder_1_forward. intros Hs.
  destruct (Coders.Encoder_forward _ _ _ _) as [z|] eqn:Hz; [|done].
  apply Encoder_shape in Hz as ->. cbn [mbind option_bind] in Hs.
  apply Decoder_shape in Hs as (-> & _ & ->). done.
Qed.

(** X29.  With 1280 base channels the default [Autoencoder_1] accepts every
    non-empty batch of 32 by 32 images and reconstructs it in the same
    shape. *)
Theorem Autoencoder_1_keeps_32_by_32 (num_input_channels latent_dim B : Z) :
  (0 < B)%Z →
  Coders.Autoencoder_1_forward num_input_channels 1280 latent_dim
    [B; num_input_channels; 32%Z; 32%Z]
  = Some [B; num_input_channels; 32%Z; 32%Z].
Proof.
  intros HB. unfold Coders.Autoencoder_1_forward.
  assert (Coders.Encoder_forward num_input_channels 1280 latent_dim
            [B; num_input_channels; 32%Z; 32%Z] = Some [B; latent_dim]) as ->.
  { unfold Coders.Encoder_forward, Coders.Encoder_net.
    do 11 coder_goal. rewrite Coders_Sequential_cons.
    cbn [Coders.layer_shape Shape.linear].
    rewrite bool_decide_true by done. reflexivity. }
  cbn [mbind option_bind]. by apply Decoder_shape.
Qed.

(** * The training driver and the post-processing *)

(** *** Runs of the post-processing that return *)

Section Postprocessing.
Variable e : Externals.
Hypothesis files_open : ∀ h path, open_error e h path = None.



End Postprocessing.


(** *** The steps of [train_model] *)

Section TrainModelSteps.
Variable e : Externals.




End TrainModelSteps.


(** * The claims on the machine of the examples *)




(** C2, as the documentation states it, fails: with [early_stopping] true
    no callback of the trainer is given a patience. *)
Lemma init_trainer_configures_no_patience :
  ∃ trainer,
    result_of (init_trainer demo_externals 0 5 1 true) demo_world = Ok trainer ∧
    ¬ ∃ callback, callback ∈ trainer_callbacks trainer ∧ configures_patience callback.
Proof.
  eexists. split; [vm_compute; reflexivity|].
  intros (callback & Hin & Hp). cbn [trainer_callbacks] in Hin.
  repeat (apply elem_of_cons in Hin as [->|Hin]);
    try (by apply elem_of_nil in Hin);
    destruct Hp as [[v Hv]|Hlen]; (discriminate Hv || (cbn in Hlen; lia)).
Qed.



(** C4, as the documentation states it, fails for fractions between 0 and
    1, because the product is rounded before its floor is taken.  Of 10
    samples and the fraction 0.7 the training subset has 7 samples, and the
    floor of 10 times the number the double 0.7 stands for is 6.  Of 100
    samples and the fraction 0.29 the training subset has 28 samples, and
    the floor of 100 * 29/100 is 29. *)
Lemma split_dataset_rounds_the_product :
  (∃ train_dataset val_dataset,
     result_of (split_dataset demo_externals (demo_dataset_of 10) (float_ratio 7 10))
       demo_world = Ok (train_dataset, val_dataset) ∧
     length (indices train_dataset) = 7%nat ∧
     floor_mul 10 (float_value (float_ratio 7 10)) = 6%Z) ∧
  (∃ train_dataset val_dataset,
     result_of (split_dataset demo_externals (demo_dataset_of 100) (float_ratio 29 100))
       demo_world = Ok (train_dataset, val_dataset) ∧
     length (indices train_dataset) = 28%nat ∧
     floor_mul 100 (29 # 100) = 29%Z).
Proof.
  split; eexists _, _; (split; [vm_compute; reflexivity|]); split; vm_compute; reflexivity.
Qed.

Lemma split_dataset_sizes_witness :
  ∃ train_dataset val_dataset,
    result_of (split_dataset demo_externals demo_dataset (float_ratio 1 2)) demo_world
    = Ok (train_dataset, val_dataset) ∧
    dataset train_dataset = demo_dataset ∧ dataset val_dataset = demo_dataset ∧
    Z.of_nat (length (indices train_dataset))
    = num_train_of demo_externals 2 (float_ratio 1 2) ∧
    Z.of_nat (length (indices val_dataset))
    = (2 - num_train_of demo_externals 2 (float_ratio 1 2))%Z ∧
    indices train_dataset ++ indices val_dataset ≡ₚ seq 0 2.
Proof.
  apply (split_dataset_sizes demo_externals demo_dataset (float_ratio 1 2) demo_world).
  - intros h n. simpl. reflexivity.
  - split; vm_compute; discriminate.
Defined.

Lemma training_step_loss_witness :
  fst <$> Autoencoder_1.training_step demo_encoder demo_decoder (demo_batch, ()) 0
  = Some (batch_mean_sq_error demo_batch demo_reconstruction) ∧
  batch_mean_sq_error demo_batch demo_reconstruction = Q_of_nat 38.
Proof.
  destruct (training_step_loss demo_encoder demo_decoder demo_batch () 0) as (_ & H & _).
  split.
  - apply H.
    + reflexivity.
    + repeat constructor.
    + discriminate.
  - apply Qc_is_canon. vm_compute. reflexivity.
Defined.


Lemma trial_split_is_deterministic_witness :
  ∃ train1 val1 train2 val2,
    result_of (prepare_and_split demo_externals "data" 1) demo_world = Ok (train1, val1) ∧
    result_of (prepare_and_split demo_externals "other" 5) demo_world = Ok (train2, val2) ∧
    dataset val1 = dataset train1 ∧ dataset val2 = dataset train2 ∧
    (indices train1, indices val1)
    = seeded_partition demo_externals (length (ds_labels (dataset train1))) ∧
    (length (ds_labels (dataset train1)) = length (ds_labels (dataset train2)) →
     indices train1 = indices train2 ∧ indices val1 = indices val2).
Proof.
  apply (trial_split_is_deterministic demo_externals demo_externals "data" "other" 1 5
           demo_world demo_world).
  reflexivity.
Defined.

Lemma compute_epoch_loss_is_mean_witness :
  compute_epoch_loss_autoencoder demo_model demo_loss demo_size demo_loader
  = Some (total_loss demo_model demo_loss demo_loader
          / Q2Qc (inject_Z (Z.of_nat (total_examples demo_size demo_loader)))).
Proof.
  apply (compute_epoch_loss_is_mean demo_model demo_loss demo_size demo_loader).
  vm_compute. lia.
Defined.

(** ** The further properties on the machine of the examples *)

Lemma training_step_loss_nonneg_witness :
  0 <= batch_mean_sq_error demo_batch demo_reconstruction.
Proof.
  apply (training_step_loss_nonneg demo_encoder demo_decoder (demo_batch, ()) 0).
  vm_compute. reflexivity.
Defined.

Lemma training_step_loss_zero_witness :
  fst <$> Autoencoder_1.training_step demo_encoder demo_decoder (demo_batch, ()) 0 = Some 0
  ↔ demo_reconstruction = demo_batch.
Proof.
  apply (training_step_loss_zero demo_encoder demo_decoder demo_batch () 0
           demo_reconstruction).
  - reflexivity.
  - repeat constructor.
  - discriminate.
Defined.

Lemma compute_epoch_loss_app_witness :
  ∃ L,
    compute_epoch_loss_autoencoder demo_model demo_loss demo_size demo_loader = Some L ∧
    compute_epoch_loss_autoencoder demo_model demo_loss demo_size (demo_loader ++ demo_loader)
    = Some ((Q_of_nat 3 * L + Q_of_nat 3 * L) / (Q_of_nat 3 + Q_of_nat 3)).
Proof.
  destruct (compute_epoch_loss_autoencoder demo_model demo_loss demo_size demo_loader)
    as [L|] eqn:HL; [|vm_compute in HL; discriminate HL].
  exists L. split; [reflexivity|].
  apply (compute_epoch_loss_app demo_model demo_loss demo_size demo_loader demo_loader L L);
    exact HL.
Defined.

Lemma compute_epoch_loss_bounds_witness :
  ∃ L,
    compute_epoch_loss_autoencoder demo_model demo_loss demo_size demo_loader = Some L ∧
    Q_of_nat 3 <= L ∧ L <= Q_of_nat 3.
Proof.
  destruct (compute_epoch_loss_autoencoder demo_model demo_loss demo_size demo_loader)
    as [L|] eqn:HL; [|vm_compute in HL; discriminate HL].
  exists L. split; [reflexivity|].
  apply (compute_epoch_loss_bounds demo_model demo_loss demo_size demo_loader
           (Q_of_nat 3) (Q_of_nat 3) L); [|exact HL].
  intros b Hb. unfold demo_loader in Hb.
  repeat (apply elem_of_cons in Hb as [->|Hb]); [| |by apply elem_of_nil in Hb];
    split; vm_compute; discriminate.
Defined.

Lemma split_dataset_partitions_witness :
  ∃ train_dataset val_dataset,
    result_of (split_dataset demo_externals demo_dataset (float_ratio 3 2)) demo_world
    = Ok (train_dataset, val_dataset) ∧
    dataset train_dataset = demo_dataset ∧ dataset val_dataset = demo_dataset ∧
    indices train_dataset ++ indices val_dataset ≡ₚ seq 0 2 ∧
    Z.of_nat (length (indices train_dataset))
    = slice_bound 2 (num_train_of demo_externals 2 (float_ratio 3 2)).
Proof.
  apply (split_dataset_partitions demo_externals demo_dataset (float_ratio 3 2)
           demo_world).
  intros h n. simpl. reflexivity.
Defined.

Lemma get_datasets_partitions_witness :
  let run := get_datasets demo_externals "data" 5 (float_ratio 8 10) None false in
  ∃ train_dataset val_dataset,
    result_of run demo_world = Ok (train_dataset, val_dataset) ∧
    dataset val_dataset = dataset train_dataset ∧
    ds_id (dataset train_dataset) = 0%nat ∧
    indices train_dataset ++ indices val_dataset
      ≡ₚ seq 0 (length (ds_labels (dataset train_dataset))) ∧
    omap created (emitted run demo_world)
    = [(0%nat, "AudioDataset"%string, [VStr "data"; VInt 5; VBool false; VNone], [])].
Proof.
  apply (get_datasets_partitions demo_externals "data" 5 (float_ratio 8 10) None false
           demo_world).
  intros h n. simpl. reflexivity.
Defined.

Lemma init_measurements_path_again_witness :
  let run := init_measurements_path demo_externals in
  let w1 := (run demo_world).2 in
  result_of run w1 = result_of run demo_world ∧
  mkdirs (emitted run w1) = [] ∧
  fs_dirs (run w1).2 = fs_dirs w1.
Proof.
  apply (init_measurements_path_again demo_externals demo_world).
  - intros h path. reflexivity.
  - intros h h'. reflexivity.
Defined.

Lemma hp_tuning_raises_name_error_witness :
  result_of (hp_tuning_voxforge_classifier demo_externals "data" 10 10 5 "") demo_world
  = Raise (NameError "trainer") ∧
  result_of (hp_tuning_voxforge_classifier demo_imported_externals "data" 10 10 5 "")
    demo_world
  = Raise (NameError "BaselineResnetClassifier").
Proof.
  split.
  - apply (hp_tuning_raises_name_error demo_externals "data" 10 10 5 "" demo_world).
    + reflexivity.
    + intros h. reflexivity.
    + intros h. vm_compute. eexists. reflexivity.
    + intros h trial name low high log_scale Hle. simpl. lia.
  - apply (hp_tuning_raises_name_error demo_imported_externals "data" 10 10 5 ""
             demo_world).
    reflexivity.
Defined.

Lemma search_stops_when_metric_missing_witness :
  let run := hp_tuning_voxforge_classifier demo_silent_externals "data" 10 10 5 "" in
  result_of run demo_world = Raise (KeyError "val_acc_step") ∧
  trial_steps (emitted run demo_world) = one_trial 1.
Proof.
  apply (search_stops_when_metric_missing demo_silent_externals "data" 10 10 5 "" demo_world).
  - reflexivity.
  - intros h. reflexivity.
  - intros h. reflexivity.
  - intros h trial name low high log_scale Hle. simpl. lia.
Defined.

Lemma demo_scores (h : list Event) (m d : nat) (idxs : list nat) :
  let scores := softmax demo_externals (model_forward demo_externals h m d idxs) in
  length scores = length idxs ∧ Forall (λ row, length row = 3%nat) scores.
Proof.
  simpl. split; [apply length_fmap|]. apply Forall_fmap, Forall_forall. by intros.
Qed.

Lemma get_auroc_score_sizes_witness :
  omap auroc_sizes (emitted (get_auroc demo_externals 7 demo_val 10) demo_world)
  = [(1%nat, 3%nat)].
Proof.
  apply (get_auroc_score_sizes demo_externals 7 demo_val 10 3 demo_world).
  - lia.
  - repeat constructor.
  - apply demo_scores.
  - intros h. reflexivity.
Defined.

Lemma get_auroc_fails_on_flattened_scores_witness :
  ¬ is_Ok (result_of (get_auroc demo_externals 7 demo_val 10) demo_world).
Proof.
  apply (get_auroc_fails_on_flattened_scores demo_externals 7 demo_val 10 3 demo_world).
  - lia.
  - repeat constructor.
  - apply demo_scores.
  - intros y_true y_score names _. simpl. tauto.
  - discriminate.
  - lia.
Defined.

Lemma train_model_baseline_fails_witness :
  ¬ is_Ok (result_of (train_model demo_externals 7 BASELINE_RESNET_NAME demo_train demo_val
                        5 10 true) demo_world).
Proof.
  apply (train_model_baseline_fails demo_externals 7 demo_train demo_val 5 10 true 3
           demo_world).
  - repeat constructor.
  - apply demo_scores.
  - intros y_true y_score names _. simpl. tauto.
  - discriminate.
  - lia.
Defined.

Lemma train_model_returns_its_logger_witness :
  saves (emitted demo_run demo_world)
  = [("./Checkpoints/epoch=04-val_acc_step=1.00.ckpt"%string, TrainerFile)] ∧
  result_of demo_run demo_world = Ok 0%nat ∧
  logger_metrics (demo_run demo_world).2 !! 0%nat = Some (fit_logger_metrics demo_fit) ∧
  next_id (demo_run demo_world).2 = 3%nat.
Proof.
  destruct (train_model_returns_its_logger demo_externals 7 MEL_AE_NAME demo_train
              demo_val 5 10 true demo_world) as (h & H); [discriminate|lia|].
  exact H.
Defined.

Lemma plot_confusion_matrix_rows_witness :
  ∃ conf_mat,
    result_of demo_matrix_run demo_world = Ok conf_mat ∧
    length conf_mat = 2%nat ∧
    Forall (λ row, length row = 2%nat ∧ normalized_row row) conf_mat.
Proof.
  destruct (result_of demo_matrix_run demo_world) as [conf_mat|x] eqn:Hrun;
    [|vm_compute in Hrun; discriminate Hrun].
  exists conf_mat. split; [reflexivity|].
  apply (plot_confusion_matrix_rows demo_externals 7 "Baseline Resnet" demo_val "Validation"
           10 "./Measurements" "12_00_00-" demo_world conf_mat).
  exact Hrun.
Defined.

Lemma plot_confusion_matrix_of_no_sample_witness :
  let run := plot_confusion_matrix demo_externals 7 "Baseline Resnet" demo_empty
               "Validation" 10 "./Measurements" "12_00_00-" in
  result_of run demo_world = Ok [[None; None]; [None; None]] ∧
  Print [VStr "Accuracy: "; VNum None; VStr "%"] ∈ emitted run demo_world.
Proof.
  destruct (plot_confusion_matrix_of_no_sample demo_externals 7 "Baseline Resnet"
              demo_empty "Validation" 10 "./Measurements" "12_00_00-" demo_world)
    as [H _]; [reflexivity|lia|].
  apply H. intros h path. reflexivity.
Defined.

(** ** The shapes of the examples *)

Lemma AutoEncoder_answers_28_by_28_witness :
  ∃ s, AutoEncoder.forward AutoEncoder_layer_shape [1; 1; 27; 26]%Z = Some s ∧
       s = [1; 1; 28; 28]%Z.
Proof.
  exists [1; 1; 28; 28]%Z. split; [vm_compute; reflexivity|].
  apply (AutoEncoder_answers_28_by_28 1 1 27 26 [1; 1; 28; 28]%Z).
  vm_compute. reflexivity.
Defined.

Lemma AutoEncoder_accepts_25_to_28_witness :
  AutoEncoder.forward AutoEncoder_layer_shape [4; 1; 25; 28]%Z = Some [4; 1; 28; 28]%Z.
Proof. apply (AutoEncoder_accepts_25_to_28 4 25 28); lia. Defined.

Lemma Autoencoder_1_reconstructs_32_by_32_witness :
  ∃ s, Coders.Autoencoder_1_forward 3 1280 128 [2; 3; 32; 32]%Z = Some s ∧
       1280%Z = 1280%Z ∧ s = [2; 3; 32; 32]%Z.
Proof.
  exists [2; 3; 32; 32]%Z. split; [vm_compute; reflexivity|].
  apply (Autoencoder_1_reconstructs_32_by_32 3 1280 128 2 3 32 32 [2; 3; 32; 32]%Z).
  vm_compute. reflexivity.
Defined.

Lemma Autoencoder_1_keeps_32_by_32_witness :
  Coders.Autoencoder_1_forward 1 1280 64 [8; 1; 32; 32]%Z = Some [8; 1; 32; 32]%Z.
Proof. apply (Autoencoder_1_keeps_32_by_32 1 64 8). lia. Defined.
